(** * homework_bot: the poll-check-notify loop of [homework.py]

    A shallow embedding of [src/homework.py] and [src/exceptions.py].

    - Python [str] objects are [string]s holding their UTF-8 bytes (a lone
      surrogate as its three bytes).
    - The values the program handles (what [response.json()] returns, the
      integer clock, [None]) are the inductive type [value].
    - Exceptions are the inductive type [exc]; a function that can raise
      returns a [result].
    - Logging, the HTTP request, the notifier call and [time.sleep] are
      recorded as a list of [event]s, in program order.
    - What the collaborators answer (the clock, [requests.get], the
      constructor [telegram.Bot], the bot) is an explicit argument of the
      function that asks.  A collaborator
      returns or raises a subclass of [Exception]; a signal that stops the
      process from outside ([KeyboardInterrupt]) is not part of a run.
    - [while True] never ends by itself: a run is the loop's first
      iterations, as many as there are worlds given. *)

From Stdlib Require Import String Ascii ZArith List Bool Lia.
From Stdlib Require Import Numbers.DecimalString.
Import ListNotations.

Local Open Scope string_scope.
Local Open Scope Z_scope.

(** ** Strings *)

Module Str.

(** The double quote, written by its code: U+0022. *)
Definition dq_char : ascii := "034"%char.
Definition dq : string := String dq_char "".
Definition sq_char : ascii := "'"%char.
Definition backslash : ascii := "\"%char.

(** [sub in s] *)
Fixpoint contains (s sub : string) : bool :=
  if String.prefix sub s then true
  else match s with
       | EmptyString => false
       | String _ s' => contains s' sub
       end.

Fixpoint mem_char (c : ascii) (s : string) : bool :=
  match s with
  | EmptyString => false
  | String c' s' => Ascii.eqb c c' || mem_char c s'
  end.

(** [sep.join(l)] *)
Fixpoint join (sep : string) (l : list string) : string :=
  match l with
  | [] => ""
  | [x] => x
  | x :: rest => x ++ sep ++ join sep rest
  end.

(** [str(z)] of a Python [int]. *)
Definition of_Z (z : Z) : string := NilZero.string_of_int (Z.to_int z).

Definition hex_digit (n : N) : ascii :=
  match n with
  | 0%N => "0" | 1%N => "1" | 2%N => "2" | 3%N => "3" | 4%N => "4"
  | 5%N => "5" | 6%N => "6" | 7%N => "7" | 8%N => "8" | 9%N => "9"
  | 10%N => "a" | 11%N => "b" | 12%N => "c" | 13%N => "d" | 14%N => "e"
  | _ => "f"
  end%char.

(** [k] hexadecimal digits of [n], lower case. *)
Fixpoint hex (k : nat) (n : N) : string :=
  match k with
  | O => ""
  | S k' => hex k' (n / 16) ++ String (hex_digit (n mod 16)) ""
  end.

(** How [repr] of a [str] writes an ASCII character inside the quotes [q]
    (CPython's [unicode_repr]). *)
Definition escape_char (q c : ascii) : string :=
  let n := N_of_ascii c in
  if Ascii.eqb c q || Ascii.eqb c backslash then String backslash (String c "")
  else if (n =? 9)%N then "\t"
  else if (n =? 10)%N then "\n"
  else if (n =? 13)%N then "\r"
  else if (n <? 32)%N || (n =? 127)%N then String backslash (String "x" (hex 2 n))
  else String c "".

(** The code points from U+0080 up for which [str.isprintable()] is false
    (the categories Other and Separator of the Unicode database, version
    14.0.0 in CPython 3.11), as ranges in increasing order. *)
Definition not_printable : list (N * N) :=
  [(128, 160); (173, 173); (888, 889); (896, 899); (907, 907); (909, 909);
   (930, 930); (1328, 1328); (1367, 1368); (1419, 1420); (1424, 1424);
   (1480, 1487); (1515, 1518); (1525, 1541); (1564, 1564); (1757, 1757);
   (1806, 1807); (1867, 1868); (1970, 1983); (2043, 2044); (2094, 2095);
   (2111, 2111); (2140, 2141); (2143, 2143); (2155, 2159); (2191, 2199);
   (2274, 2274); (2436, 2436); (2445, 2446); (2449, 2450); (2473, 2473);
   (2481, 2481); (2483, 2485); (2490, 2491); (2501, 2502); (2505, 2506);
   (2511, 2518); (2520, 2523); (2526, 2526); (2532, 2533); (2559, 2560);
   (2564, 2564); (2571, 2574); (2577, 2578); (2601, 2601); (2609, 2609);
   (2612, 2612); (2615, 2615); (2618, 2619); (2621, 2621); (2627, 2630);
   (2633, 2634); (2638, 2640); (2642, 2648); (2653, 2653); (2655, 2661);
   (2679, 2688); (2692, 2692); (2702, 2702); (2706, 2706); (2729, 2729);
   (2737, 2737); (2740, 2740); (2746, 2747); (2758, 2758); (2762, 2762);
   (2766, 2767); (2769, 2783); (2788, 2789); (2802, 2808); (2816, 2816);
   (2820, 2820); (2829, 2830); (2833, 2834); (2857, 2857); (2865, 2865);
   (2868, 2868); (2874, 2875); (2885, 2886); (2889, 2890); (2894, 2900);
   (2904, 2907); (2910, 2910); (2916, 2917); (2936, 2945); (2948, 2948);
   (2955, 2957); (2961, 2961); (2966, 2968); (2971, 2971); (2973, 2973);
   (2976, 2978); (2981, 2983); (2987, 2989); (3002, 3005); (3011, 3013);
   (3017, 3017); (3022, 3023); (3025, 3030); (3032, 3045); (3067, 3071);
   (3085, 3085); (3089, 3089); (3113, 3113); (3130, 3131); (3141, 3141);
   (3145, 3145); (3150, 3156); (3159, 3159); (3163, 3164); (3166, 3167);
   (3172, 3173); (3184, 3190); (3213, 3213); (3217, 3217); (3241, 3241);
   (3252, 3252); (3258, 3259); (3269, 3269); (3273, 3273); (3278, 3284);
   (3287, 3292); (3295, 3295); (3300, 3301); (3312, 3312); (3315, 3327);
   (3341, 3341); (3345, 3345); (3397, 3397); (3401, 3401); (3408, 3411);
   (3428, 3429); (3456, 3456); (3460, 3460); (3479, 3481); (3506, 3506);
   (3516, 3516); (3518, 3519); (3527, 3529); (3531, 3534); (3541, 3541);
   (3543, 3543); (3552, 3557); (3568, 3569); (3573, 3584); (3643, 3646);
   (3676, 3712); (3715, 3715); (3717, 3717); (3723, 3723); (3748, 3748);
   (3750, 3750); (3774, 3775); (3781, 3781); (3783, 3783); (3790, 3791);
   (3802, 3803); (3808, 3839); (3912, 3912); (3949, 3952); (3992, 3992);
   (4029, 4029); (4045, 4045); (4059, 4095); (4294, 4294); (4296, 4300);
   (4302, 4303); (4681, 4681); (4686, 4687); (4695, 4695); (4697, 4697);
   (4702, 4703); (4745, 4745); (4750, 4751); (4785, 4785); (4790, 4791);
   (4799, 4799); (4801, 4801); (4806, 4807); (4823, 4823); (4881, 4881);
   (4886, 4887); (4955, 4956); (4989, 4991); (5018, 5023); (5110, 5111);
   (5118, 5119); (5760, 5760); (5789, 5791); (5881, 5887); (5910, 5918);
   (5943, 5951); (5972, 5983); (5997, 5997); (6001, 6001); (6004, 6015);
   (6110, 6111); (6122, 6127); (6138, 6143); (6158, 6158); (6170, 6175);
   (6265, 6271); (6315, 6319); (6390, 6399); (6431, 6431); (6444, 6447);
   (6460, 6463); (6465, 6467); (6510, 6511); (6517, 6527); (6572, 6575);
   (6602, 6607); (6619, 6621); (6684, 6685); (6751, 6751); (6781, 6782);
   (6794, 6799); (6810, 6815); (6830, 6831); (6863, 6911); (6989, 6991);
   (7039, 7039); (7156, 7163); (7224, 7226); (7242, 7244); (7305, 7311);
   (7355, 7356); (7368, 7375); (7419, 7423); (7958, 7959); (7966, 7967);
   (8006, 8007); (8014, 8015); (8024, 8024); (8026, 8026); (8028, 8028);
   (8030, 8030); (8062, 8063); (8117, 8117); (8133, 8133); (8148, 8149);
   (8156, 8156); (8176, 8177); (8181, 8181); (8191, 8207); (8232, 8239);
   (8287, 8303); (8306, 8307); (8335, 8335); (8349, 8351); (8385, 8399);
   (8433, 8447); (8588, 8591); (9255, 9279); (9291, 9311); (11124, 11125);
   (11158, 11158); (11508, 11512); (11558, 11558); (11560, 11564);
   (11566, 11567); (11624, 11630); (11633, 11646); (11671, 11679);
   (11687, 11687); (11695, 11695); (11703, 11703); (11711, 11711);
   (11719, 11719); (11727, 11727); (11735, 11735); (11743, 11743);
   (11870, 11903); (11930, 11930); (12020, 12031); (12246, 12271);
   (12284, 12288); (12352, 12352); (12439, 12440); (12544, 12548);
   (12592, 12592); (12687, 12687); (12772, 12783); (12831, 12831);
   (42125, 42127); (42183, 42191); (42540, 42559); (42744, 42751);
   (42955, 42959); (42962, 42962); (42964, 42964); (42970, 42993);
   (43053, 43055); (43066, 43071); (43128, 43135); (43206, 43213);
   (43226, 43231); (43348, 43358); (43389, 43391); (43470, 43470);
   (43482, 43485); (43519, 43519); (43575, 43583); (43598, 43599);
   (43610, 43611); (43715, 43738); (43767, 43776); (43783, 43784);
   (43791, 43792); (43799, 43807); (43815, 43815); (43823, 43823);
   (43884, 43887); (44014, 44015); (44026, 44031); (55204, 55215);
   (55239, 55242); (55292, 63743); (64110, 64111); (64218, 64255);
   (64263, 64274); (64280, 64284); (64311, 64311); (64317, 64317);
   (64319, 64319); (64322, 64322); (64325, 64325); (64451, 64466);
   (64912, 64913); (64968, 64974); (64976, 65007); (65050, 65055);
   (65107, 65107); (65127, 65127); (65132, 65135); (65141, 65141);
   (65277, 65280); (65471, 65473); (65480, 65481); (65488, 65489);
   (65496, 65497); (65501, 65503); (65511, 65511); (65519, 65531);
   (65534, 65535); (65548, 65548); (65575, 65575); (65595, 65595);
   (65598, 65598); (65614, 65615); (65630, 65663); (65787, 65791);
   (65795, 65798); (65844, 65846); (65935, 65935); (65949, 65951);
   (65953, 65999); (66046, 66175); (66205, 66207); (66257, 66271);
   (66300, 66303); (66340, 66348); (66379, 66383); (66427, 66431);
   (66462, 66462); (66500, 66503); (66518, 66559); (66718, 66719);
   (66730, 66735); (66772, 66775); (66812, 66815); (66856, 66863);
   (66916, 66926); (66939, 66939); (66955, 66955); (66963, 66963);
   (66966, 66966); (66978, 66978); (66994, 66994); (67002, 67002);
   (67005, 67071); (67383, 67391); (67414, 67423); (67432, 67455);
   (67462, 67462); (67505, 67505); (67515, 67583); (67590, 67591);
   (67593, 67593); (67638, 67638); (67641, 67643); (67645, 67646);
   (67670, 67670); (67743, 67750); (67760, 67807); (67827, 67827);
   (67830, 67834); (67868, 67870); (67898, 67902); (67904, 67967);
   (68024, 68027); (68048, 68049); (68100, 68100); (68103, 68107);
   (68116, 68116); (68120, 68120); (68150, 68151); (68155, 68158);
   (68169, 68175); (68185, 68191); (68256, 68287); (68327, 68330);
   (68343, 68351); (68406, 68408); (68438, 68439); (68467, 68471);
   (68498, 68504); (68509, 68520); (68528, 68607); (68681, 68735);
   (68787, 68799); (68851, 68857); (68904, 68911); (68922, 69215);
   (69247, 69247); (69290, 69290); (69294, 69295); (69298, 69375);
   (69416, 69423); (69466, 69487); (69514, 69551); (69580, 69599);
   (69623, 69631); (69710, 69713); (69750, 69758); (69821, 69821);
   (69827, 69839); (69865, 69871); (69882, 69887); (69941, 69941);
   (69960, 69967); (70007, 70015); (70112, 70112); (70133, 70143);
   (70162, 70162); (70207, 70271); (70279, 70279); (70281, 70281);
   (70286, 70286); (70302, 70302); (70314, 70319); (70379, 70383);
   (70394, 70399); (70404, 70404); (70413, 70414); (70417, 70418);
   (70441, 70441); (70449, 70449); (70452, 70452); (70458, 70458);
   (70469, 70470); (70473, 70474); (70478, 70479); (70481, 70486);
   (70488, 70492); (70500, 70501); (70509, 70511); (70517, 70655);
   (70748, 70748); (70754, 70783); (70856, 70863); (70874, 71039);
   (71094, 71095); (71134, 71167); (71237, 71247); (71258, 71263);
   (71277, 71295); (71354, 71359); (71370, 71423); (71451, 71452);
   (71468, 71471); (71495, 71679); (71740, 71839); (71923, 71934);
   (71943, 71944); (71946, 71947); (71956, 71956); (71959, 71959);
   (71990, 71990); (71993, 71994); (72007, 72015); (72026, 72095);
   (72104, 72105); (72152, 72153); (72165, 72191); (72264, 72271);
   (72355, 72367); (72441, 72703); (72713, 72713); (72759, 72759);
   (72774, 72783); (72813, 72815); (72848, 72849); (72872, 72872);
   (72887, 72959); (72967, 72967); (72970, 72970); (73015, 73017);
   (73019, 73019); (73022, 73022); (73032, 73039); (73050, 73055);
   (73062, 73062); (73065, 73065); (73103, 73103); (73106, 73106);
   (73113, 73119); (73130, 73439); (73465, 73647); (73649, 73663);
   (73714, 73726); (74650, 74751); (74863, 74863); (74869, 74879);
   (75076, 77711); (77811, 77823); (78895, 82943); (83527, 92159);
   (92729, 92735); (92767, 92767); (92778, 92781); (92863, 92863);
   (92874, 92879); (92910, 92911); (92918, 92927); (92998, 93007);
   (93018, 93018); (93026, 93026); (93048, 93052); (93072, 93759);
   (93851, 93951); (94027, 94030); (94088, 94094); (94112, 94175);
   (94181, 94191); (94194, 94207); (100344, 100351); (101590, 101631);
   (101641, 110575); (110580, 110580); (110588, 110588); (110591, 110591);
   (110883, 110927); (110931, 110947); (110952, 110959); (111356, 113663);
   (113771, 113775); (113789, 113791); (113801, 113807); (113818, 113819);
   (113824, 118527); (118574, 118575); (118599, 118607); (118724, 118783);
   (119030, 119039); (119079, 119080); (119155, 119162); (119275, 119295);
   (119366, 119519); (119540, 119551); (119639, 119647); (119673, 119807);
   (119893, 119893); (119965, 119965); (119968, 119969); (119971, 119972);
   (119975, 119976); (119981, 119981); (119994, 119994); (119996, 119996);
   (120004, 120004); (120070, 120070); (120075, 120076); (120085, 120085);
   (120093, 120093); (120122, 120122); (120127, 120127); (120133, 120133);
   (120135, 120137); (120145, 120145); (120486, 120487); (120780, 120781);
   (121484, 121498); (121504, 121504); (121520, 122623); (122655, 122879);
   (122887, 122887); (122905, 122906); (122914, 122914); (122917, 122917);
   (122923, 123135); (123181, 123183); (123198, 123199); (123210, 123213);
   (123216, 123535); (123567, 123583); (123642, 123646); (123648, 124895);
   (124903, 124903); (124908, 124908); (124911, 124911); (124927, 124927);
   (125125, 125126); (125143, 125183); (125260, 125263); (125274, 125277);
   (125280, 126064); (126133, 126208); (126270, 126463); (126468, 126468);
   (126496, 126496); (126499, 126499); (126501, 126502); (126504, 126504);
   (126515, 126515); (126520, 126520); (126522, 126522); (126524, 126529);
   (126531, 126534); (126536, 126536); (126538, 126538); (126540, 126540);
   (126544, 126544); (126547, 126547); (126549, 126550); (126552, 126552);
   (126554, 126554); (126556, 126556); (126558, 126558); (126560, 126560);
   (126563, 126563); (126565, 126566); (126571, 126571); (126579, 126579);
   (126584, 126584); (126589, 126589); (126591, 126591); (126602, 126602);
   (126620, 126624); (126628, 126628); (126634, 126634); (126652, 126703);
   (126706, 126975); (127020, 127023); (127124, 127135); (127151, 127152);
   (127168, 127168); (127184, 127184); (127222, 127231); (127406, 127461);
   (127491, 127503); (127548, 127551); (127561, 127567); (127570, 127583);
   (127590, 127743); (128728, 128732); (128749, 128751); (128765, 128767);
   (128884, 128895); (128985, 128991); (129004, 129007); (129009, 129023);
   (129036, 129039); (129096, 129103); (129114, 129119); (129160, 129167);
   (129198, 129199); (129202, 129279); (129620, 129631); (129646, 129647);
   (129653, 129655); (129661, 129663); (129671, 129679); (129709, 129711);
   (129723, 129727); (129734, 129743); (129754, 129759); (129768, 129775);
   (129783, 129791); (129939, 129939); (129995, 130031); (130042, 131071);
   (173792, 173823); (177977, 177983); (178206, 178207); (183970, 183983);
   (191457, 194559); (195102, 196607); (201547, 917759); (918000, 1114111)]%N.

Fixpoint in_ranges (rs : list (N * N)) (cp : N) : bool :=
  match rs with
  | [] => false
  | (lo, hi) :: rest =>
      if (cp <? lo)%N then false
      else if (cp <=? hi)%N then true
      else in_ranges rest cp
  end.

(** [chr(cp).isprintable()] for a code point from U+0080 up. *)
Definition isprintable (cp : N) : bool := negb (in_ranges not_printable cp).

(** How [repr] writes the character with code point [cp >= 0x80], whose
    UTF-8 bytes are [bytes]: copied when printable, else as [\xhh],
    [\uhhhh] or [\Uhhhhhhhh]. *)
Definition escape_code (cp : N) (bytes : string) : string :=
  if isprintable cp then bytes
  else if (cp <=? 255)%N then String backslash (String "x" (hex 2 cp))
  else if (cp <=? 65535)%N then String backslash (String "u" (hex 4 cp))
  else String backslash (String "U" (hex 8 cp)).

(** Reading a string character by character.  In the middle of a character
    of several bytes the reader holds [Some (k, cp, bytes)]: [k + 1] more
    bytes are to come, [cp] is the code point read so far and [bytes] are
    the bytes read so far. *)
Definition pending : Type := option (nat * N * string).

Definition is_continuation (c : ascii) : bool :=
  let n := N_of_ascii c in (128 <=? n)%N && (n <? 192)%N.

(** The reader's state after the first byte [c] of a character. *)
Definition lead (c : ascii) : pending :=
  let n := N_of_ascii c in
  if (n <? 192)%N then None
  else if (n <? 224)%N then Some (0%nat, (n - 192)%N, String c "")
  else if (n <? 240)%N then Some (1%nat, (n - 224)%N, String c "")
  else if (n <? 248)%N then Some (2%nat, (n - 240)%N, String c "")
  else None.

(** The reader's state after the byte [c]. *)
Definition next (p : pending) (c : ascii) : pending :=
  match p with
  | Some (k, cp, bytes) =>
      if is_continuation c then
        match k with
        | O => None
        | S k' => Some (k', (cp * 64 + (N_of_ascii c - 128))%N, bytes ++ String c "")
        end
      else lead c
  | None => lead c
  end.

(** What [repr] writes at the first byte [c] of a character: the escape of
    an ASCII character at once, nothing yet for a character of several
    bytes.  A byte that begins no character belongs to no [str]; it is
    copied. *)
Definition written_lead (q c : ascii) : string :=
  if (N_of_ascii c <? 128)%N then escape_char q c
  else match lead c with
       | Some _ => ""
       | None => String c ""
       end.

(** What [repr] writes at the byte [c]: a character of several bytes is
    written at its last byte.  Bytes of a character that is cut short belong
    to no [str]; they are copied. *)
Definition written (q : ascii) (p : pending) (c : ascii) : string :=
  match p with
  | Some (k, cp, bytes) =>
      if is_continuation c then
        match k with
        | O => escape_code (cp * 64 + (N_of_ascii c - 128))%N (bytes ++ String c "")
        | S _ => ""
        end
      else bytes ++ written_lead q c
  | None => written_lead q c
  end.

Definition flush (p : pending) : string :=
  match p with
  | Some (_, _, bytes) => bytes
  | None => ""
  end.

Fixpoint escape_from (q : ascii) (p : pending) (s : string) : string :=
  match s with
  | EmptyString => flush p
  | String c s' => written q p c ++ escape_from q (next p c) s'
  end.

(** The characters of [s] as [repr] writes them inside the quotes [q]. *)
Definition escape (q : ascii) (s : string) : string := escape_from q None s.

Fixpoint after (p : pending) (s : string) : pending :=
  match s with
  | EmptyString => p
  | String c s' => after (next p c) s'
  end.

(** [s] does not end in the middle of a character.  The UTF-8 bytes of a
    [str] never do. *)
Definition complete (s : string) : bool :=
  match after None s with
  | None => true
  | Some _ => false
  end.

(** The quotes [repr] chooses: double quotes when the string holds a single
    quote and no double quote, single quotes otherwise. *)
Definition quote_of (s : string) : ascii :=
  if mem_char sq_char s && negb (mem_char dq_char s) then dq_char else sq_char.

(** [repr(s)] of a [str]. *)
Definition repr (s : string) : string :=
  let q := quote_of s in String q (escape q s ++ String q "").

(** A printable ASCII character that is no quote and no backslash: [repr]
    copies it whatever the quotes are. *)
Definition plain_char (c : ascii) : bool :=
  let n := N_of_ascii c in
  (32 <=? n)%N && (n <? 127)%N
  && negb (Ascii.eqb c sq_char || Ascii.eqb c dq_char || Ascii.eqb c backslash).

Fixpoint plain (s : string) : bool :=
  match s with
  | EmptyString => true
  | String c s' => plain_char c && plain s'
  end.

(** [repr] copies every character of [s], whatever the quotes are: [s]
    holds printable characters only, and no quote and no backslash. *)
Definition verbatim (s : string) : bool :=
  complete s && String.eqb (escape sq_char s) s && String.eqb (escape dq_char s) s.

End Str.

(** ** Values *)

#[local] Set Warnings "-register-all".

(** What [response.json()] can return, the integer clock and [None].  A
    [float] is kept as its [repr] (["1.5"], ["1e+16"], ["nan"]), which
    identifies it; it is false exactly when it is a zero.  A [dict] keeps
    its items in insertion order; its keys are strings, as JSON's are. *)
Inductive value : Type :=
| VNone
| VBool (b : bool)
| VInt (z : Z)
| VFloat (r : string)
| VStr (s : string)
| VList (l : list value)
| VDict (d : list (string * value)).

(** [bool(v)] *)
Definition truthy (v : value) : bool :=
  match v with
  | VNone => false
  | VBool b => b
  | VInt z => negb (z =? 0)
  | VFloat r => negb (String.eqb r "0.0" || String.eqb r "-0.0")
  | VStr s => negb (String.eqb s "")
  | VList l => match l with [] => false | _ => true end
  | VDict d => match d with [] => false | _ => true end
  end.

(** [type(v).__name__] *)
Definition type_name (v : value) : string :=
  match v with
  | VNone => "NoneType"
  | VBool _ => "bool"
  | VInt _ => "int"
  | VFloat _ => "float"
  | VStr _ => "str"
  | VList _ => "list"
  | VDict _ => "dict"
  end.

(** [str(type(v))], as an f-string writes [{type(v)}]. *)
Definition type_str (v : value) : string := "<class '" ++ type_name v ++ "'>".

(** [repr(v)] *)
Fixpoint py_repr (v : value) : string :=
  match v with
  | VNone => "None"
  | VBool true => "True"
  | VBool false => "False"
  | VInt z => Str.of_Z z
  | VFloat r => r
  | VStr s => Str.repr s
  | VList l => "[" ++ Str.join ", " (map py_repr l) ++ "]"
  | VDict d =>
      "{" ++ Str.join ", "
               (map (fun kv => let '(k, x) := kv in Str.repr k ++ ": " ++ py_repr x) d)
          ++ "}"
  end.

(** [str(v)], which is also [format(v, '')]: what [{v}] becomes in an
    f-string or under [str.format]. *)
Definition py_str (v : value) : string :=
  match v with
  | VStr s => s
  | _ => py_repr v
  end.

(** [d.get(key)] and [key in d] of a [dict]'s items. *)
Fixpoint lookup (key : string) (d : list (string * value)) : option value :=
  match d with
  | [] => None
  | (k, x) :: rest => if String.eqb k key then Some x else lookup key rest
  end.

Definition has_key (key : string) (d : list (string * value)) : bool :=
  match lookup key d with Some _ => true | None => false end.

(** ** Exceptions *)

(** The classes of [exceptions.py], and the built-in ones this program
    raises. *)
Inductive exc_class : Type :=
| WrongResponseCode
| NotForSend
| RequestExceptionError
| UnknownStatusError
| KeyError
| TypeError
| AttributeError.

Definition class_name (c : exc_class) : string :=
  match c with
  | WrongResponseCode => "WrongResponseCode"
  | NotForSend => "NotForSend"
  | RequestExceptionError => "RequestExceptionError"
  | UnknownStatusError => "UnknownStatusError"
  | KeyError => "KeyError"
  | TypeError => "TypeError"
  | AttributeError => "AttributeError"
  end.

Definition class_eqb (a b : exc_class) : bool := String.eqb (class_name a) (class_name b).

(** An exception raised outside this repository's code, by [requests],
    [json] or [telegram]: a subclass of [Exception], known by whether its
    class derives from [telegram.TelegramError], by its [str()] and by its
    [repr()]. *)
Record foreign : Type := {
  telegram : bool;
  str_text : string;
  repr_text : string
}.

(** An exception object.  [Exc c x] is [c(x)], raised by this program;
    [Exc2 c m e] is [c(m, e)] with [e] an exception, the shape
    [get_api_answer] builds. *)
Inductive exc : Type :=
| Exc (cls : exc_class) (arg : value)
| Exc2 (cls : exc_class) (message : string) (cause : exc)
| Foreign (f : foreign).

(** [repr(e)], as Python 3.7 and later write it. *)
Fixpoint exc_repr (e : exc) : string :=
  match e with
  | Exc c x => class_name c ++ "(" ++ py_repr x ++ ")"
  | Exc2 c m e' => class_name c ++ "(" ++ Str.repr m ++ ", " ++ exc_repr e' ++ ")"
  | Foreign f => repr_text f
  end.

(** [str(e)]: [BaseException.__str__] gives [str] of a single argument and
    [str] of the tuple of arguments when there are two; [KeyError] gives the
    [repr] of a single argument; [UnknownStatusError] has its own
    [__str__]. *)
Definition exc_str (e : exc) : string :=
  match e with
  | Exc KeyError x => py_repr x
  | Exc UnknownStatusError x => "UnknownStatusError --> " ++ py_str x
  | Exc _ x => py_str x
  | Exc2 _ m e' => "(" ++ Str.repr m ++ ", " ++ exc_repr e' ++ ")"
  | Foreign f => str_text f
  end.

(** [isinstance(e, telegram.TelegramError)] and [isinstance(e, NotForSend)]:
    no class of the repository derives from another one of them. *)
Definition is_TelegramError (e : exc) : bool :=
  match e with
  | Foreign f => telegram f
  | _ => false
  end.

Definition is_NotForSend (e : exc) : bool :=
  match e with
  | Exc c _ | Exc2 c _ _ => class_eqb c NotForSend
  | Foreign _ => false
  end.

Inductive result (A : Type) : Type :=
| Return (a : A)
| Raise (e : exc).
Arguments Return {A} a.
Arguments Raise {A} e.

(** What a call into a collaborator does: it returns, or it raises an
    exception of the collaborator's. *)
Inductive answer (A : Type) : Type :=
| Returns (a : A)
| Raises (f : foreign).
Arguments Returns {A} a.
Arguments Raises {A} f.

(** ** Events *)

(** [logging.*] writes to the root logger, [logger.*] to the module's. *)
Inductive logger_name : Type := root_logger | module_logger.
Inductive level : Type := DEBUG | INFO | ERROR | CRITICAL.

Inductive event : Type :=
| Log (lg : logger_name) (lvl : level) (text : string)
| HttpGet (url : string) (headers params : value)
| BotSend (chat_id : option string) (text : string)
| Sleep (seconds : Z).

(** ** Functions: events and a result *)

Definition F (A : Type) : Type := (list event * result A)%type.

Module FM.

Definition ret {A} (a : A) : F A := ([], Return a).
Definition raise {A} (e : exc) : F A := ([], Raise e).
Definition emit (ev : event) : F unit := ([ev], Return tt).
Definition collaborator {A} (a : answer A) : F A :=
  match a with
  | Returns x => ([], Return x)
  | Raises f => ([], Raise (Foreign f))
  end.

Definition bind {A B} (c : F A) (k : A -> F B) : F B :=
  match c with
  | (ev, Return a) => let (ev', r) := k a in (ev ++ ev', r)%list
  | (ev, Raise e) => (ev, Raise e)
  end.

(** [try: c  except <class> as e: h e], the class given by [catches]. *)
Definition try_except {A} (catches : exc -> bool) (c : F A) (h : exc -> F A) : F A :=
  match c with
  | (ev, Raise e) => if catches e then let (ev', r) := h e in (ev ++ ev', r)%list
                     else (ev, Raise e)
  | done => done
  end.

End FM.

Declare Scope F_scope.
Delimit Scope F_scope with F.
Notation "x <- c ;; k" := (FM.bind c (fun x => k))
  (at level 61, c at next level, right associativity) : F_scope.
Notation "c ;; k" := (FM.bind c (fun _ => k))
  (at level 61, right associativity) : F_scope.

Definition log (lg : logger_name) (lvl : level) (text : string) : F unit :=
  FM.emit (Log lg lvl text).

(** [isinstance(e, Exception)]: every exception of the model. *)
Definition Exception (e : exc) : bool := true.

(** ** Module constants *)

(** The three values [os.getenv] reads when the module is loaded: [None]
    when the variable is not set, its text otherwise. *)
Record config : Type := {
  PRACTICUM_TOKEN : option string;
  TELEGRAM_TOKEN : option string;
  TELEGRAM_CHAT_ID : option string
}.

Definition env_value (v : option string) : value :=
  match v with
  | Some s => VStr s
  | None => VNone
  end.

Definition RETRY_PERIOD : Z := 600.
Definition ENDPOINT : string := "https://practicum.yandex.ru/api/user_api/homework_statuses/".
Definition HEADERS (cfg : config) : value :=
  VDict [("Authorization", VStr ("OAuth " ++ py_str (env_value (PRACTICUM_TOKEN cfg))))].

Definition HOMEWORK_VERDICTS : list (string * value) :=
  [("approved", VStr "Работа проверена: ревьюеру всё понравилось. Ура!");
   ("reviewing", VStr "Работа взята на проверку ревьюером.");
   ("rejected", VStr "Работа проверена: у ревьюера есть замечания.")].

(** ** The functions of [homework.py] *)

(** [check_tokens] *)
Definition check_tokens (cfg : config) : F bool :=
  (log root_logger INFO "Проверка наличия всех токенов" ;;
   FM.ret (forallb truthy [env_value (PRACTICUM_TOKEN cfg);
                           env_value (TELEGRAM_TOKEN cfg);
                           env_value (TELEGRAM_CHAT_ID cfg)]))%F.

(** What [requests.get] hands back: the fields [get_api_answer] reads, and
    what the [json()] method does when called. *)
Record http_response : Type := {
  status_code : Z;
  reason : string;
  text : string;
  json : answer value
}.

(** The text ['{url}, {headers}, {params}.'] formatted with the request's
    keyword arguments. *)
Definition request_text (cfg : config) (params : value) : string :=
  ENDPOINT ++ ", " ++ py_str (HEADERS cfg) ++ ", " ++ py_str params ++ ".".

(** [get_api_answer(timestamp)].  [now] is what [int(time.time())] gives,
    [get] what the call of [requests.get] does. *)
Definition get_api_answer (cfg : config) (now : Z) (get : answer http_response)
    (timestamp : value) : F value :=
  let timestamp := if truthy timestamp then timestamp else VInt now in
  let params := VDict [("from_date", timestamp)] in
  let message := "Начало запроса к API. Запрос: " ++ request_text cfg params in
  (log root_logger INFO message ;;
   FM.try_except Exception
     (FM.emit (HttpGet ENDPOINT (HEADERS cfg) params) ;;
      response <- FM.collaborator get ;;
      if negb (status_code response =? 200) then
        FM.raise (Exc WrongResponseCode (VStr (
          "Ответ API не возвращает 200. "
          ++ "Код ответа: " ++ py_str (VInt (status_code response)) ++ ". "
          ++ "Причина: " ++ reason response ++ ". "
          ++ "Текст: " ++ text response ++ ".")))
      else FM.collaborator (json response))
     (fun error =>
        let message := "API не возвращает 200. Запрос: " ++ request_text cfg params in
        FM.raise (Exc2 WrongResponseCode message error)))%F.

(** [check_response(response)].  It returns [response.get('homeworks')]
    after [isinstance(..., list)] held, so the result is a list. *)
Definition check_response (response : value) : F (list value) :=
  match response with
  | VDict d =>
      (log module_logger DEBUG
         ("Тип данных ответа сервера правильный: " ++ type_str response) ;;
       match lookup "homeworks" d with
       | None =>
           FM.raise (Exc KeyError (VStr (
             "Ответ сервера не содержит ключ " ++ Str.dq ++ "homeworks" ++ Str.dq ++ ": "
             ++ py_str response)))
       | Some homeworks =>
           (if truthy homeworks
            then log module_logger DEBUG "Ответ сервера содержит сведения о домашних работах"
            else log module_logger INFO "Ответ сервера не содержит сведения о домашних работах") ;;
           match lookup "current_date" d with
           | None =>
               FM.raise (Exc KeyError (VStr (
                 "Ответ сервера не содержит текущую дату "
                 ++ "(ключ " ++ Str.dq ++ "current_date" ++ Str.dq ++ "): " ++ py_str response)))
           | Some current_date =>
               (if truthy current_date
                then log module_logger DEBUG
                       ("Ответ сервера содержит текущую дату (ключ "
                        ++ Str.dq ++ "current_date" ++ Str.dq ++ ")")
                else FM.ret tt) ;;
               match homeworks with
               | VList l =>
                   log module_logger DEBUG
                     ("Проверен тип данных ответа сервера с ключом "
                      ++ Str.dq ++ "homeworks" ++ Str.dq ++ ": " ++ type_str homeworks) ;;
                   FM.ret l
               | _ =>
                   FM.raise (Exc TypeError (VStr (
                     "Неправильный тип данных ответа сервера с ключом "
                     ++ Str.dq ++ "homeworks" ++ Str.dq ++ ":" ++ type_str homeworks)))
               end
           end
       end)%F
  | _ =>
      FM.raise (Exc TypeError (VStr (
        "Неправильный тип данных ответа сервера: " ++ type_str response)))
  end.

(** [AttributeError] for [obj.name] when [obj] has no such attribute. *)
Definition attribute_error (obj : value) (name : string) : exc :=
  Exc AttributeError (VStr (
    "'" ++ type_name obj ++ "' object has no attribute '" ++ name ++ "'")).

(** [d.get(key, default)] of a [dict]'s items. *)
Definition get_item (d : list (string * value)) (key : string) (default : value) : value :=
  match lookup key d with
  | Some x => x
  | None => default
  end.

(** [obj.get(key, default)]: only a [dict] has the method. *)
Definition py_get (obj : value) (key : string) (default : value) : F value :=
  match obj with
  | VDict d => FM.ret (get_item d key default)
  | _ => FM.raise (attribute_error obj "get")
  end.

(** A key of a [dict] must be hashable: a [list] or a [dict] is not. *)
Definition hashable (key : value) : bool :=
  match key with
  | VList _ | VDict _ => false
  | _ => true
  end.

Definition hash_key (key : value) : F unit :=
  if hashable key then FM.ret tt
  else FM.raise (Exc TypeError (VStr ("unhashable type: '" ++ type_name key ++ "'"))).

(** The item of a [dict] with [str] keys that [key] names: only an equal
    [str] does. *)
Definition find_item (d : list (string * value)) (key : value) : option value :=
  match key with
  | VStr s => lookup s d
  | _ => None
  end.

(** [d.get(key)], [key in d] and [d[key]] for an arbitrary [key]. *)
Definition dict_get (d : list (string * value)) (key : value) : F value :=
  (hash_key key ;;
   FM.ret (match find_item d key with Some x => x | None => VNone end))%F.

Definition dict_contains (d : list (string * value)) (key : value) : F bool :=
  (hash_key key ;;
   FM.ret (match find_item d key with Some _ => true | None => false end))%F.

Definition dict_item (d : list (string * value)) (key : value) : F value :=
  (hash_key key ;;
   match find_item d key with
   | Some x => FM.ret x
   | None => FM.raise (Exc KeyError key)
   end)%F.

Definition is_None (v : value) : bool :=
  match v with
  | VNone => true
  | _ => false
  end.

(** [parse_status(homework)].  The first statement calls [homework.get],
    which only a [dict] has; from there on [homework] is that [dict]. *)
Definition parse_status (homework : value) : F string :=
  match homework with
  | VDict d =>
      let homework_name := get_item d "homework_name" VNone in
      let homework_status := get_item d "status" VNone in
      (verdict <- dict_get HOMEWORK_VERDICTS (get_item d "status" VNone) ;;
       known <- dict_contains HOMEWORK_VERDICTS homework_status ;;
       if negb known then
         FM.raise (Exc KeyError (VStr "Такого статуса не существует"))
       else if negb (has_key "homework_name" d) then
         FM.raise (Exc KeyError (VStr "Такого имени не существует"))
       else if negb (truthy verdict) then
         FM.raise (Exc KeyError (VStr (
           "Отсутствует документированный статус"
           ++ "проверки работы " ++ Str.dq ++ py_str homework_name ++ Str.dq)))
       else if is_None homework then
         FM.raise (Exc UnknownStatusError (VStr (
           "Неизвестный статус " ++ Str.dq ++ py_str homework_status ++ Str.dq ++ " "
           ++ "у работы " ++ Str.dq ++ py_str homework_name ++ Str.dq)))
       else
         verdict <- dict_item HOMEWORK_VERDICTS homework_status ;;
         FM.ret ("Изменился статус проверки работы "
                 ++ Str.dq ++ py_str homework_name ++ Str.dq ++ ". " ++ py_str verdict))%F
  | _ => FM.raise (attribute_error homework "get")
  end.

(** The bot object: what [bot.send_message(chat_id, text)] does. *)
Definition Bot : Type := option string -> string -> answer unit.

(** [send_message(bot, message)] *)
Definition send_message (cfg : config) (bot : Bot) (message : string) : F unit :=
  FM.try_except is_TelegramError
    (FM.emit (BotSend (TELEGRAM_CHAT_ID cfg) message) ;;
     FM.collaborator (bot (TELEGRAM_CHAT_ID cfg) message) ;;
     log module_logger DEBUG ("Сообщение в Telegram отправлено: " ++ message))%F
    (fun telegram_error =>
       log module_logger ERROR
         ("Сообщение в Telegram не отправлено: " ++ exc_str telegram_error)).

(** [log_and_send_error_to_Telegram(bot, message)] *)
Definition log_and_send_error_to_Telegram (cfg : config) (bot : Bot) (message : string)
    : F unit :=
  (log module_logger ERROR message ;;
   send_message cfg bot message)%F.

(** ** [main]: the locals of the loop *)

(** The local variables of [main] the loop reads and writes.  [message] is
    not bound before the first iteration assigns it. *)
Record locals : Type := {
  timestamp : value;
  prev_msg : string;
  message : option string
}.

(** The locals after an assignment to one of them. *)
Definition with_cursor (st : locals) (cursor : value) : locals :=
  {| timestamp := cursor; prev_msg := prev_msg st; message := message st |}.
Definition with_prev_msg (st : locals) (m : string) : locals :=
  {| timestamp := timestamp st; prev_msg := m; message := message st |}.
Definition with_message (st : locals) (m : string) : locals :=
  {| timestamp := timestamp st; prev_msg := prev_msg st; message := Some m |}.

(** Code of [main]: it reads and writes the locals, leaves events and
    returns or raises.  An assignment made before a raise stays made. *)
Definition M (A : Type) : Type := locals -> (list event * locals * result A)%type.

Module MM.

Definition ret {A} (a : A) : M A := fun st => ([], st, Return a).

Definition bind {A B} (c : M A) (k : A -> M B) : M B :=
  fun st =>
    match c st with
    | (ev, st', Return a) => let '(ev', st'', r) := k a st' in ((ev ++ ev')%list, st'', r)
    | (ev, st', Raise e) => (ev, st', Raise e)
    end.

(** A call of one of the functions above. *)
Definition call {A} (c : F A) : M A := fun st => (fst c, st, snd c).

Definition read {A} (field : locals -> A) : M A := fun st => ([], st, Return (field st)).

Definition set_timestamp (v : value) : M unit :=
  fun st => ([], with_cursor st v, Return tt).
Definition set_prev_msg (s : string) : M unit :=
  fun st => ([], with_prev_msg st s, Return tt).
Definition set_message (s : string) : M unit :=
  fun st => ([], with_message st s, Return tt).

(** [try: c  except <class> as e: h e] *)
Definition try_except {A} (catches : exc -> bool) (c : M A) (h : exc -> M A) : M A :=
  fun st =>
    match c st with
    | (ev, st', Raise e) =>
        if catches e then let '(ev', st'', r) := h e st' in ((ev ++ ev')%list, st'', r)
        else (ev, st', Raise e)
    | done => done
    end.

(** [try: c  finally: f], for an [f] that returns. *)
Definition try_finally {A} (c : M A) (f : M unit) : M A :=
  fun st =>
    let '(ev, st', r) := c st in
    let '(ev', st'', _) := f st' in ((ev ++ ev')%list, st'', r).

End MM.

Declare Scope M_scope.
Delimit Scope M_scope with M.
Notation "x <- c ;; k" := (MM.bind c (fun x => k))
  (at level 61, c at next level, right associativity) : M_scope.
Notation "c ;; k" := (MM.bind c (fun _ => k))
  (at level 61, right associativity) : M_scope.

(** What the collaborators do during one iteration: the clock read inside
    [get_api_answer], the HTTP call, the clock read on line 184, and the
    bot.  An iteration calls the bot at most twice, with a message of lines
    188-190 and with a failure text, which are never the same text: one
    [Bot] can give each call an answer of its own. *)
Record world : Type := {
  api_clock : Z;
  http : answer http_response;
  clock : Z;
  bot : Bot
}.

(** Lines 182-190: the API call, the cursor, the validation and the
    message. *)
Definition derive (cfg : config) (w : world) : M string :=
  (cursor <- MM.read timestamp ;;
   response <- MM.call (get_api_answer cfg (api_clock w) (http w) cursor) ;;
   current_date <- MM.call (py_get response "current_date" (VInt (clock w))) ;;
   MM.set_timestamp current_date ;;
   homeworks <- MM.call (check_response response) ;;
   message <- match homeworks with
              | homework :: _ => MM.call (parse_status homework)
              | [] => MM.ret "Нет новых статусов"
              end ;;
   MM.set_message message ;;
   MM.ret message)%M.

(** Lines 191-195 and 204-206: send [message] unless it is the last one
    sent. *)
Definition send_if_new (cfg : config) (w : world) (message : string)
    (otherwise : M unit) : M unit :=
  (last <- MM.read prev_msg ;;
   if negb (String.eqb message last) then
     MM.call (send_message cfg (bot w) message) ;;
     MM.set_prev_msg message
   else otherwise)%M.

(** The text both handlers give [message]. *)
Definition failure_text (error : exc) : string :=
  "Сбой в работе программы: " ++ exc_str error.

(** Lines 197-206: [except NotForSend as error] and, for every other
    exception, [except Exception as error]. *)
Definition handlers (cfg : config) (w : world) (error : exc) : M unit :=
  if is_NotForSend error then
    (let message := failure_text error in
     MM.set_message message ;;
     MM.call (log root_logger ERROR message))%M
  else
    (let message := failure_text error in
     MM.set_message message ;;
     MM.call (log root_logger ERROR message) ;;
     send_if_new cfg w message (MM.ret tt))%M.

(** The body of [while True]. *)
Definition iteration (cfg : config) (w : world) : M unit :=
  MM.try_finally
    (MM.try_except Exception
       (message <- derive cfg w ;;
        send_if_new cfg w message (MM.call (log root_logger INFO message)))%M
       (handlers cfg w))
    (MM.call (FM.emit (Sleep RETRY_PERIOD))).

(** The loop over the worlds of its first iterations: it stops when an
    exception leaves an iteration, and is otherwise still polling. *)
Fixpoint loop (cfg : config) (ws : list world) : M unit :=
  match ws with
  | [] => MM.ret tt
  | w :: rest => (iteration cfg w ;; loop cfg rest)%M
  end.

(** What each iteration of the loop did, in order: its events, the locals
    it left, and whether it returned. *)
Fixpoint iterations (cfg : config) (ws : list world) (st : locals)
    : list (list event * locals * result unit) :=
  match ws with
  | [] => []
  | w :: rest =>
      let '(ev, st', r) := iteration cfg w st in
      (ev, st', r) :: match r with
                      | Return _ => iterations cfg rest st'
                      | Raise _ => []
                      end
  end.

(** How the process stands: [sys.exit(arg)] was called, an exception left
    [main], or the loop is about to start its next iteration. *)
Inductive process : Type :=
| Exit (arg : value)
| Uncaught (e : exc)
| Polling (st : locals).

(** The exit status of [sys.exit(arg)]: 0 for [None], the integer itself,
    and 1 for anything else, which is printed to stderr. *)
Definition exit_status (arg : value) : Z :=
  match arg with
  | VNone => 0
  | VInt n => n
  | _ => 1
  end.

(** [telegram.Bot(token=...)], line 173: the constructor returns the
    client or raises; python-telegram-bot raises [InvalidToken] for a token
    that does not have the form of one. *)
Definition BotClass : Type := option string -> answer Bot.

(** [main()].  [telegram_Bot] is the constructor called on line 173,
    [start_clock] the clock read on line 174, [ws] the worlds of the loop's
    first iterations.  The client the constructor returns is the bot when
    the start message is sent; what is done through it later is the bot of
    each iteration's world. *)
Definition main (cfg : config) (telegram_Bot : BotClass) (start_clock : Z) (ws : list world)
    : list event * process :=
  let (ev0, ok) := check_tokens cfg in
  match ok with
  | Raise e => (ev0, Uncaught e)
  | Return false =>
      let message := "Отсутствует токен. Бот остановлен!" in
      ((ev0 ++ [Log root_logger CRITICAL message])%list, Exit (VStr message))
  | Return true =>
      match telegram_Bot (TELEGRAM_TOKEN cfg) with
      | Raises f => (ev0, Uncaught (Foreign f))
      | Returns start_bot =>
          let start_message := "Бот начал работу" in
          match send_message cfg start_bot start_message with
          | (ev1, Raise e) => ((ev0 ++ ev1)%list, Uncaught e)
          | (ev1, Return _) =>
              let st := {| timestamp := VInt start_clock; prev_msg := ""; message := None |} in
              let '(ev2, st', r) := loop cfg ws st in
              ((ev0 ++ ev1 ++ [Log root_logger INFO start_message] ++ ev2)%list,
               match r with
               | Return _ => Polling st'
               | Raise e => Uncaught e
               end)
          end
      end
  end.

(** ** What a list of events shows *)

(** The texts handed to the notifier, in order. *)
Fixpoint sent (evs : list event) : list string :=
  match evs with
  | [] => []
  | BotSend _ text :: rest => text :: sent rest
  | _ :: rest => sent rest
  end.

(** The texts written to a log, in order. *)
Fixpoint logged (evs : list event) : list string :=
  match evs with
  | [] => []
  | Log _ _ text :: rest => text :: logged rest
  | _ :: rest => logged rest
  end.

(** How many times [text] went to the notifier. *)
Definition times_sent (text : string) (evs : list event) : nat :=
  count_occ string_dec (sent evs) text.

(** What one run of code of [main] left: its events, the locals, and
    whether it returned. *)
Definition events_of {A} (run : list event * locals * result A) : list event := fst (fst run).
Definition locals_of {A} (run : list event * locals * result A) : locals := snd (fst run).
Definition result_of {A} (run : list event * locals * result A) : result A := snd run.

(** The bot's answers [send_message] turns into a normal return: a
    delivery, and a [TelegramError]. *)
Definition swallowed (a : answer unit) : bool :=
  match a with
  | Returns _ => true
  | Raises f => telegram f
  end.

(** ** What the statements below speak of *)

(** [isinstance(v, dict)] and [isinstance(v, list)] *)
Definition is_dict (v : value) : bool :=
  match v with
  | VDict _ => true
  | _ => false
  end.

Definition is_list (v : value) : bool :=
  match v with
  | VList _ => true
  | _ => false
  end.

(** The item of a response under [key], when the response is a [dict]
    that has the key. *)
Definition field (key : string) (response : value) : option value :=
  match response with
  | VDict d => lookup key d
  | _ => None
  end.

(** The cursor a request carries (line 58): the one given, or the clock
    when the one given is false. *)
Definition from_date (now : Z) (cursor : value) : value :=
  if truthy cursor then cursor else VInt now.

(** The message of the exception raised on line 70. *)
Definition not_ok_text (r : http_response) : string :=
  "Ответ API не возвращает 200. "
  ++ "Код ответа: " ++ py_str (VInt (status_code r)) ++ ". "
  ++ "Причина: " ++ reason r ++ ". "
  ++ "Текст: " ++ text r ++ ".".

(** The message of the exception raised on line 80. *)
Definition failed_text (cfg : config) (now : Z) (cursor : value) : string :=
  "API не возвращает 200. Запрос: "
  ++ request_text cfg (VDict [("from_date", from_date now cursor)]).

(** The class of an exception this program raised. *)
Definition class_of (e : exc) : option exc_class :=
  match e with
  | Exc c _ | Exc2 c _ _ => Some c
  | Foreign _ => None
  end.

(** An environment value [all] counts as false: the variable is not set
    ([None]) or is set to the empty text. *)
Definition missing (v : option string) : bool := negb (truthy (env_value v)).

(** The parameters of the requests made, in order, and the pauses
    taken. *)
Fixpoint requests (evs : list event) : list value :=
  match evs with
  | [] => []
  | HttpGet _ _ params :: rest => params :: requests rest
  | _ :: rest => requests rest
  end.

Fixpoint sleeps (evs : list event) : list Z :=
  match evs with
  | [] => []
  | Sleep seconds :: rest => seconds :: sleeps rest
  | _ :: rest => sleeps rest
  end.

(** An event that is a line of the log. *)
Definition is_log (ev : event) : bool :=
  match ev with
  | Log _ _ _ => true
  | _ => false
  end.

(** A bot that, whatever it is asked to send, delivers or raises a
    [TelegramError]. *)
Definition keeps_contract (b : Bot) : Prop :=
  forall chat_id message, swallowed (b chat_id message) = true.

(** The world [w] with the API answering 200 and the parsed body [v]:
    the reason phrase and the text of such a response are not read. *)
Definition with_answer (w : world) (v : value) : world :=
  {| api_clock := api_clock w;
     http := Returns {| status_code := 200; reason := "OK"; text := ""; json := Returns v |};
     clock := clock w;
     bot := bot w |}.

(** The world [w] with [requests.get] raising [f]. *)
Definition with_outage (w : world) (f : foreign) : world :=
  {| api_clock := api_clock w; http := Raises f; clock := clock w; bot := bot w |}.

(** Lines 182-195: what stands between [try] and the first [except]. *)
Definition try_block (cfg : config) (w : world) : M unit :=
  (message <- derive cfg w ;;
   send_if_new cfg w message (MM.call (log root_logger INFO message)))%M.

(** The locals [main] enters the loop with (lines 174 and 178). *)
Definition initial (start_clock : Z) : locals :=
  {| timestamp := VInt start_clock; prev_msg := ""; message := None |}.

(** ** Sample data *)

Module Sample.

Definition cfg : config :=
  {| PRACTICUM_TOKEN := Some "practicum-token";
     TELEGRAM_TOKEN := Some "4242:telegram-token";
     TELEGRAM_CHAT_ID := Some "1001" |}.

(** A configuration whose chat identifier is not set. *)
Definition cfg_no_chat : config :=
  {| PRACTICUM_TOKEN := Some "practicum-token";
     TELEGRAM_TOKEN := Some "4242:telegram-token";
     TELEGRAM_CHAT_ID := None |}.

Definition newline : string := String "010"%char "".

(** A 503 whose body has two lines. *)
Definition unavailable : http_response :=
  {| status_code := 503;
     reason := "Service Unavailable";
     text := "upstream down" ++ newline ++ "retry later";
     json := Raises {| telegram := false;
                       str_text := "Expecting value: line 1 column 1 (char 0)";
                       repr_text := "JSONDecodeError('Expecting value: line 1 column 1 (char 0)')" |} |}.

(** A 503 whose body has one line. *)
Definition unavailable_plain : http_response :=
  {| status_code := 503;
     reason := "Service Unavailable";
     text := "upstream down";
     json := Returns VNone |}.

Definition ok (v : value) : http_response :=
  {| status_code := 200; reason := "OK"; text := ""; json := Returns v |}.

(** The payload of the spec's end-to-end scenario. *)
Definition reviewing : value :=
  VDict [("homeworks", VList [VDict [("homework_name", VStr "hw1");
                                     ("status", VStr "reviewing")]]);
         ("current_date", VInt 100)].

Definition nothing_new (current_date : value) : value :=
  VDict [("homeworks", VList []); ("current_date", current_date)].

(** A bot that delivers, one that always fails with a [TelegramError], and
    one that fails with an exception of another class. *)
Definition delivering : Bot := fun _ _ => Returns tt.

Definition unauthorized : foreign :=
  {| telegram := true; str_text := "Unauthorized"; repr_text := "Unauthorized('Unauthorized')" |}.
Definition failing : Bot := fun _ _ => Raises unauthorized.

Definition broken_pipe : foreign :=
  {| telegram := false; str_text := "[Errno 32] Broken pipe";
     repr_text := "BrokenPipeError(32, 'Broken pipe')" |}.
Definition crashing : Bot := fun _ _ => Raises broken_pipe.

(** A bot that raises that exception when it is handed [text], and
    delivers everything else. *)
Definition choking (text : string) : Bot :=
  fun _ message => if String.eqb message text then Raises broken_pipe else Returns tt.

(** A constructor that returns the client, and one that refuses the
    token. *)
Definition building (b : Bot) : BotClass := fun _ => Returns b.

Definition invalid_token : foreign :=
  {| telegram := true; str_text := "Invalid token"; repr_text := "InvalidToken()" |}.
Definition refusing : BotClass := fun _ => Raises invalid_token.

(** A configuration with the three values set, the bot's token without
    the colon a token has. *)
Definition cfg_malformed : config :=
  {| PRACTICUM_TOKEN := Some "practicum-token";
     TELEGRAM_TOKEN := Some "telegram-token";
     TELEGRAM_CHAT_ID := Some "1001" |}.

Definition answering (bot : Bot) (v : value) : world :=
  {| api_clock := 1700000000; http := Returns (ok v); clock := 1700000001; bot := bot |}.

Definition start : locals :=
  {| timestamp := VInt 1699999000; prev_msg := ""; message := None |}.

(** The message [parse_status] gives for the homework of [reviewing]. *)
Definition hw1_reviewing : string :=
  "Изменился статус проверки работы " ++ Str.dq ++ "hw1" ++ Str.dq
  ++ ". Работа взята на проверку ревьюером.".

(** A response with [current_date] and no [homeworks]. *)
Definition no_homeworks : value := VDict [("current_date", VInt 100)].

(** The network is down. *)
Definition connection_error : foreign :=
  {| telegram := false;
     str_text := "Connection refused";
     repr_text := "ConnectionError('Connection refused')" |}.

Definition offline (bot : Bot) : world :=
  {| api_clock := 1700000000; http := Raises connection_error;
     clock := 1700000001; bot := bot |}.

(** A homework whose status is not a verdict. *)
Definition lost : value :=
  VDict [("homeworks", VList [VDict [("homework_name", VStr "hw1");
                                     ("status", VStr "lost")]]);
         ("current_date", VInt 100)].

End Sample.

(** * Proofs *)

(** ** Strings *)

Module StrFacts.
Import Str.

Lemma append_assoc (a b c : string) : (a ++ b) ++ c = a ++ b ++ c.
Proof. induction a as [|x a IH]; simpl; [reflexivity | now rewrite IH]. Qed.

Lemma append_nil_r (a : string) : a ++ "" = a.
Proof. induction a as [|x a IH]; simpl; [reflexivity | now rewrite IH]. Qed.

Lemma prefix_refl_app (sub rest : string) : String.prefix sub (sub ++ rest) = true.
Proof.
  induction sub as [|c sub IH]; simpl.
  - now destruct rest.
  - destruct (ascii_dec c c) as [_|ne]; [exact IH | now elim ne].
Qed.

Lemma prefix_app_r (sub s rest : string) :
  String.prefix sub s = true -> String.prefix sub (s ++ rest) = true.
Proof.
  revert s; induction sub as [|c sub IH]; intros s H.
  - now destruct (s ++ rest).
  - destruct s as [|c' s]; simpl in *; [discriminate|].
    destruct (ascii_dec c c'); [now apply IH | discriminate].
Qed.

Lemma prefix_iff (sub s : string) :
  String.prefix sub s = true <-> exists rest, s = sub ++ rest.
Proof.
  split.
  - revert s; induction sub as [|c sub IH]; intros s H.
    + now exists s.
    + destruct s as [|c' s]; simpl in H; [discriminate|].
      destruct (ascii_dec c c') as [<-|]; [|discriminate].
      destruct (IH _ H) as [rest ->]. now exists rest.
  - intros [rest ->]. apply prefix_refl_app.
Qed.

Lemma contains_unfold (s sub : string) :
  contains s sub =
  if String.prefix sub s then true
  else match s with
       | EmptyString => false
       | String _ s' => contains s' sub
       end.
Proof. now destruct s. Qed.

Lemma contains_prefix (s sub : string) :
  String.prefix sub s = true -> contains s sub = true.
Proof. intros H. rewrite contains_unfold. now rewrite H. Qed.

Lemma contains_cons (c : ascii) (s sub : string) :
  contains s sub = true -> contains (String c s) sub = true.
Proof.
  intros H. rewrite contains_unfold.
  now destruct (String.prefix sub (String c s)).
Qed.

(** [contains] decides "is a substring of": [sub] is in [s] exactly when
    [s] is some text, then [sub], then some text. *)
Lemma contains_iff (s sub : string) :
  contains s sub = true <-> exists a b, s = a ++ sub ++ b.
Proof.
  split.
  - induction s as [|c s IH]; intros H; rewrite contains_unfold in H.
    + destruct (String.prefix sub "") eqn:P; [|discriminate].
      apply prefix_iff in P. destruct P as [rest P]. now exists "", rest.
    + destruct (String.prefix sub (String c s)) eqn:P.
      * apply prefix_iff in P. destruct P as [rest P]. now exists "", rest.
      * destruct (IH H) as (a & b & ->). now exists (String c a), b.
  - intros (a & b & ->). induction a as [|c a IH].
    + cbn [append]. apply contains_prefix, prefix_refl_app.
    + cbn [append]. apply contains_cons, IH.
Qed.

Lemma contains_here (sub rest : string) : contains (sub ++ rest) sub = true.
Proof. apply contains_iff. now exists "", rest. Qed.

Lemma contains_refl (sub : string) : contains sub sub = true.
Proof. apply contains_iff. exists "", "". simpl. now rewrite append_nil_r. Qed.

Lemma contains_skip (a s sub : string) :
  contains s sub = true -> contains (a ++ s) sub = true.
Proof.
  rewrite !contains_iff. intros (x & y & ->).
  exists (a ++ x), y. now rewrite append_assoc.
Qed.

Lemma contains_app_r (s rest sub : string) :
  contains s sub = true -> contains (s ++ rest) sub = true.
Proof.
  rewrite !contains_iff. intros (x & y & ->).
  exists x, (y ++ rest). now rewrite !append_assoc.
Qed.

(** [repr] and its escapes *)

Lemma after_app (p : pending) (a b : string) : after p (a ++ b) = after (after p a) b.
Proof. revert p; induction a as [|c a IH]; intros p; simpl; [reflexivity | apply IH]. Qed.

Lemma complete_app (a b : string) :
  complete a = true -> complete b = true -> complete (a ++ b) = true.
Proof.
  unfold complete. rewrite after_app.
  destruct (after None a); [discriminate | trivial].
Qed.

Lemma escape_from_app (q : ascii) (p : pending) (a b : string) :
  after p a = None -> escape_from q p (a ++ b) = escape_from q p a ++ escape q b.
Proof.
  revert p; induction a as [|c a IH]; intros p H; simpl in *.
  - now rewrite H.
  - now rewrite (IH _ H), append_assoc.
Qed.

(** The characters of [a ++ b] are those of [a], then those of [b]. *)
Lemma escape_app (q : ascii) (a b : string) :
  complete a = true -> escape q (a ++ b) = escape q a ++ escape q b.
Proof.
  unfold complete. intros H. apply escape_from_app.
  now destruct (after None a).
Qed.

Lemma quote_of_cases (s : string) : quote_of s = sq_char \/ quote_of s = dq_char.
Proof. unfold quote_of. destruct (_ && _); auto. Qed.

Lemma plain_char_alone (q c : ascii) :
  q = sq_char \/ q = dq_char -> plain_char c = true ->
  written q None c = String c "" /\ next None c = None.
Proof.
  intros [-> | ->];
    destruct c as [[|] [|] [|] [|] [|] [|] [|] [|]]; vm_compute;
    intros H; first [split; reflexivity | discriminate H].
Qed.

Lemma escape_plain (q : ascii) (s : string) :
  q = sq_char \/ q = dq_char -> plain s = true -> escape q s = s.
Proof.
  intros Hq. unfold escape.
  induction s as [|c s IH]; cbn [escape_from plain flush]; [reflexivity|].
  intros H. apply andb_true_iff in H. destruct H as [Hc Hs].
  destruct (plain_char_alone q c Hq Hc) as [-> ->].
  now rewrite (IH Hs).
Qed.

Lemma plain_complete (s : string) : plain s = true -> complete s = true.
Proof.
  unfold complete. induction s as [|c s IH]; cbn [after plain]; [reflexivity|].
  intros H. apply andb_true_iff in H. destruct H as [Hc Hs].
  destruct (plain_char_alone sq_char c (or_introl eq_refl) Hc) as [_ ->].
  exact (IH Hs).
Qed.

Lemma verbatim_cases (q : ascii) (s : string) :
  q = sq_char \/ q = dq_char -> verbatim s = true ->
  complete s = true /\ escape q s = s.
Proof.
  unfold verbatim. intros Hq H.
  apply andb_true_iff in H. destruct H as [H Hd].
  apply andb_true_iff in H. destruct H as [Hc Hs].
  apply String.eqb_eq in Hs, Hd.
  split; [exact Hc|]. now destruct Hq as [-> | ->].
Qed.

Lemma plain_verbatim (s : string) : plain s = true -> verbatim s = true.
Proof.
  intros H. unfold verbatim.
  rewrite (plain_complete s H).
  rewrite (escape_plain sq_char s (or_introl eq_refl) H).
  rewrite (escape_plain dq_char s (or_intror eq_refl) H).
  now rewrite String.eqb_refl.
Qed.

(** [repr(s)] holds every piece of [s] as [repr] writes its characters. *)
Lemma repr_contains_escaped (a piece b : string) :
  complete a = true -> complete piece = true ->
  contains (repr (a ++ piece ++ b)) (escape (quote_of (a ++ piece ++ b)) piece) = true.
Proof.
  intros Ha Hp. unfold repr. cbv zeta. apply contains_cons.
  rewrite (escape_app _ a _ Ha), (escape_app _ piece _ Hp), !append_assoc.
  apply contains_skip, contains_here.
Qed.

Lemma repr_contains_verbatim (a piece b : string) :
  complete a = true -> verbatim piece = true ->
  contains (repr (a ++ piece ++ b)) piece = true.
Proof.
  intros Ha H.
  destruct (verbatim_cases (quote_of (a ++ piece ++ b)) piece (quote_of_cases _) H)
    as [Hc He].
  rewrite <- He at 2. now apply repr_contains_escaped.
Qed.

Lemma repr_contains_plain (a piece b : string) :
  complete a = true -> plain piece = true ->
  contains (repr (a ++ piece ++ b)) piece = true.
Proof. intros Ha H. apply repr_contains_verbatim; [exact Ha | now apply plain_verbatim]. Qed.

(** What [repr] does with characters that are not printable: the no-break
    space U+00A0 and the zero width space U+200B are written as escapes,
    Cyrillic letters are copied. *)
Example repr_not_printable :
  repr (String "194" (String "160" "")) = "'\xa0'"
  /\ repr (String "226" (String "128" (String "139" ""))) = "'\u200b'"
  /\ repr "Привет" = "'Привет'"
  /\ verbatim "Привет" = true
  /\ verbatim (String "194" (String "160" "")) = false.
Proof. repeat split; vm_compute; reflexivity. Qed.

(** Decimal digits *)

Lemma plain_string_of_uint (d : Decimal.uint) : plain (NilEmpty.string_of_uint d) = true.
Proof. induction d; simpl; auto. Qed.

Lemma plain_of_Z (z : Z) : plain (of_Z z) = true.
Proof.
  assert (U : forall d, plain (NilZero.string_of_uint d) = true).
  { intros d. unfold NilZero.string_of_uint.
    destruct d; first [reflexivity | apply plain_string_of_uint]. }
  unfold of_Z, NilZero.string_of_int.
  destruct (Z.to_int z) as [d|d]; [apply U|].
  cbn [plain]. now rewrite U.
Qed.

End StrFacts.

(** ** [parse_status] *)

Section ParseStatus.
Import Str StrFacts.

(** Concatenations: find the piece that is asked for. *)
Ltac find_piece :=
  repeat first [ apply contains_here | apply contains_refl
               | apply contains_skip | apply contains_cons ].

(** The keys of [HOMEWORK_VERDICTS] are the three recognized statuses. *)
Lemma recognized_iff (status : string) :
  In status ["approved"; "reviewing"; "rejected"] <->
  exists verdict, find_item HOMEWORK_VERDICTS (VStr status) = Some (VStr verdict).
Proof.
  split.
  - intros [<-|[<-|[<-|[]]]]; eexists; reflexivity.
  - intros [verdict H]. unfold HOMEWORK_VERDICTS in H. cbn [find_item lookup] in H.
    destruct (String.eqb_spec "approved" status) as [<-|_]; [now left|].
    destruct (String.eqb_spec "reviewing" status) as [<-|_]; [now right; left|].
    destruct (String.eqb_spec "rejected" status) as [<-|_]; [now right; right; left|].
    discriminate.
Qed.

(** C2.  For every homework record ([dict]) whose status is one of
    approved, reviewing and rejected and that has a [homework_name] item,
    [parse_status] returns, without raising and without an event, the
    text of line 148 filled in with [str] of the name (the name itself when
    it is a [str]) and with the text [HOMEWORK_VERDICTS] holds for the
    status; the message contains both. *)
Theorem parse_status_recognized (d : list (string * value)) (status : string) (name : value) :
  In status ["approved"; "reviewing"; "rejected"] ->
  lookup "status" d = Some (VStr status) ->
  lookup "homework_name" d = Some name ->
  exists verdict message,
    lookup status HOMEWORK_VERDICTS = Some (VStr verdict) /\
    parse_status (VDict d) = ([], Return message) /\
    message = "Изменился статус проверки работы " ++ dq ++ py_str name ++ dq ++ ". " ++ verdict /\
    contains message (py_str name) = true /\
    contains message verdict = true.
Proof.
  intros Hin Hs Hn.
  assert (E : forall verdict, lookup status HOMEWORK_VERDICTS = Some (VStr verdict) ->
              In status ["approved"; "reviewing"; "rejected"] ->
              parse_status (VDict d) =
              ([], Return ("Изменился статус проверки работы " ++ dq ++ py_str name ++ dq
                           ++ ". " ++ verdict))).
  { intros verdict Hv Hin'. unfold parse_status, get_item, has_key.
    rewrite Hs, Hn.
    destruct Hin' as [<-|[<-|[<-|[]]]]; injection Hv as <-; reflexivity. }
  destruct (proj1 (recognized_iff status) Hin) as [verdict Hv].
  exists verdict, ("Изменился статус проверки работы " ++ dq ++ py_str name ++ dq
                   ++ ". " ++ verdict).
  repeat split; [exact Hv | now apply E | find_piece | find_piece].
Qed.

Lemma parse_status_recognized_witness :
  exists verdict message,
    lookup "reviewing" HOMEWORK_VERDICTS = Some (VStr verdict) /\
    parse_status (VDict [("homework_name", VStr "hw1"); ("status", VStr "reviewing")])
    = ([], Return message) /\
    message = "Изменился статус проверки работы " ++ dq ++ "hw1" ++ dq ++ ". " ++ verdict /\
    contains message "hw1" = true /\
    contains message verdict = true.
Proof.
  apply (parse_status_recognized
           [("homework_name", VStr "hw1"); ("status", VStr "reviewing")]
           "reviewing" (VStr "hw1")).
  - simpl. auto.
  - reflexivity.
  - reflexivity.
Defined.

(** A record whose status can be looked up and is no key of
    [HOMEWORK_VERDICTS], or that has no [homework_name], stops
    [parse_status] with a [KeyError]: the one of line 134 when the status
    is unknown, the one of line 137 otherwise. *)
Lemma parse_status_rejects (d : list (string * value)) :
  hashable (get_item d "status" VNone) = true ->
  find_item HOMEWORK_VERDICTS (get_item d "status" VNone) = None
  \/ lookup "homework_name" d = None ->
  exists reason,
    parse_status (VDict d) = ([], Raise (Exc KeyError (VStr reason))) /\
    (reason = "Такого статуса не существует" \/ reason = "Такого имени не существует") /\
    (find_item HOMEWORK_VERDICTS (get_item d "status" VNone) = None ->
     reason = "Такого статуса не существует").
Proof.
  intros Hh H. unfold parse_status, dict_get, dict_contains, hash_key.
  rewrite Hh. cbn [FM.bind FM.ret app].
  destruct (find_item HOMEWORK_VERDICTS (get_item d "status" VNone)) as [verdict|] eqn:Hv.
  - destruct H as [H|H]; [discriminate|].
    unfold has_key. rewrite H. cbn [negb].
    eexists; repeat split; [now right | discriminate].
  - cbn [negb]. eexists; repeat split; now left.
Qed.

(** A status that cannot be hashed (a JSON array or object) stops
    [parse_status] on line 131 with a [TypeError]. *)
Lemma parse_status_unhashable (d : list (string * value)) :
  hashable (get_item d "status" VNone) = false ->
  exists reason, parse_status (VDict d) = ([], Raise (Exc TypeError (VStr reason))).
Proof.
  intros Hh. unfold parse_status, dict_get, hash_key. rewrite Hh.
  eexists. reflexivity.
Qed.

(** A status that is a string and none of the three is no key of
    [HOMEWORK_VERDICTS]. *)
Lemma unknown_status_not_found (d : list (string * value)) (status : string) :
  lookup "status" d = Some (VStr status) ->
  ~ In status ["approved"; "reviewing"; "rejected"] ->
  hashable (get_item d "status" VNone) = true
  /\ find_item HOMEWORK_VERDICTS (get_item d "status" VNone) = None.
Proof.
  intros Hs Hn. unfold get_item. rewrite Hs. split; [reflexivity|].
  destruct (find_item HOMEWORK_VERDICTS (VStr status)) as [verdict|] eqn:Hv;
    [|reflexivity].
  elim Hn. unfold HOMEWORK_VERDICTS in Hv. cbn [find_item lookup] in Hv.
  destruct (String.eqb_spec "approved" status) as [<-|_]; [now left|].
  destruct (String.eqb_spec "reviewing" status) as [<-|_]; [now right; left|].
  destruct (String.eqb_spec "rejected" status) as [<-|_]; [now right; right; left|].
  discriminate Hv.
Qed.

(** C3, as the code has it.  For every homework record ([dict]) whose
    status is a string other than approved, reviewing and rejected, and
    for every homework record that has no [homework_name] item,
    [parse_status] raises, and what it raises is never an
    [UnknownStatusError]:
    - a [KeyError] saying ['Такого статуса не существует'] (line 134) when
      the status can be looked up and is no key of [HOMEWORK_VERDICTS],
      which is so for a string that is none of the three;
    - a [KeyError] saying ['Такого имени не существует'] (line 137) when the
      status is one of the three and the name is missing;
    - a [TypeError] (line 131) when the status is a JSON array or object,
      which cannot be looked up. *)
Theorem parse_status_unknown (d : list (string * value)) :
  (exists status, lookup "status" d = Some (VStr status)
                  /\ ~ In status ["approved"; "reviewing"; "rejected"])
  \/ lookup "homework_name" d = None ->
  let status := get_item d "status" VNone in
  exists e,
    parse_status (VDict d) = ([], Raise e)
    /\ class_of e <> Some UnknownStatusError
    /\ (hashable status = true -> find_item HOMEWORK_VERDICTS status = None ->
        e = Exc KeyError (VStr "Такого статуса не существует"))
    /\ (hashable status = true -> find_item HOMEWORK_VERDICTS status <> None ->
        e = Exc KeyError (VStr "Такого имени не существует"))
    /\ (hashable status = false -> class_of e = Some TypeError)
    /\ ((exists s, lookup "status" d = Some (VStr s)
                   /\ ~ In s ["approved"; "reviewing"; "rejected"]) ->
        e = Exc KeyError (VStr "Такого статуса не существует")).
Proof.
  intros H. cbv zeta.
  assert (U : (exists s, lookup "status" d = Some (VStr s)
                         /\ ~ In s ["approved"; "reviewing"; "rejected"]) ->
              hashable (get_item d "status" VNone) = true
              /\ find_item HOMEWORK_VERDICTS (get_item d "status" VNone) = None).
  { intros (s & Hs & Hn). now apply (unknown_status_not_found d s). }
  destruct (hashable (get_item d "status" VNone)) eqn:Hh.
  - destruct (find_item HOMEWORK_VERDICTS (get_item d "status" VNone)) as [verdict|] eqn:Hv.
    + assert (Hname : lookup "homework_name" d = None).
      { destruct H as [H|H]; [|exact H]. destruct (U H) as [_ C]. discriminate C. }
      exists (Exc KeyError (VStr "Такого имени не существует")).
      split.
      { unfold parse_status, dict_get, dict_contains, hash_key, has_key.
        rewrite Hh. cbn [FM.bind FM.ret app]. now rewrite Hv, Hname. }
      split; [discriminate|]. split; [discriminate|]. split; [reflexivity|].
      split; [discriminate|].
      intros K. destruct (U K) as [_ C]. discriminate C.
    + exists (Exc KeyError (VStr "Такого статуса не существует")).
      split.
      { unfold parse_status, dict_get, dict_contains, hash_key.
        rewrite Hh. cbn [FM.bind FM.ret app]. now rewrite Hv. }
      split; [discriminate|]. split; [reflexivity|].
      split; [intros _ C; now elim C|]. split; [discriminate | reflexivity].
  - destruct (parse_status_unhashable d Hh) as [reason Hp].
    exists (Exc TypeError (VStr reason)).
    split; [exact Hp|]. split; [discriminate|].
    split; [discriminate|]. split; [discriminate|]. split; [reflexivity|].
    intros K. destruct (U K) as [C _]. discriminate C.
Qed.

Lemma parse_status_unknown_witness :
  parse_status (VDict [("homework_name", VStr "hw1"); ("status", VStr "lost")])
  = ([], Raise (Exc KeyError (VStr "Такого статуса не существует")))
  /\ parse_status (VDict [("status", VStr "approved")])
     = ([], Raise (Exc KeyError (VStr "Такого имени не существует")))
  /\ exists e, parse_status (VDict [("status", VList [])]) = ([], Raise e)
               /\ class_of e = Some TypeError.
Proof.
  split; [|split].
  - destruct (parse_status_unknown [("homework_name", VStr "hw1"); ("status", VStr "lost")])
      as (e & P & _ & U & _).
    + left. exists "lost". split; [reflexivity|].
      simpl. intros [H|[H|[H|[]]]]; discriminate H.
    + rewrite P. now rewrite (U eq_refl eq_refl).
  - destruct (parse_status_unknown [("status", VStr "approved")])
      as (e & P & _ & _ & N & _).
    + right. reflexivity.
    + rewrite P. rewrite (N eq_refl); [reflexivity | discriminate].
  - destruct (parse_status_unknown [("status", VList [])]) as (e & P & _ & _ & _ & T & _).
    + right. reflexivity.
    + exists e. split; [exact P | exact (T eq_refl)].
Defined.

(** C3 as it is worded fails.  A record whose status is none of the three
    stops [parse_status] with the built-in [KeyError], which is no
    [UnknownStatusError] and is written otherwise; and a record without a
    name whose status is a JSON array stops it with a [TypeError]. *)
Lemma unknown_status_raises_builtin :
  parse_status (VDict [("homework_name", VStr "hw1"); ("status", VStr "lost")])
  = ([], Raise (Exc KeyError (VStr "Такого статуса не существует")))
  /\ class_of (Exc KeyError (VStr "Такого статуса не существует")) <> Some UnknownStatusError
  /\ exc_str (Exc KeyError (VStr "Такого статуса не существует"))
     <> exc_str (Exc UnknownStatusError (VStr "Такого статуса не существует"))
  /\ parse_status (VDict [("id", VInt 7); ("status", VList [])])
     = ([], Raise (Exc TypeError (VStr "unhashable type: 'list'"))).
Proof.
  split; [reflexivity|]. split; [discriminate|]. split; [|reflexivity].
  vm_compute. discriminate.
Qed.

(** What is not a [dict] has no [get]: line 129 raises [AttributeError]. *)
Lemma parse_status_not_dict (homework : value) :
  is_dict homework = false ->
  parse_status homework = ([], Raise (attribute_error homework "get")).
Proof. now destruct homework. Qed.

(** [parse_status] leaves no event, and the class of what it raises is
    [KeyError], [TypeError] or [AttributeError]: the branch of line 143
    that raises [UnknownStatusError] is never taken. *)
Lemma parse_status_raises (homework : value) (evs : list event) (e : exc) :
  parse_status homework = (evs, Raise e) ->
  evs = [] /\
  (class_of e = Some KeyError \/ class_of e = Some TypeError
   \/ class_of e = Some AttributeError).
Proof.
  destruct homework as [| | | | |l|d];
    try (intros [= <- <-]; split; [reflexivity | now right; right]).
  unfold parse_status, dict_get, dict_contains, dict_item, hash_key.
  destruct (hashable (get_item d "status" VNone)).
  - cbn [FM.bind FM.ret app].
    destruct (find_item HOMEWORK_VERDICTS (get_item d "status" VNone)) as [verdict|];
      cbn [negb]; [|intros [= <- <-]; split; [reflexivity | now left]].
    destruct (has_key "homework_name" d); cbn [negb];
      [|intros [= <- <-]; split; [reflexivity | now left]].
    destruct (truthy verdict); cbn [negb is_None FM.bind FM.ret FM.raise app];
      intros [= <- <-]; split; [reflexivity | now left].
  - intros [= <- <-]; split; [reflexivity | now right; left].
Qed.

Lemma parse_status_returns (homework : value) (evs : list event) (message : string) :
  parse_status homework = (evs, Return message) ->
  evs = [] /\ exists rest, message = "Изменился статус проверки работы " ++ rest.
Proof.
  destruct homework as [| | | | |l|d]; try discriminate.
  unfold parse_status, dict_get, dict_contains, dict_item, hash_key.
  destruct (hashable (get_item d "status" VNone)); [|discriminate].
  cbn [FM.bind FM.ret app].
  destruct (find_item HOMEWORK_VERDICTS (get_item d "status" VNone)) as [verdict|];
    cbn [negb]; [|discriminate].
  destruct (has_key "homework_name" d); cbn [negb]; [|discriminate].
  destruct (truthy verdict); cbn [negb is_None FM.bind FM.ret FM.raise app]; [|discriminate].
  intros [= <- <-]. split; [reflexivity|]. eexists. reflexivity.
Qed.

End ParseStatus.

(** ** [check_response] *)

Section CheckResponse.

(** What [check_response] does, case by case: the result only. *)
Lemma check_response_result (response : value) :
  snd (check_response response) =
  match response with
  | VDict d =>
      match lookup "homeworks" d, lookup "current_date" d with
      | None, _ =>
          Raise (Exc KeyError (VStr (
            "Ответ сервера не содержит ключ " ++ Str.dq ++ "homeworks" ++ Str.dq ++ ": "
            ++ py_str response)))
      | Some _, None =>
          Raise (Exc KeyError (VStr (
            "Ответ сервера не содержит текущую дату "
            ++ "(ключ " ++ Str.dq ++ "current_date" ++ Str.dq ++ "): " ++ py_str response)))
      | Some (VList l), Some _ => Return l
      | Some homeworks, Some _ =>
          Raise (Exc TypeError (VStr (
            "Неправильный тип данных ответа сервера с ключом "
            ++ Str.dq ++ "homeworks" ++ Str.dq ++ ":" ++ type_str homeworks)))
      end
  | _ =>
      Raise (Exc TypeError (VStr (
        "Неправильный тип данных ответа сервера: " ++ type_str response)))
  end.
Proof.
  destruct response as [| | | | |l|d]; try reflexivity.
  unfold check_response.
  destruct (lookup "homeworks" d) as [homeworks|]; [|reflexivity].
  destruct (lookup "current_date" d) as [current_date|].
  - destruct homeworks, (truthy current_date); try reflexivity;
      destruct (truthy _); reflexivity.
  - destruct homeworks; try reflexivity; destruct (truthy _); reflexivity.
Qed.

(** [check_response] only writes to the log. *)
Lemma check_response_sends_nothing (response : value) :
  sent (fst (check_response response)) = [].
Proof.
  destruct response as [| | | | |l|d]; try reflexivity.
  unfold check_response.
  destruct (lookup "homeworks" d) as [homeworks|]; [|reflexivity].
  destruct (lookup "current_date" d) as [current_date|].
  - destruct homeworks, (truthy current_date); try reflexivity;
      destruct (truthy _); reflexivity.
  - destruct homeworks; try reflexivity; destruct (truthy _); reflexivity.
Qed.

(** What [check_response] raises is a [TypeError] or a [KeyError]. *)
Lemma check_response_raises (response : value) (e : exc) :
  snd (check_response response) = Raise e ->
  class_of e = Some TypeError \/ class_of e = Some KeyError.
Proof.
  rewrite check_response_result.
  destruct response as [| | | | |l|d]; try (intros [= <-]; now left).
  destruct (lookup "homeworks" d) as [homeworks|]; [|intros [= <-]; now right].
  destruct (lookup "current_date" d) as [current_date|].
  - destruct homeworks; first [discriminate | intros [= <-]; now left].
  - destruct homeworks; intros [= <-]; now right.
Qed.

(** C4.  [check_response] raises exactly when the response is not a
    [dict], or has no [homeworks] key, or has no [current_date] key, or has
    under [homeworks] something that is not a [list]; what it raises is then
    a [TypeError] or a [KeyError].  In every other case it returns the list
    under [homeworks], empty or not. *)
Theorem check_response_shape (response : value) :
  let malformed :=
    is_dict response = false
    \/ field "homeworks" response = None
    \/ field "current_date" response = None
    \/ (exists homeworks,
          field "homeworks" response = Some homeworks /\ is_list homeworks = false) in
  ((exists e, snd (check_response response) = Raise e) <-> malformed)
  /\ (forall e, snd (check_response response) = Raise e ->
       class_of e = Some TypeError \/ class_of e = Some KeyError)
  /\ (~ malformed ->
       exists l, field "homeworks" response = Some (VList l)
                 /\ snd (check_response response) = Return l).
Proof.
  cbv zeta. rewrite check_response_result.
  destruct response as [| | | | |l|d];
    try (split; [split; [intros _; now left | intros _; eexists; reflexivity]
                |split; [intros e [= <-]; now left | intros H; elim H; now left]]).
  cbn [field is_dict].
  destruct (lookup "homeworks" d) as [homeworks|].
  2:{ split; [split; [intros _; now right; left | intros _; eexists; reflexivity]|].
      split; [intros e [= <-]; now right | intros H; elim H; now right; left]. }
  destruct (lookup "current_date" d) as [current_date|].
  2:{ split; [split; [intros _; now right; right; left | intros _]|].
      - destruct homeworks; eexists; reflexivity.
      - split; [intros e | intros H; elim H; now right; right; left].
        destruct homeworks; intros [= <-]; now right. }
  destruct homeworks as [| | | | |l|d'];
    try (split; [split; [intros _; right; right; right; eexists; split; reflexivity
                        | intros _; eexists; reflexivity]
                |split; [intros e [= <-]; now left
                        | intros H; elim H; right; right; right; eexists; split; reflexivity]]).
  split; [split|split].
  - intros [e H]. discriminate.
  - intros [H|[H|[H|(v & [= <-] & H)]]]; discriminate.
  - intros e H. discriminate.
  - intros _. exists l. split; reflexivity.
Qed.

End CheckResponse.

(** ** [get_api_answer] *)

Section GetApiAnswer.
Import Str StrFacts.

Variable cfg : config.

Lemma get_api_answer_events (now : Z) (get : answer http_response) (cursor : value) :
  fst (get_api_answer cfg now get cursor) =
  [Log root_logger INFO
     ("Начало запроса к API. Запрос: "
      ++ request_text cfg (VDict [("from_date", from_date now cursor)]));
   HttpGet ENDPOINT (HEADERS cfg) (VDict [("from_date", from_date now cursor)])].
Proof.
  unfold get_api_answer, from_date.
  destruct get as [r|f]; [|reflexivity].
  cbn. destruct (status_code r =? 200); [|reflexivity].
  destruct (json r); reflexivity.
Qed.

(** Whatever goes wrong between the request and the parsed answer leaves
    [get_api_answer] as a [WrongResponseCode] holding the request and the
    exception caught. *)
Lemma get_api_answer_result (now : Z) (get : answer http_response) (cursor : value) :
  snd (get_api_answer cfg now get cursor) =
  match get with
  | Raises f => Raise (Exc2 WrongResponseCode (failed_text cfg now cursor) (Foreign f))
  | Returns r =>
      if status_code r =? 200 then
        match json r with
        | Returns v => Return v
        | Raises f => Raise (Exc2 WrongResponseCode (failed_text cfg now cursor) (Foreign f))
        end
      else Raise (Exc2 WrongResponseCode (failed_text cfg now cursor)
                    (Exc WrongResponseCode (VStr (not_ok_text r))))
  end.
Proof.
  unfold get_api_answer, failed_text, not_ok_text, from_date.
  destruct get as [r|f]; [|reflexivity].
  cbn. destruct (status_code r =? 200); [|reflexivity].
  destruct (json r); reflexivity.
Qed.

Lemma shown_outer (c : exc_class) (outer piece : string) (cause : exc) :
  contains (repr outer) piece = true ->
  contains (exc_str (Exc2 c outer cause)) piece = true.
Proof.
  intros H. cbn [exc_str]. apply contains_skip, contains_app_r, H.
Qed.

Lemma shown_inner (c c' : exc_class) (outer inner piece : string) :
  contains (repr inner) piece = true ->
  contains (exc_str (Exc2 c outer (Exc c' (VStr inner)))) piece = true.
Proof.
  intros H. cbn [exc_str exc_repr py_repr].
  do 3 apply contains_skip. apply contains_app_r.
  do 2 apply contains_skip. apply contains_app_r, H.
Qed.

Lemma repr_holds (s a piece b : string) :
  s = a ++ piece ++ b -> complete a = true -> complete piece = true ->
  contains (repr s) (escape (quote_of s) piece) = true.
Proof. intros ->. apply repr_contains_escaped. Qed.

Lemma repr_holds_plain (s a piece b : string) :
  s = a ++ piece ++ b -> complete a = true -> plain piece = true ->
  contains (repr s) piece = true.
Proof. intros ->. apply repr_contains_plain. Qed.

(** The text of line 66 up to the reason phrase does not end in the middle
    of a character. *)
Lemma before_reason_complete (code : Z) :
  complete ("Ответ API не возвращает 200. " ++ "Код ответа: "
            ++ py_str (VInt code) ++ ". " ++ "Причина: ") = true.
Proof.
  apply (complete_app "Ответ API не возвращает 200. "); [reflexivity|].
  apply (complete_app "Код ответа: "); [reflexivity|].
  apply complete_app; [apply plain_complete, plain_of_Z | reflexivity].
Qed.

(** C5, as the code has it.  When the API answers with a status code
    other than 200, [get_api_answer] raises [WrongResponseCode(message,
    error)], [error] being the [WrongResponseCode] of line 70.  Its text,
    [str] of the two arguments, contains the request's URL and the status
    code; it contains the reason phrase and the body as [repr] writes their
    characters between the quotes of [error]'s message: a quote, a
    backslash, a control character and a character that is not printable
    are written as escapes.  So the reason phrase and the body are in the
    text as they are when [repr] copies each of their characters.  For a
    503 the text contains ["503"]. *)
Theorem api_error_text (now : Z) (cursor : value) (r : http_response) :
  status_code r <> 200 ->
  let raised := Exc2 WrongResponseCode (failed_text cfg now cursor)
                  (Exc WrongResponseCode (VStr (not_ok_text r))) in
  let q := quote_of (not_ok_text r) in
  snd (get_api_answer cfg now (Returns r) cursor) = Raise raised
  /\ contains (exc_str raised) ENDPOINT = true
  /\ contains (exc_str raised) (of_Z (status_code r)) = true
  /\ (complete (reason r) = true ->
      contains (exc_str raised) (escape q (reason r)) = true)
  /\ (complete (reason r) = true -> complete (text r) = true ->
      contains (exc_str raised) (escape q (text r)) = true)
  /\ (verbatim (reason r) = true -> contains (exc_str raised) (reason r) = true)
  /\ (complete (reason r) = true -> verbatim (text r) = true ->
      contains (exc_str raised) (text r) = true)
  /\ (status_code r = 503 -> contains (exc_str raised) "503" = true).
Proof.
  intros Hcode. cbv zeta.
  assert (Hc : contains (exc_str (Exc2 WrongResponseCode (failed_text cfg now cursor)
                 (Exc WrongResponseCode (VStr (not_ok_text r))))) (of_Z (status_code r)) = true).
  { apply shown_inner.
    apply (repr_holds_plain _ ("Ответ API не возвращает 200. " ++ "Код ответа: ") _
             (". " ++ "Причина: " ++ reason r ++ ". " ++ "Текст: " ++ text r ++ "."));
      [reflexivity | reflexivity | apply plain_of_Z]. }
  assert (Hr : complete (reason r) = true ->
               contains (exc_str (Exc2 WrongResponseCode (failed_text cfg now cursor)
                 (Exc WrongResponseCode (VStr (not_ok_text r)))))
                 (escape (quote_of (not_ok_text r)) (reason r)) = true).
  { intros Cr. apply shown_inner.
    apply (repr_holds _ ("Ответ API не возвращает 200. " ++ "Код ответа: "
                         ++ py_str (VInt (status_code r)) ++ ". " ++ "Причина: ") _
             (". " ++ "Текст: " ++ text r ++ "."));
      [ unfold not_ok_text; now rewrite !append_assoc
      | apply before_reason_complete
      | exact Cr ]. }
  assert (Ht : complete (reason r) = true -> complete (text r) = true ->
               contains (exc_str (Exc2 WrongResponseCode (failed_text cfg now cursor)
                 (Exc WrongResponseCode (VStr (not_ok_text r)))))
                 (escape (quote_of (not_ok_text r)) (text r)) = true).
  { intros Cr Ct. apply shown_inner.
    apply (repr_holds _ (("Ответ API не возвращает 200. " ++ "Код ответа: "
                          ++ py_str (VInt (status_code r)) ++ ". " ++ "Причина: ")
                         ++ reason r ++ ". " ++ "Текст: ") _ ".");
      [ unfold not_ok_text; now rewrite !append_assoc
      | apply complete_app; [apply before_reason_complete|];
        apply complete_app; [exact Cr | reflexivity]
      | exact Ct ]. }
  split; [|split; [|split; [|split; [|split; [|split; [|split]]]]]].
  - rewrite get_api_answer_result.
    destruct (Z.eqb_spec (status_code r) 200); [contradiction | reflexivity].
  - apply shown_outer.
    apply (repr_holds_plain _ "API не возвращает 200. Запрос: " _
             (", " ++ py_str (HEADERS cfg) ++ ", "
              ++ py_str (VDict [("from_date", from_date now cursor)]) ++ "."));
      reflexivity.
  - exact Hc.
  - exact Hr.
  - exact Ht.
  - intros V.
    destruct (verbatim_cases _ _ (quote_of_cases (not_ok_text r)) V) as [Cr E].
    specialize (Hr Cr). rewrite E in Hr. exact Hr.
  - intros Cr V.
    destruct (verbatim_cases _ _ (quote_of_cases (not_ok_text r)) V) as [Ct E].
    specialize (Ht Cr Ct). rewrite E in Ht. exact Ht.
  - intros E. rewrite E in Hc. exact Hc.
Qed.

End GetApiAnswer.

Lemma api_error_text_witness :
  let r := Sample.unavailable_plain in
  let raised := Exc2 WrongResponseCode (failed_text Sample.cfg 1700000000 VNone)
                  (Exc WrongResponseCode (VStr (not_ok_text r))) in
  snd (get_api_answer Sample.cfg 1700000000 (Returns r) VNone) = Raise raised
  /\ Str.contains (exc_str raised) ENDPOINT = true
  /\ Str.contains (exc_str raised) "Service Unavailable" = true
  /\ Str.contains (exc_str raised) "upstream down" = true
  /\ Str.contains (exc_str raised) "503" = true.
Proof.
  destruct (api_error_text Sample.cfg 1700000000 VNone Sample.unavailable_plain)
    as (H1 & H2 & _ & _ & _ & H3 & H4 & H5).
  - simpl. lia.
  - exact (conj H1 (conj H2 (conj (H3 eq_refl) (conj (H4 eq_refl eq_refl) (H5 eq_refl))))).
Defined.

(** C5 as it is worded fails: the body of this 503 has two lines, and the
    text of the exception raised holds it with the line break written as a
    backslash and an [n], so the body itself is not in the text. *)
Lemma api_error_text_escapes_body :
  exists raised,
    snd (get_api_answer Sample.cfg 1700000000 (Returns Sample.unavailable) VNone) = Raise raised
    /\ Str.contains (exc_str raised) (text Sample.unavailable) = false
    /\ Str.contains (exc_str raised) "upstream down\nretry later" = true.
Proof. eexists. split; [reflexivity|]. split; vm_compute; reflexivity. Qed.

(** ** [send_message] *)

Section SendMessage.

Variable cfg : config.

Lemma send_message_cases (bot : Bot) (message : string) :
  send_message cfg bot message =
  match bot (TELEGRAM_CHAT_ID cfg) message with
  | Returns _ =>
      ([BotSend (TELEGRAM_CHAT_ID cfg) message;
        Log module_logger DEBUG ("Сообщение в Telegram отправлено: " ++ message)],
       Return tt)
  | Raises f =>
      if telegram f then
        ([BotSend (TELEGRAM_CHAT_ID cfg) message;
          Log module_logger ERROR ("Сообщение в Telegram не отправлено: " ++ str_text f)],
         Return tt)
      else ([BotSend (TELEGRAM_CHAT_ID cfg) message], Raise (Foreign f))
  end.
Proof.
  unfold send_message.
  destruct (bot (TELEGRAM_CHAT_ID cfg) message) as [[]|f]; [reflexivity|].
  cbn. destruct (telegram f); reflexivity.
Qed.

(** C8.  Whatever the chat identifier, the message and the bot: when the
    bot's [send_message] raises a [telegram.TelegramError], [send_message]
    hands the message to the bot once, catches the error, writes it to the
    log at ERROR level and returns. *)
Theorem send_message_swallows (bot : Bot) (message : string) (f : foreign) :
  bot (TELEGRAM_CHAT_ID cfg) message = Raises f ->
  telegram f = true ->
  send_message cfg bot message =
  ([BotSend (TELEGRAM_CHAT_ID cfg) message;
    Log module_logger ERROR ("Сообщение в Telegram не отправлено: " ++ exc_str (Foreign f))],
   Return tt).
Proof. intros Hb Ht. rewrite send_message_cases, Hb, Ht. reflexivity. Qed.

(** An exception of any other class leaves [send_message]. *)
Lemma send_message_lets_through (bot : Bot) (message : string) (f : foreign) :
  bot (TELEGRAM_CHAT_ID cfg) message = Raises f ->
  telegram f = false ->
  send_message cfg bot message = ([BotSend (TELEGRAM_CHAT_ID cfg) message], Raise (Foreign f)).
Proof. intros Hb Ht. rewrite send_message_cases, Hb, Ht. reflexivity. Qed.

(** [send_message] hands the message to the bot exactly once, and what it
    raises, if anything, is the bot's exception, not a [TelegramError]. *)
Lemma send_message_sent (bot : Bot) (message : string) :
  sent (fst (send_message cfg bot message)) = [message].
Proof.
  rewrite send_message_cases.
  destruct (bot _ _) as [[]|f]; [reflexivity|]. destruct (telegram f); reflexivity.
Qed.

Lemma send_message_raises (bot : Bot) (message : string) (e : exc) :
  snd (send_message cfg bot message) = Raise e ->
  exists f, e = Foreign f /\ telegram f = false
            /\ bot (TELEGRAM_CHAT_ID cfg) message = Raises f.
Proof.
  rewrite send_message_cases.
  destruct (bot _ _) as [[]|f]; [discriminate|].
  destruct (telegram f) eqn:T; [discriminate|].
  intros [= <-]. now exists f.
Qed.

End SendMessage.

Lemma send_message_swallows_witness :
  send_message Sample.cfg Sample.failing "Нет новых статусов" =
  ([BotSend (Some "1001") "Нет новых статусов";
    Log module_logger ERROR "Сообщение в Telegram не отправлено: Unauthorized"],
   Return tt).
Proof.
  apply (send_message_swallows Sample.cfg Sample.failing "Нет новых статусов"
           Sample.unauthorized).
  - reflexivity.
  - reflexivity.
Defined.

(** ** The loop *)

Section Loop.

Variable cfg : config.

Lemma sent_app (a b : list event) : sent (a ++ b) = (sent a ++ sent b)%list.
Proof.
  induction a as [|[] a IH]; cbn [sent app]; [reflexivity | | | now rewrite IH |]; exact IH.
Qed.

Lemma logged_app (a b : list event) : logged (a ++ b) = (logged a ++ logged b)%list.
Proof.
  induction a as [|[] a IH]; cbn [logged app]; [reflexivity | now rewrite IH | | |]; exact IH.
Qed.

Lemma not_NotForSend (e : exc) (c : exc_class) :
  class_of e = Some c -> c <> NotForSend -> is_NotForSend e = false.
Proof.
  destruct e as [c' x|c' m e'|f]; cbn; intros [= ->] H; destruct c; try reflexivity;
    now elim H.
Qed.

(** Lines 182-190, case by case. *)
Lemma derive_cases (w : world) (st : locals) :
  derive cfg w st =
  let api := get_api_answer cfg (api_clock w) (http w) (timestamp st) in
  match snd api with
  | Raise e => (fst api, st, Raise e)
  | Return response =>
      match response with
      | VDict d =>
          let st1 := with_cursor st (get_item d "current_date" (VInt (clock w))) in
          let checked := check_response response in
          match snd checked with
          | Raise e => ((fst api ++ fst checked)%list, st1, Raise e)
          | Return [] =>
              ((fst api ++ fst checked)%list, with_message st1 "Нет новых статусов",
               Return "Нет новых статусов")
          | Return (homework :: _) =>
              let parsed := parse_status homework in
              match snd parsed with
              | Raise e => ((fst api ++ fst checked ++ fst parsed)%list, st1, Raise e)
              | Return m =>
                  ((fst api ++ fst checked ++ fst parsed)%list, with_message st1 m, Return m)
              end
          end
      | _ => (fst api, st, Raise (attribute_error response "get"))
      end
  end.
Proof.
  cbv zeta. unfold derive, MM.bind, MM.read, MM.call, MM.set_timestamp, MM.set_message, MM.ret.
  cbn [app].
  destruct (get_api_answer cfg (api_clock w) (http w) (timestamp st)) as [eva [response|e]];
    cbn [fst snd]; [|reflexivity].
  destruct response as [| | | | |l|d]; cbn [py_get FM.raise FM.ret fst snd];
    try (rewrite ?app_nil_r; reflexivity).
  destruct (check_response (VDict d)) as [evc [homeworks|e]]; cbn [fst snd app];
    [|rewrite ?app_nil_r; reflexivity].
  destruct homeworks as [|homework rest]; cbn [fst snd app].
  - rewrite ?app_nil_r. reflexivity.
  - destruct (parse_status homework) as [evp [m|e]]; cbn [fst snd app];
      rewrite ?app_nil_r; reflexivity.
Qed.

(** Lines 191-195 and 204-206, case by case. *)
Lemma send_if_new_cases (w : world) (m : string) (otherwise : M unit) (st : locals) :
  send_if_new cfg w m otherwise st =
  if String.eqb m (prev_msg st) then otherwise st
  else match snd (send_message cfg (bot w) m) with
       | Return _ => (fst (send_message cfg (bot w) m), with_prev_msg st m, Return tt)
       | Raise e => (fst (send_message cfg (bot w) m), st, Raise e)
       end.
Proof.
  unfold send_if_new, MM.bind, MM.read, MM.call, MM.set_prev_msg. cbn [app].
  destruct (String.eqb m (prev_msg st)); cbn [negb];
    [now destruct (otherwise st) as [[ev' st''] r]|].
  destruct (send_message cfg (bot w) m) as [evs [[]|e]]; cbn [fst snd];
    rewrite ?app_nil_r; reflexivity.
Qed.

(** The handlers, for an exception that is not a [NotForSend]. *)
Lemma handlers_cases (w : world) (e : exc) (st : locals) :
  is_NotForSend e = false ->
  handlers cfg w e st =
  let m := failure_text e in
  let st1 := with_message st m in
  if String.eqb m (prev_msg st) then ([Log root_logger ERROR m], st1, Return tt)
  else match snd (send_message cfg (bot w) m) with
       | Return _ =>
           (Log root_logger ERROR m :: fst (send_message cfg (bot w) m),
            with_prev_msg st1 m, Return tt)
       | Raise e' =>
           (Log root_logger ERROR m :: fst (send_message cfg (bot w) m), st1, Raise e')
       end.
Proof.
  intros H. unfold handlers. rewrite H. cbv zeta.
  unfold MM.bind at 1 2. unfold MM.set_message, MM.call, log, FM.emit. cbn [fst snd app].
  rewrite send_if_new_cases. cbn [prev_msg with_message].
  destruct (String.eqb (failure_text e) (prev_msg st)); [reflexivity|].
  destruct (snd (send_message cfg (bot w) (failure_text e))); reflexivity.
Qed.

(** The body of the loop, case by case. *)
Lemma iteration_cases (w : world) (st : locals) :
  iteration cfg w st =
  let '(evd, std, rd) := derive cfg w st in
  let '(evs, st', r) :=
    match rd with
    | Raise e => handlers cfg w e std
    | Return m =>
        if String.eqb m (prev_msg std) then ([Log root_logger INFO m], std, Return tt)
        else match snd (send_message cfg (bot w) m) with
             | Return _ => (fst (send_message cfg (bot w) m), with_prev_msg std m, Return tt)
             | Raise e =>
                 let '(evh, sth, rh) := handlers cfg w e std in
                 ((fst (send_message cfg (bot w) m) ++ evh)%list, sth, rh)
             end
    end in
  ((evd ++ evs ++ [Sleep RETRY_PERIOD])%list, st', r).
Proof.
  unfold iteration, MM.try_finally, MM.try_except, Exception.
  unfold MM.bind at 1.
  destruct (derive cfg w st) as [[evd std] [m|e]].
  - rewrite send_if_new_cases.
    destruct (String.eqb m (prev_msg std)).
    + cbn. now rewrite <- app_assoc.
    + destruct (snd (send_message cfg (bot w) m)) as [[]|e].
      * cbn. now rewrite <- app_assoc.
      * destruct (handlers cfg w e std) as [[evh sth] rh]. cbn.
        now rewrite <- !app_assoc.
  - destruct (handlers cfg w e std) as [[evh sth] rh]. cbn.
    now rewrite <- app_assoc.
Qed.

(** Lines 182-190 hand nothing to the bot and leave [prev_msg] alone; the
    message they give is the sentinel or a text of [parse_status]; what they
    raise is never a [NotForSend]. *)
Lemma derive_facts (w : world) (st : locals) (evd : list event) (std : locals)
    (rd : result string) :
  derive cfg w st = (evd, std, rd) ->
  sent evd = [] /\ prev_msg std = prev_msg st /\
  match rd with
  | Return m =>
      message std = Some m /\
      (m = "Нет новых статусов"
       \/ exists rest, m = "Изменился статус проверки работы " ++ rest)
  | Raise e => is_NotForSend e = false
  end.
Proof.
  rewrite derive_cases. cbv zeta.
  pose proof (get_api_answer_events cfg (api_clock w) (http w) (timestamp st)) as Ea.
  pose proof (get_api_answer_result cfg (api_clock w) (http w) (timestamp st)) as Ra.
  destruct (get_api_answer cfg (api_clock w) (http w) (timestamp st)) as [eva ra].
  cbn [fst snd] in *.
  assert (Sa : sent eva = []) by now rewrite Ea.
  clear Ea.
  destruct ra as [response|e].
  2:{ intros [= <- <- <-]. repeat split; [exact Sa|].
      destruct (http w) as [r|f]; [|now injection Ra as ->].
      destruct (status_code r =? 200); [|now injection Ra as ->].
      destruct (json r); [discriminate | now injection Ra as ->]. }
  clear Ra.
  destruct response as [| | | | |l|d];
    try (intros [= <- <- <-]; repeat split; first [exact Sa | reflexivity]).
  pose proof (check_response_sends_nothing (VDict d)) as Sc.
  pose proof (check_response_raises (VDict d)) as Rc.
  destruct (check_response (VDict d)) as [evc rc]. cbn [fst snd] in *.
  destruct rc as [[|homework rest]|e].
  - intros [= <- <- <-]. rewrite sent_app, Sa, Sc.
    repeat split. now left.
  - pose proof (parse_status_raises homework) as Rp.
    pose proof (parse_status_returns homework) as Vp.
    destruct (parse_status homework) as [evp [m|e]]; cbn [fst snd];
      intros [= <- <- <-]; rewrite !sent_app, Sa, Sc.
    + destruct (Vp _ _ eq_refl) as [-> Hm]. repeat split. now right.
    + destruct (Rp _ _ eq_refl) as [-> Hc]. repeat split.
      destruct Hc as [Hc|[Hc|Hc]]; apply (not_NotForSend _ _ Hc); discriminate.
  - intros [= <- <- <-]. rewrite sent_app, Sa, Sc. repeat split.
    destruct (Rc e eq_refl) as [Hc|Hc]; apply (not_NotForSend _ _ Hc); discriminate.
Qed.

(** A failure text is neither the sentinel nor a text of [parse_status]. *)
Lemma failure_text_apart (e : exc) (m : string) :
  m = "Нет новых статусов"
  \/ (exists rest, m = "Изменился статус проверки работы " ++ rest) ->
  failure_text e <> m.
Proof.
  unfold failure_text. intros [->|[rest ->]] H; cbn in H; discriminate H.
Qed.

Lemma times_sent_nil (m : string) (evs : list event) :
  sent evs = [] -> times_sent m evs = 0%nat.
Proof. unfold times_sent. now intros ->. Qed.

Lemma times_sent_one (m : string) (evs : list event) :
  sent evs = [m] -> times_sent m evs = 1%nat.
Proof.
  unfold times_sent. intros ->. cbn. now destruct (string_dec m m).
Qed.

Lemma times_sent_other (m m' : string) (evs : list event) :
  sent evs = [m'] -> m' <> m -> times_sent m evs = 0%nat.
Proof.
  unfold times_sent. intros -> H. cbn. now destruct (string_dec m' m).
Qed.

Lemma times_sent_app (m : string) (a b : list event) :
  times_sent m (a ++ b) = (times_sent m a + times_sent m b)%nat.
Proof. unfold times_sent. now rewrite sent_app, count_occ_app. Qed.

(** What the bot answers decides how [send_message] ends. *)
Lemma send_message_result (bot : Bot) (m : string) :
  snd (send_message cfg bot m) =
  match bot (TELEGRAM_CHAT_ID cfg) m with
  | Returns _ => Return tt
  | Raises f => if telegram f then Return tt else Raise (Foreign f)
  end.
Proof.
  rewrite send_message_cases.
  destruct (bot _ _) as [[]|f]; [reflexivity|]. now destruct (telegram f).
Qed.

(** The handlers, for an exception that is not a [NotForSend]: the failure
    text becomes [message] and is logged; it goes to the bot once when it
    is not [prev_msg], and replaces [prev_msg] when [send_message]
    returns. *)
Lemma handlers_facts (w : world) (e : exc) (st : locals) (evh : list event)
    (sth : locals) (rh : result unit) :
  is_NotForSend e = false ->
  handlers cfg w e st = (evh, sth, rh) ->
  message sth = Some (failure_text e) /\ timestamp sth = timestamp st /\
  In (failure_text e) (logged evh) /\
  (failure_text e = prev_msg st ->
   sent evh = [] /\ prev_msg sth = prev_msg st /\ rh = Return tt) /\
  (failure_text e <> prev_msg st ->
   sent evh = [failure_text e] /\
   match bot w (TELEGRAM_CHAT_ID cfg) (failure_text e) with
   | Returns _ => rh = Return tt /\ prev_msg sth = failure_text e
   | Raises f =>
       if telegram f then rh = Return tt /\ prev_msg sth = failure_text e
       else rh = Raise (Foreign f) /\ prev_msg sth = prev_msg st
   end).
Proof.
  intros N. rewrite (handlers_cases w e st N). cbv zeta.
  pose proof (send_message_sent cfg (bot w) (failure_text e)) as S.
  pose proof (send_message_result (bot w) (failure_text e)) as R.
  destruct (send_message cfg (bot w) (failure_text e)) as [evs rs]. cbn [fst snd] in *.
  destruct (String.eqb_spec (failure_text e) (prev_msg st)) as [E|NE].
  - intros [= <- <- <-].
    split; [reflexivity|]. split; [reflexivity|]. split; [now left|].
    split; [intros _; now repeat split | intros NE; now elim NE].
  - destruct (bot w (TELEGRAM_CHAT_ID cfg) (failure_text e)) as [[]|f];
      [|destruct (telegram f)]; subst rs; intros [= <- <- <-];
      (split; [reflexivity|]; split; [reflexivity|]; split; [now left|];
       split; [intros E; now elim NE | intros _; split; [exact S | now split]]).
Qed.

Lemma swallowed_result (b : Bot) (m : string) :
  snd (send_message cfg b m) =
  if swallowed (b (TELEGRAM_CHAT_ID cfg) m) then Return tt
  else match b (TELEGRAM_CHAT_ID cfg) m with
       | Raises f => Raise (Foreign f)
       | Returns _ => Return tt
       end.
Proof.
  rewrite send_message_result. unfold swallowed.
  destruct (b _ _) as [[]|f]; [reflexivity|]. now destruct (telegram f).
Qed.

(** One iteration, by the value [message] has when it ends: that text went
    to the bot at most once; not at all, but to the log, when it is the
    [prev_msg] the iteration started with; and once when it is not, and
    then it is the new [prev_msg] as soon as [send_message] returned. *)
Lemma iteration_facts (w : world) (st : locals) (evs : list event) (st' : locals)
    (r : result unit) :
  iteration cfg w st = (evs, st', r) ->
  exists m,
    message st' = Some m /\
    (prev_msg st = m ->
     times_sent m evs = 0%nat /\ In m (logged evs) /\ prev_msg st' = m /\ r = Return tt) /\
    (prev_msg st <> m ->
     times_sent m evs = 1%nat /\
     (swallowed (bot w (TELEGRAM_CHAT_ID cfg) m) = true -> r = Return tt /\ prev_msg st' = m) /\
     (swallowed (bot w (TELEGRAM_CHAT_ID cfg) m) = false ->
      (exists f, bot w (TELEGRAM_CHAT_ID cfg) m = Raises f /\ r = Raise (Foreign f))
      /\ prev_msg st' = prev_msg st)).
Proof.
  rewrite iteration_cases.
  destruct (derive cfg w st) as [[evd std] rd] eqn:D.
  destruct (derive_facts _ _ _ _ _ D) as (Sd & Pd & Fd).
  assert (Hh : forall e evh sth rh,
             is_NotForSend e = false -> handlers cfg w e std = (evh, sth, rh) ->
             forall pre, sent pre = [] \/ (exists m0, sent pre = [m0] /\ m0 <> failure_text e
                                                     /\ m0 <> prev_msg st) ->
             exists m,
               message sth = Some m /\
               (prev_msg st = m ->
                times_sent m (evd ++ (pre ++ evh) ++ [Sleep RETRY_PERIOD]) = 0%nat
                /\ In m (logged (evd ++ (pre ++ evh) ++ [Sleep RETRY_PERIOD]))
                /\ prev_msg sth = m /\ rh = Return tt) /\
               (prev_msg st <> m ->
                times_sent m (evd ++ (pre ++ evh) ++ [Sleep RETRY_PERIOD]) = 1%nat /\
                (swallowed (bot w (TELEGRAM_CHAT_ID cfg) m) = true ->
                 rh = Return tt /\ prev_msg sth = m) /\
                (swallowed (bot w (TELEGRAM_CHAT_ID cfg) m) = false ->
                 (exists f, bot w (TELEGRAM_CHAT_ID cfg) m = Raises f /\ rh = Raise (Foreign f))
                 /\ prev_msg sth = prev_msg st))).
  { intros e evh sth rh N H pre Hpre.
    destruct (handlers_facts w e std evh sth rh N H) as (Hm & _ & Hl & Hsame & Hnew).
    rewrite Pd in Hsame, Hnew.
    exists (failure_text e). split; [exact Hm|]. split.
    - intros E. destruct (Hsame (eq_sym E)) as (S0 & P0 & R0).
      split; [|split; [|split]].
      + rewrite !times_sent_app.
        rewrite (times_sent_nil _ evd Sd), (times_sent_nil _ evh S0).
        destruct Hpre as [Hp|(m0 & Hp & Hne & _)].
        * now rewrite (times_sent_nil _ pre Hp).
        * now rewrite (times_sent_other _ _ pre Hp Hne).
      + rewrite !logged_app. apply in_or_app. right. apply in_or_app. left.
        apply in_or_app. now right.
      + congruence.
      + exact R0.
    - intros NE. assert (NE' : failure_text e <> prev_msg st) by congruence.
      destruct (Hnew NE') as (S1 & B).
      split; [|split].
      + rewrite !times_sent_app.
        rewrite (times_sent_nil _ evd Sd), (times_sent_one _ evh S1).
        destruct Hpre as [Hp|(m0 & Hp & Hne & _)].
        * now rewrite (times_sent_nil _ pre Hp).
        * now rewrite (times_sent_other _ _ pre Hp Hne).
      + unfold swallowed. destruct (bot w _ _) as [[]|f]; [intros _; exact B|].
        destruct (telegram f); [intros _; exact B | discriminate].
      + unfold swallowed. destruct (bot w _ _) as [[]|f]; [discriminate|].
        destruct (telegram f); [discriminate|]. intros _. destruct B as [-> B].
        split; [now exists f | congruence]. }
  destruct rd as [m0|e].
  - destruct Fd as [Md Form].
    destruct (String.eqb_spec m0 (prev_msg std)) as [E|NE].
    + intros [= <- <- <-]. exists m0. split; [exact Md|]. split.
      * intros _. split; [|split; [|split]].
        -- rewrite !times_sent_app. now rewrite (times_sent_nil _ evd Sd).
        -- rewrite !logged_app. apply in_or_app. right. now left.
        -- congruence.
        -- reflexivity.
      * intros NE. elim NE. congruence.
    + pose proof (send_message_sent cfg (bot w) m0) as S.
      pose proof (swallowed_result (bot w) m0) as R.
      pose proof (send_message_raises cfg (bot w) m0) as Rf.
      destruct (send_message cfg (bot w) m0) as [evs0 rs]. cbn [fst snd] in *.
      destruct rs as [[]|e].
      * intros [= <- <- <-]. exists m0. split; [exact Md|]. split.
        -- intros E. elim NE. congruence.
        -- intros _. split; [|split].
           ++ rewrite !times_sent_app.
              now rewrite (times_sent_nil _ evd Sd), (times_sent_one _ evs0 S).
           ++ intros _. now split.
           ++ intros Sw. rewrite Sw in R. destruct (bot w _ _); discriminate.
      * destruct (Rf e eq_refl) as (f & -> & Tf & Bf).
        destruct (handlers cfg w (Foreign f) std) as [[evh sth] rh] eqn:H.
        intros [= <- <- <-].
        apply (Hh (Foreign f) evh sth rh eq_refl H evs0).
        right. exists m0. split; [exact S|]. split; [|congruence].
        intros C. now apply (failure_text_apart (Foreign f) m0 Form).
  - destruct (handlers cfg w e std) as [[evh sth] rh] eqn:H.
    intros [= <- <- <-].
    apply (Hh e evh sth rh Fd H []). now left.
Qed.

(** An iteration that returned left in [prev_msg] the value of
    [message]. *)
Lemma iteration_returns_recorded (w : world) (st : locals) (evs : list event)
    (st' : locals) (u : unit) (m : string) :
  iteration cfg w st = (evs, st', Return u) ->
  message st' = Some m ->
  prev_msg st' = m /\ (times_sent m evs <= 1)%nat.
Proof.
  intros H Hm. destruct (iteration_facts _ _ _ _ _ H) as (m' & Hm' & Same & New).
  assert (m' = m) by congruence. subst m'.
  destruct (string_dec (prev_msg st) m) as [E|NE].
  - destruct (Same E) as (T & _ & P & _). split; [exact P | lia].
  - destruct (New NE) as (T & Sw & NSw). split; [|lia].
    destruct (swallowed (bot w (TELEGRAM_CHAT_ID cfg) m)).
    + now apply Sw.
    + destruct (NSw eq_refl) as [(f & _ & C) _]. discriminate C.
Qed.

(** An iteration that starts with [prev_msg] being [m] and ends with
    [message] being [m] wrote [m] to the log, handed it to the bot no
    time, kept [prev_msg] and returned. *)
Lemma iteration_repeats_silently (w : world) (st : locals) (evs : list event)
    (st' : locals) (r : result unit) (m : string) :
  iteration cfg w st = (evs, st', r) ->
  prev_msg st = m ->
  message st' = Some m ->
  times_sent m evs = 0%nat /\ In m (logged evs) /\ prev_msg st' = m /\ r = Return tt.
Proof.
  intros H P Hm. destruct (iteration_facts _ _ _ _ _ H) as (m' & Hm' & Same & _).
  assert (m' = m) by congruence. subst m'. now apply Same.
Qed.

(** Two iterations, the second starting where the first, which returned,
    ended: a message both end with went to the bot at most once, and not
    in the second. *)
Lemma two_iterations_same_message (w1 w2 : world) (st0 st1 st2 : locals)
    (ev1 ev2 : list event) (u : unit) (r2 : result unit) (m : string) :
  iteration cfg w1 st0 = (ev1, st1, Return u) ->
  iteration cfg w2 st1 = (ev2, st2, r2) ->
  message st1 = Some m ->
  message st2 = Some m ->
  (times_sent m ev1 + times_sent m ev2 <= 1)%nat
  /\ times_sent m ev2 = 0%nat
  /\ In m (logged ev2).
Proof.
  intros H1 H2 M1 M2.
  destruct (iteration_returns_recorded _ _ _ _ _ _ H1 M1) as [P1 T1].
  destruct (iteration_repeats_silently _ _ _ _ _ _ H2 P1 M2) as (T2 & L2 & _).
  repeat split; [lia | exact T2 | exact L2].
Qed.

(** Two consecutive entries of a loop's iterations are two iterations, the
    second starting where the first, which returned, ended. *)
Lemma iterations_consecutive (ws : list world) (st : locals) (i : nat)
    (first second : list event * locals * result unit) :
  nth_error (iterations cfg ws st) i = Some first ->
  nth_error (iterations cfg ws st) (S i) = Some second ->
  exists w1 w2 st0 u,
    iteration cfg w1 st0 = (events_of first, locals_of first, Return u)
    /\ iteration cfg w2 (locals_of first) = second.
Proof.
  revert st i. induction ws as [|w ws IH]; intros st i H1 H2.
  - destruct i; discriminate H1.
  - cbn [iterations] in H1, H2.
    destruct (iteration cfg w st) as [[evs st'] r] eqn:I.
    destruct i as [|i].
    + injection H1 as <-. cbn [nth_error] in H2.
      destruct r as [u|e]; [|discriminate H2].
      destruct ws as [|w' ws]; [discriminate H2|].
      cbn [iterations] in H2.
      destruct (iteration cfg w' st') as [[evs' st''] r'] eqn:I'.
      injection H2 as <-. now exists w, w', st, u.
    + cbn [nth_error] in H1, H2.
      destruct r as [u|e]; [|destruct i; discriminate H1].
      now apply (IH st' i).
Qed.

(** C1, as the code has it.  In every run of the loop, take two
    consecutive iterations, the message of an iteration being the value
    [message] has when the iteration ends: the status message or the
    sentinel of lines 188-190 when [send_message] returned or was not
    called, and else the failure text of the exception caught.  If both
    end with the same message [m], then [m] went to the bot at most once
    over the two, and not at all in the second one, which wrote [m] to the
    log instead.  A status message on which the bot raises something that
    is no [TelegramError] is not the message the iteration ends with, and
    is not covered: the next iteration hands it to the bot again. *)
Theorem no_repeat_back_to_back (ws : list world) (st : locals) (i : nat)
    (first second : list event * locals * result unit) (m : string) :
  nth_error (iterations cfg ws st) i = Some first ->
  nth_error (iterations cfg ws st) (S i) = Some second ->
  message (locals_of first) = Some m ->
  message (locals_of second) = Some m ->
  (times_sent m (events_of first) + times_sent m (events_of second) <= 1)%nat
  /\ times_sent m (events_of second) = 0%nat
  /\ In m (logged (events_of second)).
Proof.
  intros H1 H2 M1 M2.
  destruct (iterations_consecutive _ _ _ _ _ H1 H2) as (w1 & w2 & st0 & u & I1 & I2).
  destruct second as [[ev2 st2] r2].
  exact (two_iterations_same_message _ _ _ _ _ _ _ _ _ _ I1 I2 M1 M2).
Qed.

(** C7, as the code has it.  When lines 182-190 (the API call, the
    cursor, the validation, the message) raise [e], the iteration catches
    it.  The failure text is ["Сбой в работе программы: "] followed by
    [str(e)]; the iteration writes it to the log at ERROR level, and hands
    it to the bot, once, exactly when it is not [prev_msg].  The text
    becomes [prev_msg] and the iteration returns whenever [send_message]
    returns; when the bot raises something that is no [TelegramError]
    while the failure text is sent, that exception leaves the iteration,
    and with it the loop.  The iteration always sleeps before it ends. *)
Theorem failure_is_caught (w : world) (st : locals) (evd : list event) (std : locals)
    (e : exc) :
  derive cfg w st = (evd, std, Raise e) ->
  let text := "Сбой в работе программы: " ++ exc_str e in
  exists evs st' r,
    iteration cfg w st
    = ((evd ++ Log root_logger ERROR text :: evs ++ [Sleep RETRY_PERIOD])%list, st', r)
    /\ message st' = Some text
    /\ (text = prev_msg st ->
        evs = [] /\ r = Return tt /\ prev_msg st' = prev_msg st)
    /\ (text <> prev_msg st ->
        evs = fst (send_message cfg (bot w) text)
        /\ sent evs = [text]
        /\ (swallowed (bot w (TELEGRAM_CHAT_ID cfg) text) = true ->
            r = Return tt /\ prev_msg st' = text)
        /\ (forall f, bot w (TELEGRAM_CHAT_ID cfg) text = Raises f ->
                      telegram f = false ->
                      r = Raise (Foreign f) /\ prev_msg st' = prev_msg st)).
Proof.
  intros D. cbv zeta.
  change ("Сбой в работе программы: " ++ exc_str e) with (failure_text e).
  destruct (derive_facts _ _ _ _ _ D) as (_ & Pd & N).
  rewrite iteration_cases, D. rewrite (handlers_cases w e std N). cbv zeta.
  rewrite Pd.
  pose proof (send_message_sent cfg (bot w) (failure_text e)) as S.
  pose proof (swallowed_result (bot w) (failure_text e)) as R.
  destruct (send_message cfg (bot w) (failure_text e)) as [evs rs]. cbn [fst snd] in *.
  destruct (String.eqb_spec (failure_text e) (prev_msg st)) as [E|NE].
  - exists [], (with_message std (failure_text e)), (Return tt).
    split; [reflexivity|]. split; [reflexivity|].
    split; [intros _; now repeat split | intros NE; now elim NE].
  - destruct rs as [[]|e'].
    + exists evs, (with_prev_msg (with_message std (failure_text e)) (failure_text e)),
        (Return tt).
      split; [reflexivity|]. split; [reflexivity|].
      split; [intros E; now elim NE|]. intros _.
      split; [reflexivity|]. split; [exact S|]. split; [now intros _|].
      intros f Bf Tf. unfold swallowed in R. rewrite Bf, Tf in R. discriminate R.
    + exists evs, (with_message std (failure_text e)), (Raise e').
      split; [reflexivity|]. split; [reflexivity|].
      split; [intros E; now elim NE|]. intros _.
      split; [reflexivity|]. split; [exact S|]. split.
      * intros Sw. rewrite Sw in R. discriminate R.
      * intros f Bf Tf. unfold swallowed in R. rewrite Bf, Tf in R.
        injection R as ->. now split.
Qed.

(** While [message] stays [m], a loop that starts with [prev_msg] being
    [m] never hands [m] to the bot. *)
Lemma iterations_repeat_silently (ws : list world) (st : locals) (m : string) :
  prev_msg st = m ->
  Forall (fun run => message (locals_of run) = Some m) (iterations cfg ws st) ->
  Forall (fun run => times_sent m (events_of run) = 0%nat /\ prev_msg (locals_of run) = m)
         (iterations cfg ws st).
Proof.
  revert st. induction ws as [|w ws IH]; intros st P H; [constructor|].
  cbn [iterations] in *.
  destruct (iteration cfg w st) as [[evs st'] r] eqn:I.
  inversion H as [|run rest Hm Hrest]; subst.
  cbn [locals_of fst snd] in Hm.
  destruct (iteration_repeats_silently _ _ _ _ _ _ I eq_refl Hm) as (T & _ & P' & ->).
  constructor; [now split|]. now apply IH.
Qed.


(** The cursor after lines 182-190. *)
Lemma derive_cursor (w : world) (st : locals) :
  timestamp (locals_of (derive cfg w st)) =
  match snd (get_api_answer cfg (api_clock w) (http w) (timestamp st)) with
  | Return (VDict d) => get_item d "current_date" (VInt (clock w))
  | _ => timestamp st
  end.
Proof.
  rewrite derive_cases. cbv zeta.
  destruct (get_api_answer cfg (api_clock w) (http w) (timestamp st)) as [eva [response|e]];
    cbn [fst snd]; [|reflexivity].
  destruct response as [| | | | |l|d]; try reflexivity.
  destruct (check_response (VDict d)) as [evc [[|homework rest]|e]]; cbn [fst snd];
    try reflexivity.
  destruct (parse_status homework) as [evp [m|e]]; reflexivity.
Qed.

(** The rest of the iteration leaves the cursor alone. *)
Lemma iteration_cursor (w : world) (st : locals) :
  timestamp (locals_of (iteration cfg w st)) = timestamp (locals_of (derive cfg w st)).
Proof.
  rewrite iteration_cases.
  destruct (derive cfg w st) as [[evd std] rd] eqn:D.
  destruct (derive_facts _ _ _ _ _ D) as (_ & _ & Fd).
  assert (Hh : forall e, is_NotForSend e = false ->
                         timestamp (locals_of (handlers cfg w e std)) = timestamp std).
  { intros e N. destruct (handlers cfg w e std) as [[evh sth] rh] eqn:H.
    now destruct (handlers_facts w e std evh sth rh N H) as (_ & T & _). }
  destruct rd as [m|e].
  - destruct (String.eqb m (prev_msg std)); [reflexivity|].
    pose proof (send_message_raises cfg (bot w) m) as Rf.
    destruct (snd (send_message cfg (bot w) m)) as [[]|e]; [reflexivity|].
    destruct (Rf e eq_refl) as (f & -> & _).
    specialize (Hh (Foreign f) eq_refl).
    now destruct (handlers cfg w (Foreign f) std) as [[evh sth] rh].
  - specialize (Hh e Fd). now destruct (handlers cfg w e std) as [[evh sth] rh].
Qed.

(** The request of an iteration is among its events. *)
Lemma iteration_request (w : world) (st : locals) :
  In (HttpGet ENDPOINT (HEADERS cfg)
        (VDict [("from_date", from_date (api_clock w) (timestamp st))]))
     (events_of (iteration cfg w st)).
Proof.
  rewrite iteration_cases.
  assert (D : exists rest,
             events_of (derive cfg w st)
             = (fst (get_api_answer cfg (api_clock w) (http w) (timestamp st)) ++ rest)%list).
  { rewrite derive_cases. cbv zeta.
    destruct (get_api_answer cfg (api_clock w) (http w) (timestamp st))
      as [eva [response|e]]; cbn [fst snd]; [|exists []; cbn; now rewrite app_nil_r].
    destruct response as [| | | | |l|d]; try (exists []; cbn; now rewrite app_nil_r).
    destruct (check_response (VDict d)) as [evc [[|homework rest]|e]]; cbn [fst snd];
      try (now exists evc).
    destruct (parse_status homework) as [evp [m|e]]; now exists (evc ++ evp)%list. }
  destruct D as [rest D]. rewrite get_api_answer_events in D.
  destruct (derive cfg w st) as [[evd std] rd]. cbn [events_of fst snd] in D. subst evd.
  match goal with
  | |- context [match ?x with pair _ _ => _ end] => destruct x as [[evs st'] r]
  end.
  cbn [events_of fst snd]. cbn [app]. right. now left.
Qed.

(** C6, as the code has it.  The cursor an iteration leaves is decided by
    the API call alone: when the call returns a [dict], the cursor is the
    item under [current_date], whatever it is, or the clock when there is no
    such key; when the call raises, or returns something else, the cursor
    is the one the iteration started with.  So when validation succeeds the
    cursor is the response's [current_date], a false one too.  The request
    is made with the cursor the iteration started with, or with the clock
    when that cursor is false. *)
Theorem cursor_follows_answer (w : world) (st : locals) :
  let got := snd (get_api_answer cfg (api_clock w) (http w) (timestamp st)) in
  let after := locals_of (iteration cfg w st) in
  timestamp after
  = match got with
    | Return (VDict d) => get_item d "current_date" (VInt (clock w))
    | _ => timestamp st
    end
  /\ (forall response homeworks,
        got = Return response ->
        snd (check_response response) = Return homeworks ->
        field "current_date" response = Some (timestamp after))
  /\ In (HttpGet ENDPOINT (HEADERS cfg)
           (VDict [("from_date", from_date (api_clock w) (timestamp st))]))
        (events_of (iteration cfg w st)).
Proof.
  cbv zeta. rewrite iteration_cursor, derive_cursor.
  split; [reflexivity|]. split; [|apply iteration_request].
  intros response homeworks -> V. rewrite check_response_result in V.
  destruct response as [| | | | |l|d]; try discriminate V.
  cbn [field]. unfold get_item.
  destruct (lookup "homeworks" d); [|discriminate V].
  now destruct (lookup "current_date" d); [|destruct v; discriminate V].
Qed.

(** The loop is its iterations, one after the other. *)
Lemma loop_iterations (ws : list world) (st : locals) :
  events_of (loop cfg ws st) = concat (map events_of (iterations cfg ws st)).
Proof.
  revert st. induction ws as [|w ws IH]; intros st; [reflexivity|].
  cbn [loop iterations]. unfold MM.bind.
  destruct (iteration cfg w st) as [[evs st'] [[]|e]]; cbn [map concat events_of fst snd].
  - specialize (IH st'). destruct (loop cfg ws st') as [[evl stl] rl].
    cbn [events_of fst snd] in *. now rewrite IH.
  - now rewrite app_nil_r.
Qed.

Lemma missing_iff (v : option string) : missing v = true <-> v = None \/ v = Some "".
Proof.
  unfold missing. destruct v as [s|]; cbn.
  - destruct (String.eqb_spec s ""); split; intros H;
      [right; congruence | reflexivity | discriminate | destruct H as [H|[= H]]; congruence].
  - split; auto.
Qed.

(** C9, as the code has it.  When one of the three environment values is
    missing, [main] checks the tokens, writes a CRITICAL line to the log
    and calls [sys.exit] with a text, which is exit status 1; nothing else
    happens, whatever the collaborators would do.  When none is missing,
    [main] never calls [sys.exit]; it builds the client, and
    - when the constructor raises, that exception ends [main] right after
      the check: nothing is sent and the loop is not entered;
    - when the start message's send raises something that is no
      [TelegramError], that exception ends [main]: the loop is not entered;
    - otherwise [main] runs the loop from the clock and an empty
      [prev_msg]. *)
Theorem token_gate (telegram_Bot : BotClass) (start_clock : Z) (ws : list world) :
  (missing (PRACTICUM_TOKEN cfg) || missing (TELEGRAM_TOKEN cfg)
   || missing (TELEGRAM_CHAT_ID cfg) = true ->
   main cfg telegram_Bot start_clock ws
   = ([Log root_logger INFO "Проверка наличия всех токенов";
       Log root_logger CRITICAL "Отсутствует токен. Бот остановлен!"],
      Exit (VStr "Отсутствует токен. Бот остановлен!"))
   /\ exit_status (VStr "Отсутствует токен. Бот остановлен!") = 1)
  /\
  (missing (PRACTICUM_TOKEN cfg) || missing (TELEGRAM_TOKEN cfg)
   || missing (TELEGRAM_CHAT_ID cfg) = false ->
   (forall arg, snd (main cfg telegram_Bot start_clock ws) <> Exit arg)
   /\
   match telegram_Bot (TELEGRAM_TOKEN cfg) with
   | Raises f =>
       main cfg telegram_Bot start_clock ws
       = ([Log root_logger INFO "Проверка наличия всех токенов"], Uncaught (Foreign f))
   | Returns start_bot =>
       let polled :=
         loop cfg ws {| timestamp := VInt start_clock; prev_msg := ""; message := None |} in
       (swallowed (start_bot (TELEGRAM_CHAT_ID cfg) "Бот начал работу") = true ->
        main cfg telegram_Bot start_clock ws
        = ((Log root_logger INFO "Проверка наличия всех токенов"
            :: fst (send_message cfg start_bot "Бот начал работу")
            ++ Log root_logger INFO "Бот начал работу" :: events_of polled)%list,
           match result_of polled with
           | Return _ => Polling (locals_of polled)
           | Raise e => Uncaught e
           end))
       /\
       (forall f,
          start_bot (TELEGRAM_CHAT_ID cfg) "Бот начал работу" = Raises f ->
          telegram f = false ->
          main cfg telegram_Bot start_clock ws
          = ([Log root_logger INFO "Проверка наличия всех токенов";
              BotSend (TELEGRAM_CHAT_ID cfg) "Бот начал работу"],
             Uncaught (Foreign f)))
   end).
Proof.
  unfold main, check_tokens, missing. cbn [FM.bind log FM.emit FM.ret app forallb].
  destruct (truthy (env_value (PRACTICUM_TOKEN cfg)));
    destruct (truthy (env_value (TELEGRAM_TOKEN cfg)));
    destruct (truthy (env_value (TELEGRAM_CHAT_ID cfg)));
    cbn [negb orb andb]; (split; [intros H; try discriminate H; now split|]);
    intros H; try discriminate H.
  destruct (telegram_Bot (TELEGRAM_TOKEN cfg)) as [start_bot|f].
  2: { split; [intros arg; discriminate | reflexivity]. }
  pose proof (swallowed_result start_bot "Бот начал работу") as R.
  pose proof (send_message_cases cfg start_bot "Бот начал работу") as C.
  destruct (send_message cfg start_bot "Бот начал работу") as [ev1 r1].
  cbn [fst snd] in *.
  destruct (loop cfg ws _) as [[ev2 st'] r].
  split; [|split].
  - destruct (start_bot (TELEGRAM_CHAT_ID cfg) "Бот начал работу") as [[]|f];
      [|destruct (telegram f)]; injection C as -> ->; cbn [app snd];
      intros arg; try (destruct r); discriminate.
  - intros Sw. rewrite Sw in R. subst r1. reflexivity.
  - intros f B N. rewrite B, N in C. injection C as -> ->. reflexivity.
Qed.

End Loop.

(** ** The theorems at sample data *)

Lemma check_response_shape_witness :
  exists l, field "homeworks" Sample.reviewing = Some (VList l)
            /\ snd (check_response Sample.reviewing) = Return l.
Proof.
  apply (check_response_shape Sample.reviewing).
  intros [H|[H|[H|(homeworks & [= <-] & H)]]]; discriminate H.
Defined.

Lemma no_repeat_back_to_back_witness :
  let w := Sample.answering Sample.delivering Sample.reviewing in
  let first := iteration Sample.cfg w Sample.start in
  let second := iteration Sample.cfg w (locals_of first) in
  (times_sent Sample.hw1_reviewing (events_of first)
   + times_sent Sample.hw1_reviewing (events_of second) <= 1)%nat
  /\ times_sent Sample.hw1_reviewing (events_of second) = 0%nat
  /\ In Sample.hw1_reviewing (logged (events_of second)).
Proof.
  cbv zeta.
  set (w := Sample.answering Sample.delivering Sample.reviewing).
  set (first := iteration Sample.cfg w Sample.start).
  set (second := iteration Sample.cfg w (locals_of first)).
  apply (no_repeat_back_to_back Sample.cfg [w; w] Sample.start 0 first second
           Sample.hw1_reviewing).
  - vm_compute. reflexivity.
  - vm_compute. reflexivity.
  - vm_compute. reflexivity.
  - vm_compute. reflexivity.
Defined.

(** The API answers with a JSON array: line 183 raises [AttributeError],
    and the bot fails with a [TelegramError]. *)
Lemma failure_is_caught_witness :
  let w := Sample.answering Sample.failing (VList []) in
  let text := "Сбой в работе программы: 'list' object has no attribute 'get'" in
  exists evs st' r,
    iteration Sample.cfg w Sample.start
    = ((events_of (derive Sample.cfg w Sample.start)
        ++ Log root_logger ERROR text :: evs ++ [Sleep RETRY_PERIOD])%list,
       st', r)
    /\ message st' = Some text
    /\ (text = prev_msg Sample.start ->
        evs = [] /\ r = Return tt /\ prev_msg st' = prev_msg Sample.start)
    /\ (text <> prev_msg Sample.start ->
        evs = fst (send_message Sample.cfg (bot w) text)
        /\ sent evs = [text]
        /\ (swallowed (bot w (TELEGRAM_CHAT_ID Sample.cfg) text) = true ->
            r = Return tt /\ prev_msg st' = text)
        /\ (forall f, bot w (TELEGRAM_CHAT_ID Sample.cfg) text = Raises f ->
                      telegram f = false ->
                      r = Raise (Foreign f) /\ prev_msg st' = prev_msg Sample.start)).
Proof.
  cbv zeta.
  apply (failure_is_caught Sample.cfg (Sample.answering Sample.failing (VList []))
           Sample.start _ (locals_of (derive Sample.cfg
                                        (Sample.answering Sample.failing (VList []))
                                        Sample.start))
           (attribute_error (VList []) "get")).
  vm_compute. reflexivity.
Defined.

(** C7 as it is worded fails.  The network is down and the bot raises
    [BrokenPipeError] when it is handed the failure text: the exception of
    the API call is caught, the one of the bot leaves the iteration, the
    loop has no second iteration and [main] ends with the exception. *)
Lemma api_failure_ends_loop :
  let w := Sample.offline Sample.crashing in
  let ws := [w; Sample.answering Sample.delivering Sample.reviewing] in
  (exists e, result_of (derive Sample.cfg w Sample.start) = Raise e
             /\ class_of e = Some WrongResponseCode)
  /\ result_of (iteration Sample.cfg w Sample.start) = Raise (Foreign Sample.broken_pipe)
  /\ List.length (iterations Sample.cfg ws Sample.start) = 1%nat
  /\ snd (main Sample.cfg (Sample.building Sample.delivering) 1699999000 ws)
     = Uncaught (Foreign Sample.broken_pipe).
Proof.
  cbv zeta. split; [eexists; split; vm_compute; reflexivity|].
  repeat split; vm_compute; reflexivity.
Qed.

(** C1 as it is worded fails.  The API gives the same homework twice and
    the bot raises [BrokenPipeError] on its status message: both
    iterations derive that message, and both hand it to the bot. *)
Lemma status_message_sent_twice :
  let w := Sample.answering (Sample.choking Sample.hw1_reviewing) Sample.reviewing in
  let first := iteration Sample.cfg w Sample.start in
  let second := iteration Sample.cfg w (locals_of first) in
  iterations Sample.cfg [w; w] Sample.start = [first; second]
  /\ result_of (derive Sample.cfg w Sample.start) = Return Sample.hw1_reviewing
  /\ result_of (derive Sample.cfg w (locals_of first)) = Return Sample.hw1_reviewing
  /\ times_sent Sample.hw1_reviewing (events_of first) = 1%nat
  /\ times_sent Sample.hw1_reviewing (events_of second) = 1%nat
  /\ result_of first = Return tt.
Proof. cbv zeta. repeat split; vm_compute; reflexivity. Qed.


Lemma cursor_follows_answer_witness :
  let w := Sample.answering Sample.delivering Sample.reviewing in
  field "current_date" Sample.reviewing
  = Some (timestamp (locals_of (iteration Sample.cfg w Sample.start))).
Proof.
  cbv zeta.
  apply (proj1 (proj2 (cursor_follows_answer Sample.cfg
                         (Sample.answering Sample.delivering Sample.reviewing)
                         Sample.start))
           Sample.reviewing
           [VDict [("homework_name", VStr "hw1"); ("status", VStr "reviewing")]]).
  - vm_compute. reflexivity.
  - vm_compute. reflexivity.
Defined.

(** C6 as it is worded fails twice.  A response with [current_date] and no
    [homeworks] fails validation, and the cursor has moved to its
    [current_date] all the same.  A response that passes validation with
    the false [current_date] 0 moves the cursor to 0, not to the clock. *)
Lemma cursor_moves_without_validation :
  (let w := Sample.answering Sample.delivering Sample.no_homeworks in
   (exists e, snd (check_response Sample.no_homeworks) = Raise e)
   /\ timestamp Sample.start = VInt 1699999000
   /\ timestamp (locals_of (iteration Sample.cfg w Sample.start)) = VInt 100)
  /\
  (let w := Sample.answering Sample.delivering (Sample.nothing_new (VInt 0)) in
   snd (check_response (Sample.nothing_new (VInt 0))) = Return []
   /\ truthy (VInt 0) = false
   /\ timestamp (locals_of (iteration Sample.cfg w Sample.start)) = VInt 0
   /\ VInt 0 <> VInt (clock w)).
Proof.
  cbv zeta. split.
  - split; [eexists; vm_compute; reflexivity|]. split; vm_compute; reflexivity.
  - split; [vm_compute; reflexivity|]. split; [reflexivity|].
    split; [vm_compute; reflexivity | vm_compute; discriminate].
Qed.

Lemma token_gate_witness :
  (main Sample.cfg_no_chat (Sample.building Sample.delivering) 1699999000
     [Sample.answering Sample.delivering Sample.reviewing]
   = ([Log root_logger INFO "Проверка наличия всех токенов";
       Log root_logger CRITICAL "Отсутствует токен. Бот остановлен!"],
      Exit (VStr "Отсутствует токен. Бот остановлен!"))
   /\ exit_status (VStr "Отсутствует токен. Бот остановлен!") = 1)
  /\
  (let ws := [Sample.answering Sample.delivering Sample.reviewing] in
   let polled :=
     loop Sample.cfg ws {| timestamp := VInt 1699999000; prev_msg := ""; message := None |} in
   main Sample.cfg (Sample.building Sample.failing) 1699999000 ws
   = ((Log root_logger INFO "Проверка наличия всех токенов"
       :: fst (send_message Sample.cfg Sample.failing "Бот начал работу")
       ++ Log root_logger INFO "Бот начал работу" :: events_of polled)%list,
      match result_of polled with
      | Return _ => Polling (locals_of polled)
      | Raise e => Uncaught e
      end)).
Proof.
  split.
  - apply (proj1 (token_gate Sample.cfg_no_chat (Sample.building Sample.delivering)
                    1699999000 [Sample.answering Sample.delivering Sample.reviewing])).
    reflexivity.
  - cbv zeta.
    pose proof (proj2 (token_gate Sample.cfg (Sample.building Sample.failing) 1699999000
                         [Sample.answering Sample.delivering Sample.reviewing]) eq_refl)
      as [_ [Entered _]].
    apply Entered. reflexivity.
Defined.

(** C9 as it is worded fails.  The three values are set, and the loop is
    not entered: the constructor of line 173 refuses a token without a
    colon with [InvalidToken], which ends [main] before anything is sent
    or asked; and a bot that raises something that is no [TelegramError]
    on the start message ends [main] as well. *)
Lemma tokens_present_loop_not_entered :
  let ws := [Sample.answering Sample.delivering Sample.reviewing] in
  missing (PRACTICUM_TOKEN Sample.cfg_malformed)
  || missing (TELEGRAM_TOKEN Sample.cfg_malformed)
  || missing (TELEGRAM_CHAT_ID Sample.cfg_malformed) = false
  /\ main Sample.cfg_malformed Sample.refusing 1699999000 ws
     = ([Log root_logger INFO "Проверка наличия всех токенов"],
        Uncaught (Foreign Sample.invalid_token))
  /\ requests (fst (main Sample.cfg_malformed Sample.refusing 1699999000 ws)) = []
  /\ main Sample.cfg (Sample.building Sample.crashing) 1699999000 ws
     = ([Log root_logger INFO "Проверка наличия всех токенов";
         BotSend (Some "1001") "Бот начал работу"],
        Uncaught (Foreign Sample.broken_pipe))
  /\ requests (fst (main Sample.cfg (Sample.building Sample.crashing) 1699999000 ws)) = [].
Proof. cbv zeta. repeat split; vm_compute; reflexivity. Qed.

(** The end-to-end scenario of the spec: the payload with [hw1] under
    review twice in a row.  The bot gets the start message and the status
    message, once each, and the cursor is 100. *)
Example end_to_end :
  let w := Sample.answering Sample.delivering Sample.reviewing in
  let '(evs, after) :=
    main Sample.cfg (Sample.building Sample.delivering) 1699999000 [w; w] in
  sent evs = ["Бот начал работу"; Sample.hw1_reviewing]
  /\ after = Polling {| timestamp := VInt 100;
                        prev_msg := Sample.hw1_reviewing;
                        message := Some Sample.hw1_reviewing |}.
Proof. vm_compute. split; reflexivity. Qed.

(** * More of the code *)

(** ** [get_api_answer], whatever the API does *)

Section ApiCall.
Import Str StrFacts.

Variable cfg : config.

(** X1.  [get_api_answer] returns exactly when the status code is 200 and
    [json()] returns, and then it returns what [json()] gave.  Whatever
    else happens, what it raises is a [WrongResponseCode] with two
    arguments, the text of line 78 and the exception caught: the one
    [requests.get] raised, the one [json()] raised, or the
    [WrongResponseCode] of line 70. *)
Theorem get_api_answer_outcomes (now : Z) (get : answer http_response) (cursor : value) :
  (forall v,
     snd (get_api_answer cfg now get cursor) = Return v <->
     exists r, get = Returns r /\ status_code r = 200 /\ json r = Returns v)
  /\
  (forall e,
     snd (get_api_answer cfg now get cursor) = Raise e <->
     (exists f, get = Raises f
                /\ e = Exc2 WrongResponseCode (failed_text cfg now cursor) (Foreign f))
     \/ (exists r f, get = Returns r /\ status_code r = 200 /\ json r = Raises f
                     /\ e = Exc2 WrongResponseCode (failed_text cfg now cursor) (Foreign f))
     \/ (exists r, get = Returns r /\ status_code r <> 200
                   /\ e = Exc2 WrongResponseCode (failed_text cfg now cursor)
                            (Exc WrongResponseCode (VStr (not_ok_text r))))).
Proof.
  rewrite get_api_answer_result.
  destruct get as [r|f].
  - destruct (Z.eqb_spec (status_code r) 200) as [E|NE].
    + destruct (json r) as [v'|f] eqn:J; split.
      * intros v. split.
        -- intros [= <-]. now exists r.
        -- intros (r' & [= <-] & _ & J'). congruence.
      * intros e. split; [discriminate|].
        intros [(f & [=] & _)|[(r' & f & [= <-] & _ & J' & _)|(r' & [= <-] & N & _)]];
          [congruence | contradiction].
      * intros v. split; [discriminate|].
        intros (r' & [= <-] & _ & J'). congruence.
      * intros e. split.
        -- intros [= <-]. right. left. now exists r, f.
        -- intros [(f' & [=] & _)|[(r' & f' & [= <-] & _ & J' & ->)|(r' & [= <-] & N & _)]];
             [congruence | contradiction].
    + split.
      * intros v. split; [discriminate|].
        intros (r' & [= <-] & E & _). contradiction.
      * intros e. split.
        -- intros [= <-]. right. right. now exists r.
        -- intros [(f' & [=] & _)|[(r' & f' & [= <-] & E & _)|(r' & [= <-] & _ & ->)]];
             [contradiction | reflexivity].
  - split.
    + intros v. split; [discriminate|]. intros (r & [=] & _).
    + intros e. split.
      * intros [= <-]. left. now exists f.
      * intros [(f' & [= <-] & ->)|[(r & f' & [=] & _)|(r & [=] & _)]]. reflexivity.
Qed.

(** X2.  When [requests.get] raises, the text of the [WrongResponseCode]
    that leaves [get_api_answer] contains the URL asked for and the [repr]
    of the exception caught. *)
Theorem api_failure_text_holds_cause (now : Z) (cursor : value) (f : foreign) :
  forall e,
    snd (get_api_answer cfg now (Raises f) cursor) = Raise e ->
    contains (exc_str e) ENDPOINT = true
    /\ contains (exc_str e) (repr_text f) = true
    /\ class_of e = Some WrongResponseCode.
Proof.
  intros e. rewrite get_api_answer_result. intros [= <-].
  split; [|split; [|reflexivity]].
  - apply shown_outer.
    apply (repr_holds_plain _ "API не возвращает 200. Запрос: " _
             (", " ++ py_str (HEADERS cfg) ++ ", "
              ++ py_str (VDict [("from_date", from_date now cursor)]) ++ "."));
      reflexivity.
  - cbn [exc_str exc_repr]. do 3 apply contains_skip. apply contains_here.
Qed.

End ApiCall.

Lemma api_failure_text_holds_cause_witness :
  let e := Exc2 WrongResponseCode (failed_text Sample.cfg 1700000000 VNone)
             (Foreign Sample.connection_error) in
  Str.contains (exc_str e) ENDPOINT = true
  /\ Str.contains (exc_str e) "ConnectionError('Connection refused')" = true
  /\ class_of e = Some WrongResponseCode.
Proof.
  cbv zeta.
  apply (api_failure_text_holds_cause Sample.cfg 1700000000 VNone Sample.connection_error).
  reflexivity.
Defined.

(** ** [parse_status]: when it returns and what it raises *)

Section Validation.
Import Str StrFacts.

(** The message of [parse_status] for a recognized status and a name. *)
Lemma parse_status_text (d : list (string * value)) (status : string) (name verdict : value) :
  lookup "status" d = Some (VStr status) ->
  lookup "homework_name" d = Some name ->
  lookup status HOMEWORK_VERDICTS = Some verdict ->
  parse_status (VDict d)
  = ([], Return ("Изменился статус проверки работы " ++ dq ++ py_str name ++ dq ++ ". "
                 ++ py_str verdict)).
Proof.
  intros Hs Hn Hv. unfold parse_status, get_item, has_key. rewrite Hs, Hn.
  unfold dict_get, dict_contains, dict_item. cbn [hash_key hashable find_item FM.bind FM.ret app].
  rewrite Hv. cbn [negb].
  assert (T : truthy verdict = true).
  { unfold HOMEWORK_VERDICTS in Hv. cbn [lookup] in Hv.
    destruct (String.eqb "approved" status); [now injection Hv as <-|].
    destruct (String.eqb "reviewing" status); [now injection Hv as <-|].
    destruct (String.eqb "rejected" status); [now injection Hv as <-|].
    discriminate Hv. }
  rewrite T. reflexivity.
Qed.

(** When [parse_status] returns, the record has a name and its status is
    a key of [HOMEWORK_VERDICTS]. *)
Lemma parse_status_returns_known (d : list (string * value)) (message : string) :
  snd (parse_status (VDict d)) = Return message ->
  exists status verdict,
    lookup "status" d = Some (VStr status)
    /\ lookup status HOMEWORK_VERDICTS = Some (VStr verdict)
    /\ has_key "homework_name" d = true.
Proof.
  intros H.
  unfold parse_status, dict_get, dict_contains, dict_item, hash_key in H.
  destruct (hashable (get_item d "status" VNone)) eqn:Hh; [|discriminate H].
  cbn [FM.bind FM.ret app] in H.
  destruct (find_item HOMEWORK_VERDICTS (get_item d "status" VNone)) as [verdict|] eqn:Hv;
    cbn [negb] in H; [|discriminate H].
  destruct (has_key "homework_name" d) eqn:Hn; cbn [negb] in H; [|discriminate H].
  unfold get_item in Hv.
  destruct (lookup "status" d) as [[| | | |status| |]|] eqn:Hs; try discriminate Hv.
  cbn [find_item] in Hv.
  assert (In status ["approved"; "reviewing"; "rejected"]) as Hin.
  { unfold HOMEWORK_VERDICTS in Hv. cbn [lookup] in Hv.
    destruct (String.eqb_spec "approved" status) as [<-|_]; [now left|].
    destruct (String.eqb_spec "reviewing" status) as [<-|_]; [now right; left|].
    destruct (String.eqb_spec "rejected" status) as [<-|_]; [now right; right; left|].
    discriminate Hv. }
  destruct (proj1 (recognized_iff status) Hin) as [text Ht].
  now exists status, text.
Qed.

(** X4.  [parse_status] returns exactly for a mapping that has a
    [homework_name] item and whose [status] is one of the three strings
    approved, reviewing and rejected; for every other value it raises. *)
Theorem parse_status_returns_iff (homework : value) :
  (exists message, snd (parse_status homework) = Return message) <->
  (exists d status,
     homework = VDict d
     /\ lookup "status" d = Some (VStr status)
     /\ In status ["approved"; "reviewing"; "rejected"]
     /\ has_key "homework_name" d = true).
Proof.
  split.
  - intros [message H].
    destruct homework as [| | | | |l|d]; try discriminate H.
    destruct (parse_status_returns_known d message H) as (status & verdict & Hs & Hv & Hn).
    exists d, status. repeat split; try assumption.
    apply recognized_iff. now exists verdict.
  - intros (d & status & -> & Hs & Hin & Hn).
    unfold has_key in Hn. destruct (lookup "homework_name" d) as [name|] eqn:Hname;
      [|discriminate Hn].
    destruct (proj1 (recognized_iff status) Hin) as [verdict Hv].
    eexists. now rewrite (parse_status_text d status name (VStr verdict) Hs Hname Hv).
Qed.

(** X5.  [parse_status] never raises [UnknownStatusError], the class
    [exceptions.py] has for an unknown status: line 143 asks whether
    [homework] is [None] after line 129 has called [homework.get].  What it
    raises is a [KeyError], a [TypeError] or an [AttributeError], and it
    writes nothing to the log and calls nobody. *)
Theorem parse_status_never_UnknownStatusError (homework : value) :
  fst (parse_status homework) = []
  /\ forall e, snd (parse_status homework) = Raise e ->
               class_of e <> Some UnknownStatusError
               /\ (class_of e = Some KeyError \/ class_of e = Some TypeError
                   \/ class_of e = Some AttributeError).
Proof.
  pose proof (parse_status_raises homework) as R.
  pose proof (parse_status_returns homework) as V.
  destruct (parse_status homework) as [evs [m|e]]; cbn [fst snd].
  - split; [now destruct (V _ _ eq_refl)|]. discriminate.
  - destruct (R _ _ eq_refl) as [-> C]. split; [reflexivity|].
    intros e' [= <-]. split; [|exact C].
    destruct C as [C|[C|C]]; rewrite C; discriminate.
Qed.

Lemma append_inj_l (a x y : string) : a ++ x = a ++ y -> x = y.
Proof.
  induction a as [|c a IH]; cbn [append]; [trivial|]. intros [= H]. now apply IH.
Qed.

(** X6.  Two records with the same name and two different recognized
    statuses give two different messages: for the loop, a change of status
    is a change of message. *)
Theorem status_change_changes_message (d1 d2 : list (string * value)) (name : value)
    (s1 s2 m1 m2 : string) :
  lookup "homework_name" d1 = Some name ->
  lookup "homework_name" d2 = Some name ->
  lookup "status" d1 = Some (VStr s1) ->
  lookup "status" d2 = Some (VStr s2) ->
  s1 <> s2 ->
  snd (parse_status (VDict d1)) = Return m1 ->
  snd (parse_status (VDict d2)) = Return m2 ->
  m1 <> m2.
Proof.
  intros N1 N2 S1 S2 NE P1 P2 E.
  assert (R : forall d s m, lookup "homework_name" d = Some name ->
                            lookup "status" d = Some (VStr s) ->
                            snd (parse_status (VDict d)) = Return m ->
                            exists verdict,
                              lookup s HOMEWORK_VERDICTS = Some (VStr verdict)
                              /\ m = "Изменился статус проверки работы " ++ dq
                                     ++ py_str name ++ dq ++ ". " ++ verdict).
  { intros d s m Hn Hs Hp.
    destruct (parse_status_returns_known d m Hp) as (s' & verdict & Hs' & Hv & _).
    assert (s' = s) by congruence. subst s'.
    exists verdict. split; [exact Hv|].
    rewrite (parse_status_text d s name (VStr verdict) Hs Hn Hv) in Hp.
    now injection Hp as <-. }
  destruct (R d1 s1 m1 N1 S1 P1) as (v1 & V1 & ->).
  destruct (R d2 s2 m2 N2 S2 P2) as (v2 & V2 & ->).
  do 5 apply append_inj_l in E. subst v2.
  apply NE.
  assert (I1 : In s1 ["approved"; "reviewing"; "rejected"])
    by (apply recognized_iff; now exists v1).
  assert (I2 : In s2 ["approved"; "reviewing"; "rejected"])
    by (apply recognized_iff; now exists v1).
  destruct I1 as [<-|[<-|[<-|[]]]]; destruct I2 as [<-|[<-|[<-|[]]]];
    first [reflexivity | cbn in V1, V2; congruence].
Qed.

(** X7.  What is not a mapping (a JSON string, number, array, [null]) has
    no [get]: [parse_status] raises the [AttributeError] of line 129.  A
    mapping whose status is a JSON array or object cannot be looked up in
    [HOMEWORK_VERDICTS]: line 131 raises a [TypeError], whether the record
    has a name or not. *)
Theorem parse_status_bad_shapes (homework : value) :
  (is_dict homework = false ->
   parse_status homework
   = ([], Raise (Exc AttributeError (VStr (
            "'" ++ type_name homework ++ "' object has no attribute 'get'")))))
  /\
  (forall d, homework = VDict d ->
             hashable (get_item d "status" VNone) = false ->
             parse_status homework
             = ([], Raise (Exc TypeError (VStr (
                      "unhashable type: '" ++ type_name (get_item d "status" VNone) ++ "'"))))).
Proof.
  split.
  - intros H. now destruct homework.
  - intros d -> Hh. unfold parse_status, dict_get, hash_key. now rewrite Hh.
Qed.

Lemma parse_status_bad_shapes_witness :
  parse_status (VStr "hw1")
  = ([], Raise (Exc AttributeError (VStr "'str' object has no attribute 'get'")))
  /\
  parse_status (VDict [("homework_name", VStr "hw1"); ("status", VList [])])
  = ([], Raise (Exc TypeError (VStr "unhashable type: 'list'"))).
Proof.
  split.
  - apply (proj1 (parse_status_bad_shapes (VStr "hw1"))). reflexivity.
  - apply (proj2 (parse_status_bad_shapes
                    (VDict [("homework_name", VStr "hw1"); ("status", VList [])]))
             [("homework_name", VStr "hw1"); ("status", VList [])]);
      reflexivity.
Defined.

End Validation.

Lemma status_change_changes_message_witness :
  "Изменился статус проверки работы " ++ Str.dq ++ "hw1" ++ Str.dq
  ++ ". Работа взята на проверку ревьюером."
  <> "Изменился статус проверки работы " ++ Str.dq ++ "hw1" ++ Str.dq
     ++ ". Работа проверена: ревьюеру всё понравилось. Ура!".
Proof.
  apply (status_change_changes_message
           [("homework_name", VStr "hw1"); ("status", VStr "reviewing")]
           [("homework_name", VStr "hw1"); ("status", VStr "approved")]
           (VStr "hw1") "reviewing" "approved").
  - reflexivity.
  - reflexivity.
  - reflexivity.
  - reflexivity.
  - discriminate.
  - reflexivity.
  - reflexivity.
Defined.

(** ** [send_message], [log_and_send_error_to_Telegram], [check_tokens] *)

Section Notifier.

Variable cfg : config.

(** X8.  [send_message] calls the bot exactly once, with
    [TELEGRAM_CHAT_ID] and the message, and never a second time.  It
    returns exactly when the bot delivers or raises a [TelegramError]; an
    exception of any other class leaves it as it is, with nothing written
    to the log. *)
Theorem send_message_outcomes (bot : Bot) (message : string) :
  (exists logs, fst (send_message cfg bot message)
                = BotSend (TELEGRAM_CHAT_ID cfg) message :: logs
                /\ sent logs = [])
  /\ (snd (send_message cfg bot message) = Return tt <->
      swallowed (bot (TELEGRAM_CHAT_ID cfg) message) = true)
  /\ (forall e, snd (send_message cfg bot message) = Raise e <->
                exists f, bot (TELEGRAM_CHAT_ID cfg) message = Raises f
                          /\ telegram f = false /\ e = Foreign f)
  /\ (forall e, snd (send_message cfg bot message) = Raise e ->
                logged (fst (send_message cfg bot message)) = []).
Proof.
  rewrite send_message_cases. unfold swallowed.
  destruct (bot (TELEGRAM_CHAT_ID cfg) message) as [[]|f]; [|destruct (telegram f) eqn:T];
    cbn [fst snd].
  - split; [now eexists|]. split; [tauto|]. split; [|discriminate].
    intros e. split; [discriminate | intros (f & [=] & _)].
  - split; [now eexists|]. split; [tauto|]. split; [|discriminate].
    intros e. split; [discriminate | intros (f' & [= <-] & T' & _); congruence].
  - split; [now eexists|]. split; [split; discriminate|]. split; [|reflexivity].
    intros e. split.
    + intros [= <-]. now exists f.
    + intros (f' & [= <-] & _ & ->). reflexivity.
Qed.

(** X9.  [log_and_send_error_to_Telegram] writes the message to the log
    at ERROR level before anything else, then does what [send_message]
    does: the message is in the log even when the bot raises, it reaches
    the bot once, and the function ends as [send_message] ends. *)
Theorem log_and_send_logs_first (bot : Bot) (message : string) :
  fst (log_and_send_error_to_Telegram cfg bot message)
  = Log module_logger ERROR message :: fst (send_message cfg bot message)
  /\ snd (log_and_send_error_to_Telegram cfg bot message)
     = snd (send_message cfg bot message)
  /\ sent (fst (log_and_send_error_to_Telegram cfg bot message)) = [message]
  /\ In message (logged (fst (log_and_send_error_to_Telegram cfg bot message))).
Proof.
  unfold log_and_send_error_to_Telegram, log, FM.emit, FM.bind.
  pose proof (send_message_sent cfg bot message) as S.
  destruct (send_message cfg bot message) as [evs r]. cbn [fst snd app] in *.
  repeat split; [exact S | now left].
Qed.

(** X10.  [check_tokens] answers [True] exactly when each of the three
    variables is set to a text that is not empty; it writes one line to the
    log and raises nothing. *)
Theorem check_tokens_iff :
  fst (check_tokens cfg) = [Log root_logger INFO "Проверка наличия всех токенов"]
  /\ (snd (check_tokens cfg) = Return true <->
      (exists a b c, PRACTICUM_TOKEN cfg = Some a /\ TELEGRAM_TOKEN cfg = Some b
                     /\ TELEGRAM_CHAT_ID cfg = Some c
                     /\ a <> "" /\ b <> "" /\ c <> ""))
  /\ (snd (check_tokens cfg) = Return true \/ snd (check_tokens cfg) = Return false).
Proof.
  unfold check_tokens. cbn [FM.bind log FM.emit FM.ret fst snd app forallb].
  split; [reflexivity|].
  assert (T : forall v, truthy (env_value v) = true <-> exists s, v = Some s /\ s <> "").
  { intros [s|]; cbn.
    - destruct (String.eqb_spec s ""); split.
      + discriminate.
      + intros (s' & [= <-] & N). contradiction.
      + intros _. now exists s.
      + reflexivity.
    - split; [discriminate | intros (s & [=] & _)]. }
  split.
  - split.
    + intros [= H]. rewrite andb_true_r in H.
      apply andb_true_iff in H. destruct H as [A H].
      apply andb_true_iff in H. destruct H as [B C].
      apply T in A, B, C.
      destruct A as (a & -> & Na), B as (b & -> & Nb), C as (c & -> & Nc).
      now exists a, b, c.
    + intros (a & b & c & Ea & Eb & Ec & Na & Nb & Nc).
      assert (A : truthy (env_value (PRACTICUM_TOKEN cfg)) = true)
        by (apply T; now exists a).
      assert (B : truthy (env_value (TELEGRAM_TOKEN cfg)) = true)
        by (apply T; now exists b).
      assert (C : truthy (env_value (TELEGRAM_CHAT_ID cfg)) = true)
        by (apply T; now exists c).
      now rewrite A, B, C.
  - destruct (_ && _); auto.
Qed.

End Notifier.

(** ** One iteration of the loop *)

Section Iteration.

Variable cfg : config.

Lemma only_logs (evs : list event) :
  forallb is_log evs = true -> requests evs = [] /\ sleeps evs = [] /\ sent evs = [].
Proof.
  induction evs as [|[] evs IH]; cbn; try discriminate; auto.
Qed.

Lemma requests_app (a b : list event) : requests (a ++ b) = (requests a ++ requests b)%list.
Proof.
  induction a as [|[] a IH]; cbn [requests app]; [reflexivity | | now rewrite IH | |];
    exact IH.
Qed.

Lemma sleeps_app (a b : list event) : sleeps (a ++ b) = (sleeps a ++ sleeps b)%list.
Proof.
  induction a as [|[] a IH]; cbn [sleeps app]; [reflexivity | | | | now rewrite IH];
    exact IH.
Qed.

Lemma check_response_only_logs (response : value) :
  forallb is_log (fst (check_response response)) = true.
Proof.
  destruct response as [| | | | |l|d]; try reflexivity.
  unfold check_response.
  destruct (lookup "homeworks" d) as [homeworks|]; [|reflexivity].
  destruct (lookup "current_date" d) as [current_date|].
  - destruct homeworks, (truthy current_date); try reflexivity;
      destruct (truthy _); reflexivity.
  - destruct homeworks; try reflexivity; destruct (truthy _); reflexivity.
Qed.

Lemma send_message_no_request (b : Bot) (m : string) :
  requests (fst (send_message cfg b m)) = [] /\ sleeps (fst (send_message cfg b m)) = [].
Proof.
  rewrite send_message_cases.
  destruct (b _ _) as [[]|f]; [now split|]. destruct (telegram f); now split.
Qed.

(** Lines 182-190 make the one request of the iteration and take no
    pause. *)
Lemma derive_requests (w : world) (st : locals) :
  requests (events_of (derive cfg w st))
  = [VDict [("from_date", from_date (api_clock w) (timestamp st))]]
  /\ sleeps (events_of (derive cfg w st)) = [].
Proof.
  rewrite derive_cases. cbv zeta.
  pose proof (get_api_answer_events cfg (api_clock w) (http w) (timestamp st)) as Ea.
  destruct (get_api_answer cfg (api_clock w) (http w) (timestamp st)) as [eva ra].
  cbn [fst snd] in *. subst eva.
  destruct ra as [response|e]; [|now split].
  destruct response as [| | | | |l|d]; try now split.
  destruct (only_logs _ (check_response_only_logs (VDict d))) as (Rc & Sc & _).
  destruct (check_response (VDict d)) as [evc rc]. cbn [fst snd] in *.
  destruct rc as [[|homework rest]|e]; cbn [events_of fst snd];
    try (rewrite requests_app, sleeps_app, Rc, Sc; now split).
  pose proof (parse_status_raises homework) as Rp.
  pose proof (parse_status_returns homework) as Vp.
  destruct (parse_status homework) as [evp [m|e]]; cbn [fst snd events_of].
  - destruct (Vp _ _ eq_refl) as [-> _].
    rewrite !requests_app, !sleeps_app, Rc, Sc. now split.
  - destruct (Rp _ _ eq_refl) as [-> _].
    rewrite !requests_app, !sleeps_app, Rc, Sc. now split.
Qed.

Lemma handlers_no_request (w : world) (e : exc) (st : locals) :
  is_NotForSend e = false ->
  requests (events_of (handlers cfg w e st)) = []
  /\ sleeps (events_of (handlers cfg w e st)) = [].
Proof.
  intros N. rewrite (handlers_cases cfg w e st N). cbv zeta.
  destruct (send_message_no_request (bot w) (failure_text e)) as [R S].
  destruct (String.eqb _ _); [now split|].
  destruct (snd (send_message cfg (bot w) (failure_text e)));
    cbn [events_of fst snd requests sleeps]; now split.
Qed.

(** The events of an iteration: those of lines 182-190, those of the
    sending or of the handlers, and the pause. *)
Lemma iteration_events (w : world) (st : locals) :
  exists mid,
    events_of (iteration cfg w st)
    = (events_of (derive cfg w st) ++ mid ++ [Sleep RETRY_PERIOD])%list
    /\ requests mid = [] /\ sleeps mid = [].
Proof.
  rewrite iteration_cases.
  destruct (derive cfg w st) as [[evd std] rd] eqn:D.
  destruct (derive_facts _ _ _ _ _ _ D) as (_ & _ & Fd).
  cbn [events_of fst snd].
  destruct rd as [m|e].
  - destruct (String.eqb m (prev_msg std)).
    + exists [Log root_logger INFO m]. now repeat split.
    + destruct (send_message_no_request (bot w) m) as [R S].
      pose proof (send_message_raises cfg (bot w) m) as Rf.
      destruct (send_message cfg (bot w) m) as [evs [[]|e]]; cbn [fst snd] in *.
      * exists evs. now repeat split.
      * destruct (Rf e eq_refl) as (f & -> & _).
        destruct (handlers_no_request w (Foreign f) std eq_refl) as [Rh Sh].
        destruct (handlers cfg w (Foreign f) std) as [[evh sth] rh].
        cbn [events_of fst snd] in *. exists (evs ++ evh)%list.
        rewrite requests_app, sleeps_app, R, S, Rh, Sh. now repeat split.
  - destruct (handlers_no_request w e std Fd) as [Rh Sh].
    destruct (handlers cfg w e std) as [[evh sth] rh].
    cbn [events_of fst snd] in *. exists evh. now repeat split.
Qed.

(** X11.  Whatever happens in it, an iteration makes exactly one request,
    with the cursor it started with (the clock when that cursor is false),
    and takes exactly one pause, of [RETRY_PERIOD] = 600 seconds, which is
    the last thing it does, also when an exception leaves it. *)
Theorem iteration_one_request_one_pause (w : world) (st : locals) :
  requests (events_of (iteration cfg w st))
  = [VDict [("from_date",
             if truthy (timestamp st) then timestamp st else VInt (api_clock w))]]
  /\ sleeps (events_of (iteration cfg w st)) = [600]
  /\ exists before, events_of (iteration cfg w st) = (before ++ [Sleep 600])%list.
Proof.
  destruct (iteration_events w st) as (mid & E & Rm & Sm).
  destruct (derive_requests w st) as [Rd Sd].
  rewrite E, !requests_app, !sleeps_app, Rd, Sd, Rm, Sm.
  split; [reflexivity|]. split; [reflexivity|].
  exists (events_of (derive cfg w st) ++ mid)%list. now rewrite <- app_assoc.
Qed.

End Iteration.

(** ** Runs of the loop *)

Section Runs.

Variable cfg : config.

(** The message an iteration ends with is never the empty text. *)
Lemma iteration_message_not_empty (w : world) (st : locals) (m : string) :
  message (locals_of (iteration cfg w st)) = Some m -> m <> "".
Proof.
  rewrite iteration_cases.
  destruct (derive cfg w st) as [[evd std] rd] eqn:D.
  destruct (derive_facts _ _ _ _ _ _ D) as (_ & _ & Fd).
  assert (Hh : forall e, is_NotForSend e = false ->
                         message (locals_of (handlers cfg w e std)) = Some m -> m <> "").
  { intros e N. destruct (handlers cfg w e std) as [[evh sth] rh] eqn:H.
    destruct (handlers_facts cfg w e std evh sth rh N H) as (Hm & _).
    cbn [locals_of fst snd]. rewrite Hm. intros [= <-]. discriminate. }
  assert (Hd : forall m0, message std = Some m0 ->
                          m0 = "Нет новых статусов"
                          \/ (exists rest, m0 = "Изменился статус проверки работы " ++ rest) ->
                          Some m0 = Some m -> m <> "").
  { intros m0 _ [->|[rest ->]] [= <-]; discriminate. }
  destruct rd as [m0|e].
  - destruct Fd as [Md Form].
    destruct (String.eqb m0 (prev_msg std)).
    + cbn [locals_of fst snd]. rewrite Md. now apply Hd.
    + pose proof (send_message_raises cfg (bot w) m0) as Rf.
      destruct (snd (send_message cfg (bot w) m0)) as [[]|e].
      * cbn [locals_of fst snd with_prev_msg message]. rewrite Md. now apply Hd.
      * destruct (Rf e eq_refl) as (f & -> & _).
        specialize (Hh (Foreign f) eq_refl).
        now destruct (handlers cfg w (Foreign f) std) as [[evh sth] rh].
  - specialize (Hh e Fd). now destruct (handlers cfg w e std) as [[evh sth] rh].
Qed.

(** X12.  The message an iteration ends with goes to the bot exactly once
    when it differs from the [prev_msg] the iteration started with, and not
    at all when it is that [prev_msg], whatever the bot answers. *)
Theorem message_sent_once_iff_new (w : world) (st : locals) (m : string) :
  message (locals_of (iteration cfg w st)) = Some m ->
  times_sent m (events_of (iteration cfg w st))
  = if String.eqb m (prev_msg st) then 0%nat else 1%nat.
Proof.
  destruct (iteration cfg w st) as [[evs st'] r] eqn:I. cbn [locals_of events_of fst snd].
  intros Hm. destruct (iteration_facts _ _ _ _ _ _ I) as (m' & Hm' & Same & New).
  assert (m' = m) by congruence. subst m'.
  destruct (String.eqb_spec m (prev_msg st)) as [E|NE].
  - now destruct (Same (eq_sym E)).
  - now destruct (New (fun E => NE (eq_sym E))).
Qed.

(** X13.  The first iteration after start-up, which begins with an empty
    [prev_msg], always hands its message to the bot, once: no message of
    the loop is the empty text. *)
Theorem first_iteration_notifies (w : world) (start_clock : Z) :
  exists m,
    message (locals_of (iteration cfg w (initial start_clock))) = Some m
    /\ m <> ""
    /\ times_sent m (events_of (iteration cfg w (initial start_clock))) = 1%nat.
Proof.
  destruct (iteration cfg w (initial start_clock)) as [[evs st'] r] eqn:I.
  destruct (iteration_facts _ _ _ _ _ _ I) as (m & Hm & _ & New).
  pose proof (iteration_message_not_empty w (initial start_clock) m) as NE.
  rewrite I in NE. specialize (NE Hm).
  exists m. cbn [locals_of events_of fst snd]. split; [exact Hm|]. split; [exact NE|].
  apply New. cbn. congruence.
Qed.

(** X14.  An exception leaves an iteration in one case only: the bot
    raised it, it is no [TelegramError], and the text being sent was the
    message the iteration ends with, which is not [prev_msg]; [prev_msg] is
    then what it was.  Nothing that the API call, the validation or
    [parse_status] raises leaves an iteration. *)
Theorem iteration_raises_only_from_bot (w : world) (st : locals) (e : exc) :
  result_of (iteration cfg w st) = Raise e ->
  exists f m,
    e = Foreign f /\ telegram f = false
    /\ bot w (TELEGRAM_CHAT_ID cfg) m = Raises f
    /\ message (locals_of (iteration cfg w st)) = Some m
    /\ m <> prev_msg st
    /\ prev_msg (locals_of (iteration cfg w st)) = prev_msg st.
Proof.
  destruct (iteration cfg w st) as [[evs st'] r] eqn:I.
  cbn [result_of locals_of fst snd]. intros ->.
  destruct (iteration_facts _ _ _ _ _ _ I) as (m & Hm & Same & New).
  destruct (string_dec (prev_msg st) m) as [E|NE].
  - destruct (Same E) as (_ & _ & _ & C). discriminate C.
  - destruct (New NE) as (_ & Ok & Bad).
    destruct (swallowed (bot w (TELEGRAM_CHAT_ID cfg) m)) eqn:Sw.
    + destruct (Ok eq_refl) as [C _]. discriminate C.
    + destruct (Bad eq_refl) as [(f & Bf & [= ->]) P].
      exists f, m. unfold swallowed in Sw. rewrite Bf in Sw.
      repeat split; try assumption. congruence.
Qed.

(** With a bot that keeps its contract an iteration returns. *)
Lemma iteration_returns (w : world) (st : locals) :
  keeps_contract (bot w) -> result_of (iteration cfg w st) = Return tt.
Proof.
  intros K. destruct (iteration cfg w st) as [[evs st'] r] eqn:I.
  cbn [result_of snd].
  destruct (iteration_facts _ _ _ _ _ _ I) as (m & Hm & Same & New).
  destruct (string_dec (prev_msg st) m) as [E|NE].
  - now destruct (Same E) as (_ & _ & _ & C).
  - destruct (New NE) as (_ & Ok & _). now destruct (Ok (K _ _)).
Qed.

(** X15.  The loop has no end of its own: as long as the bot only
    delivers or raises [TelegramError], every iteration returns, so a run
    over [n] worlds has [n] iterations and is still polling, whatever the
    API answers; so is [main] when the tokens are there, the constructor
    of line 173 returns the client and the client keeps to the same. *)
Theorem loop_keeps_polling (ws : list world) (st : locals) :
  Forall (fun w => keeps_contract (bot w)) ws ->
  List.length (iterations cfg ws st) = List.length ws
  /\ Forall (fun run => result_of run = Return tt) (iterations cfg ws st)
  /\ result_of (loop cfg ws st) = Return tt
  /\ (forall telegram_Bot start_clock start_bot,
        snd (check_tokens cfg) = Return true ->
        telegram_Bot (TELEGRAM_TOKEN cfg) = Returns start_bot ->
        keeps_contract start_bot ->
        exists st', snd (main cfg telegram_Bot start_clock ws) = Polling st').
Proof.
  intros K.
  assert (L : forall st0, List.length (iterations cfg ws st0) = List.length ws
                          /\ Forall (fun run => result_of run = Return tt)
                                    (iterations cfg ws st0)
                          /\ result_of (loop cfg ws st0) = Return tt).
  { induction K as [|w ws Kw Kws IH]; intros st0; [now repeat split|].
    cbn [iterations loop]. unfold MM.bind.
    pose proof (iteration_returns w st0 Kw) as R.
    destruct (iteration cfg w st0) as [[evs st'] r]. cbn [result_of snd] in R. subst r.
    destruct (IH st') as (Len & All & Res).
    destruct (loop cfg ws st') as [[evl stl] rl]. cbn [result_of snd] in *.
    cbn [List.length]. rewrite Len. repeat split; [|exact Res].
    constructor; [reflexivity | exact All]. }
  destruct (L st) as (Len & All & Res). repeat split; try assumption.
  intros telegram_Bot start_clock start_bot T B Kb. unfold main.
  destruct (check_tokens cfg) as [ev0 ok]. cbn [snd] in T. subst ok. rewrite B.
  pose proof (swallowed_result cfg start_bot "Бот начал работу") as S.
  rewrite (Kb _ _) in S.
  destruct (send_message cfg start_bot "Бот начал работу") as [ev1 r1].
  cbn [snd] in S. subst r1.
  cbv zeta.
  destruct (L {| timestamp := VInt start_clock; prev_msg := ""; message := None |})
    as (_ & _ & Res0).
  destruct (loop cfg ws {| timestamp := VInt start_clock; prev_msg := ""; message := None |})
    as [[ev2 st2] r2].
  cbn [result_of snd] in Res0. subst r2. now exists st2.
Qed.

(** X16.  [prev_msg] only ever holds a text that went to the bot: after
    any run of the loop it is what it was at the start, or a text the run
    handed to the bot. *)
Theorem prev_msg_was_sent (ws : list world) (st : locals) :
  prev_msg (locals_of (loop cfg ws st)) = prev_msg st
  \/ In (prev_msg (locals_of (loop cfg ws st))) (sent (events_of (loop cfg ws st))).
Proof.
  assert (Step : forall w st0,
             prev_msg (locals_of (iteration cfg w st0)) = prev_msg st0
             \/ In (prev_msg (locals_of (iteration cfg w st0)))
                   (sent (events_of (iteration cfg w st0)))).
  { intros w st0. destruct (iteration cfg w st0) as [[evs st'] r] eqn:I.
    cbn [locals_of events_of fst snd].
    destruct (iteration_facts _ _ _ _ _ _ I) as (m & Hm & Same & New).
    destruct (string_dec (prev_msg st0) m) as [E|NE].
    - left. destruct (Same E) as (_ & _ & P & _). congruence.
    - destruct (New NE) as (T & Ok & Bad).
      destruct (swallowed (bot w (TELEGRAM_CHAT_ID cfg) m)).
      + right. destruct (Ok eq_refl) as [_ ->].
        unfold times_sent in T.
        apply (count_occ_In string_dec). lia.
      + left. now destruct (Bad eq_refl). }
  revert st. induction ws as [|w ws IH]; intros st; [now left|].
  cbn [loop]. unfold MM.bind.
  specialize (Step w st).
  destruct (iteration cfg w st) as [[evs st'] [[]|e]]; cbn [locals_of events_of fst snd] in *.
  - specialize (IH st').
    destruct (loop cfg ws st') as [[evl stl] rl]. cbn [locals_of events_of fst snd] in *.
    rewrite sent_app. destruct IH as [IH|IH].
    + rewrite IH. destruct Step as [Step|Step]; [now left|].
      right. apply in_or_app. now left.
    + right. apply in_or_app. now right.
  - exact Step.
Qed.

(** X17.  In a run whose iterations all end with the same message, that
    message goes to the bot at most once in the whole run. *)
Theorem one_message_one_notification (ws : list world) (st : locals) (m : string) :
  Forall (fun run => message (locals_of run) = Some m) (iterations cfg ws st) ->
  (times_sent m (concat (map events_of (iterations cfg ws st))) <= 1)%nat.
Proof.
  destruct ws as [|w ws]; intros H; [cbn; lia|].
  cbn [iterations] in *.
  destruct (iteration cfg w st) as [[evs st'] r] eqn:I.
  inversion H as [|run rest Hm Hrest]; subst.
  cbn [locals_of events_of fst snd map concat] in *.
  rewrite times_sent_app.
  destruct r as [[]|e].
  - destruct (iteration_returns_recorded _ _ _ _ _ _ _ I Hm) as [P T].
    pose proof (iterations_repeat_silently cfg ws st' m P Hrest) as Z.
    assert (Zero : times_sent m (concat (map events_of (iterations cfg ws st'))) = 0%nat).
    { clear - Z. induction Z as [|run rest [T _] _ IH]; [reflexivity|].
      cbn [map concat]. rewrite times_sent_app. lia. }
    lia.
  - cbn [map concat]. destruct (iteration_facts _ _ _ _ _ _ I) as (m' & Hm' & Same & New).
    assert (m' = m) by congruence. subst m'.
    destruct (string_dec (prev_msg st) m) as [E|NE].
    + destruct (Same E) as (T & _). unfold times_sent at 2. cbn. lia.
    + destruct (New NE) as (T & _). unfold times_sent at 2. cbn. lia.
Qed.

(** X18.  The clause [except NotForSend] on line 197 is never taken:
    whatever lines 182-195 raise, the API call's, the validation's,
    [parse_status]'s or the bot's exception, is no [NotForSend], and the
    iteration is these lines under the two handlers and the pause. *)
Theorem not_for_send_never_raised (w : world) (st : locals) (e : exc) :
  result_of (try_block cfg w st) = Raise e ->
  is_NotForSend e = false
  /\ iteration cfg w
     = MM.try_finally (MM.try_except Exception (try_block cfg w) (handlers cfg w))
         (MM.call (FM.emit (Sleep RETRY_PERIOD))).
Proof.
  intros H. split; [|reflexivity].
  unfold try_block, MM.bind in H.
  destruct (derive cfg w st) as [[evd std] [m|e0]] eqn:D.
  - rewrite send_if_new_cases in H.
    destruct (String.eqb m (prev_msg std)); [discriminate H|].
    pose proof (send_message_raises cfg (bot w) m) as Rf.
    destruct (snd (send_message cfg (bot w) m)) as [[]|e1]; [discriminate H|].
    destruct (Rf e1 eq_refl) as (f & -> & _).
    cbn [result_of snd] in H. now injection H as <-.
  - destruct (derive_facts _ _ _ _ _ _ D) as (_ & _ & N).
    cbn [result_of snd] in H. now injection H as <-.
Qed.

End Runs.

(** ** From the API's answer to the notification *)

Section EndToEnd.

Variable cfg : config.

(** An iteration reads its world through lines 182-190 and through the
    bot only. *)
Lemma iteration_depends (w1 w2 : world) (st : locals) :
  derive cfg w1 st = derive cfg w2 st ->
  bot w1 = bot w2 ->
  iteration cfg w1 st = iteration cfg w2 st.
Proof.
  intros D B. rewrite !iteration_cases, D.
  destruct w1 as [a1 h1 c1 b1], w2 as [a2 h2 c2 b2]. cbn [bot] in B. subst b2.
  reflexivity.
Qed.

(** The log of a validation that succeeds depends on whether the list is
    empty and on whether [current_date] is false, and on nothing else. *)
Lemma check_response_accepts (d : list (string * value)) (l : list value) (cd : value) :
  lookup "homeworks" d = Some (VList l) ->
  lookup "current_date" d = Some cd ->
  check_response (VDict d)
  = ((Log module_logger DEBUG ("Тип данных ответа сервера правильный: " ++ "<class 'dict'>")
      :: (if truthy (VList l)
          then Log module_logger DEBUG "Ответ сервера содержит сведения о домашних работах"
          else Log module_logger INFO "Ответ сервера не содержит сведения о домашних работах")
      :: (if truthy cd
          then [Log module_logger DEBUG
                  ("Ответ сервера содержит текущую дату (ключ "
                   ++ Str.dq ++ "current_date" ++ Str.dq ++ ")")]
          else [])
      ++ [Log module_logger DEBUG
            ("Проверен тип данных ответа сервера с ключом "
             ++ Str.dq ++ "homeworks" ++ Str.dq ++ ": " ++ "<class 'list'>")])%list,
     Return l).
Proof.
  intros Hh Hc. unfold check_response. rewrite Hh, Hc.
  destruct (truthy (VList l)), (truthy cd); reflexivity.
Qed.

(** Lines 182-190 when the API answers 200 with a mapping that passes
    validation. *)
Lemma derive_on_answer (w : world) (st : locals) (d : list (string * value))
    (l : list value) (cd : value) :
  lookup "homeworks" d = Some (VList l) ->
  lookup "current_date" d = Some cd ->
  derive cfg (with_answer w (VDict d)) st
  = let params := VDict [("from_date", from_date (api_clock w) (timestamp st))] in
    let pre := ([Log root_logger INFO
                   ("Начало запроса к API. Запрос: " ++ request_text cfg params);
                 HttpGet ENDPOINT (HEADERS cfg) params]
                ++ fst (check_response (VDict d)))%list in
    match l with
    | [] => (pre, with_message (with_cursor st cd) "Нет новых статусов",
             Return "Нет новых статусов")
    | homework :: _ =>
        match snd (parse_status homework) with
        | Return m => (pre, with_message (with_cursor st cd) m, Return m)
        | Raise e => (pre, with_cursor st cd, Raise e)
        end
    end.
Proof.
  intros Hh Hc. rewrite derive_cases. cbv zeta.
  cbn [with_answer api_clock http clock].
  pose proof (get_api_answer_events cfg (api_clock w)
                (Returns {| status_code := 200; reason := "OK"; text := "";
                            json := Returns (VDict d) |}) (timestamp st)) as Ea.
  assert (Ra : snd (get_api_answer cfg (api_clock w)
                      (Returns {| status_code := 200; reason := "OK"; text := "";
                                  json := Returns (VDict d) |}) (timestamp st))
               = Return (VDict d))
    by now rewrite get_api_answer_result.
  rewrite Ea, Ra. unfold get_item. rewrite Hc.
  rewrite (check_response_accepts d l cd Hh Hc). cbn [fst snd].
  destruct l as [|homework rest]; [reflexivity|].
  pose proof (parse_status_raises homework) as Rp.
  pose proof (parse_status_returns homework) as Vp.
  destruct (parse_status homework) as [evp [m|e]]; cbn [fst snd].
  - destruct (Vp _ _ eq_refl) as [-> _]. now rewrite !app_nil_r.
  - destruct (Rp _ _ eq_refl) as [-> _]. now rewrite !app_nil_r.
Qed.

(** X19.  Only the first homework of the list counts: two answers with
    the same first homework and the same [current_date] make the
    iteration do exactly the same, whatever else their lists and mappings
    hold. *)
Theorem only_first_homework_counts (w : world) (st : locals)
    (d1 d2 : list (string * value)) (homework : value) (rest1 rest2 : list value)
    (cd : value) :
  lookup "homeworks" d1 = Some (VList (homework :: rest1)) ->
  lookup "homeworks" d2 = Some (VList (homework :: rest2)) ->
  lookup "current_date" d1 = Some cd ->
  lookup "current_date" d2 = Some cd ->
  iteration cfg (with_answer w (VDict d1)) st = iteration cfg (with_answer w (VDict d2)) st.
Proof.
  intros H1 H2 C1 C2. apply iteration_depends; [|reflexivity].
  rewrite (derive_on_answer w st d1 _ cd H1 C1), (derive_on_answer w st d2 _ cd H2 C2).
  cbv zeta.
  now rewrite (check_response_accepts d1 _ cd H1 C1), (check_response_accepts d2 _ cd H2 C2).
Qed.

(** The iteration when lines 182-190 returned [m]. *)
Lemma iteration_on_message (w : world) (st : locals) (evd : list event) (std : locals)
    (m : string) :
  derive cfg w st = (evd, std, Return m) ->
  (m = prev_msg st ->
   iteration cfg w st
   = ((evd ++ [Log root_logger INFO m] ++ [Sleep RETRY_PERIOD])%list, std, Return tt))
  /\ (m <> prev_msg st ->
      exists rest, sent (events_of (iteration cfg w st)) = m :: rest).
Proof.
  intros D. destruct (derive_facts _ _ _ _ _ _ D) as (Sd & Pd & _).
  rewrite iteration_cases, D, Pd. split.
  - intros E. destruct (String.eqb_spec m (prev_msg st)); [reflexivity | contradiction].
  - intros NE. destruct (String.eqb_spec m (prev_msg st)) as [E|_]; [contradiction|].
    pose proof (send_message_sent cfg (bot w) m) as S.
    destruct (send_message cfg (bot w) m) as [evs [[]|e]]; cbn [fst snd] in *.
    + exists []. cbn [events_of fst snd]. now rewrite !sent_app, Sd, S.
    + destruct (handlers cfg w e std) as [[evh sth] rh].
      exists (sent evh). cbn [events_of fst snd].
      rewrite !sent_app, Sd, S. cbn [sent app]. now rewrite app_nil_r.
Qed.

(** X20.  When the API answers with an empty list of homeworks, the
    cursor becomes the answer's [current_date]; the message is the
    sentinel ['Нет новых статусов'], which is only written to the log, at
    INFO level, when it is already [prev_msg], and is otherwise the first
    thing handed to the bot. *)
Theorem nothing_new_iteration (w : world) (st : locals) (d : list (string * value))
    (cd : value) :
  lookup "homeworks" d = Some (VList []) ->
  lookup "current_date" d = Some cd ->
  timestamp (locals_of (iteration cfg (with_answer w (VDict d)) st)) = cd
  /\ (prev_msg st = "Нет новых статусов" ->
      sent (events_of (iteration cfg (with_answer w (VDict d)) st)) = []
      /\ In (Log root_logger INFO "Нет новых статусов")
            (events_of (iteration cfg (with_answer w (VDict d)) st))
      /\ result_of (iteration cfg (with_answer w (VDict d)) st) = Return tt
      /\ prev_msg (locals_of (iteration cfg (with_answer w (VDict d)) st))
         = "Нет новых статусов")
  /\ (prev_msg st <> "Нет новых статусов" ->
      exists rest,
        sent (events_of (iteration cfg (with_answer w (VDict d)) st))
        = "Нет новых статусов" :: rest).
Proof.
  intros Hh Hc.
  pose proof (derive_on_answer w st d [] cd Hh Hc) as D. cbv beta iota zeta in D.
  match type of D with _ = (?e, _, _) => set (evd := e) in * end.
  destruct (derive_facts _ _ _ _ _ _ D) as (Sd & _).
  destruct (iteration_on_message _ _ _ _ _ D) as [Same New].
  split; [|split].
  - rewrite iteration_cursor, D. reflexivity.
  - intros P. rewrite (Same (eq_sym P)). cbn [events_of locals_of result_of fst snd].
    rewrite !sent_app, Sd. repeat split.
    + apply in_or_app. right. now left.
    + exact P.
  - intros NP. apply New. congruence.
Qed.

(** X21.  When the first homework of a valid answer has a status that is
    no verdict, the iteration ends with the failure text of the [KeyError]
    of line 134, its reason between single quotes, written to the log at
    ERROR level; and the cursor has moved to the answer's [current_date]
    all the same, so the next request asks for what came after. *)
Theorem unknown_status_iteration (w : world) (st : locals) (d h : list (string * value))
    (rest : list value) (status : string) (cd : value) :
  lookup "homeworks" d = Some (VList (VDict h :: rest)) ->
  lookup "current_date" d = Some cd ->
  lookup "status" h = Some (VStr status) ->
  ~ In status ["approved"; "reviewing"; "rejected"] ->
  message (locals_of (iteration cfg (with_answer w (VDict d)) st))
  = Some "Сбой в работе программы: 'Такого статуса не существует'"
  /\ In (Log root_logger ERROR "Сбой в работе программы: 'Такого статуса не существует'")
        (events_of (iteration cfg (with_answer w (VDict d)) st))
  /\ timestamp (locals_of (iteration cfg (with_answer w (VDict d)) st)) = cd.
Proof.
  intros Hh Hc Hs Hn.
  pose proof (derive_on_answer w st d _ cd Hh Hc) as D. cbv beta iota zeta in D.
  assert (P : snd (parse_status (VDict h))
              = Raise (Exc KeyError (VStr "Такого статуса не существует"))).
  { destruct (parse_status_rejects h) as (reason & Hp & _ & Hu).
    - unfold get_item. now rewrite Hs.
    - left. unfold get_item. rewrite Hs.
      destruct (find_item HOMEWORK_VERDICTS (VStr status)) as [verdict|] eqn:Hv;
        [|reflexivity].
      elim Hn. unfold HOMEWORK_VERDICTS in Hv. cbn [find_item lookup] in Hv.
      destruct (String.eqb_spec "approved" status) as [<-|_]; [now left|].
      destruct (String.eqb_spec "reviewing" status) as [<-|_]; [now right; left|].
      destruct (String.eqb_spec "rejected" status) as [<-|_]; [now right; right; left|].
      discriminate Hv.
    - rewrite Hp. cbn [snd]. rewrite Hu; [reflexivity|].
      unfold get_item. rewrite Hs.
      destruct (find_item HOMEWORK_VERDICTS (VStr status)) as [verdict|] eqn:Hv;
        [|reflexivity].
      elim Hn. unfold HOMEWORK_VERDICTS in Hv. cbn [find_item lookup] in Hv.
      destruct (String.eqb_spec "approved" status) as [<-|_]; [now left|].
      destruct (String.eqb_spec "reviewing" status) as [<-|_]; [now right; left|].
      destruct (String.eqb_spec "rejected" status) as [<-|_]; [now right; right; left|].
      discriminate Hv. }
  rewrite P in D.
  split; [|split].
  - rewrite iteration_cases, D.
    destruct (handlers cfg (with_answer w (VDict d))
                (Exc KeyError (VStr "Такого статуса не существует"))
                (with_cursor st cd)) as [[evh sth] rh] eqn:H.
    destruct (handlers_facts cfg _ (Exc KeyError (VStr "Такого статуса не существует"))
                _ _ _ _ eq_refl H) as (Hm & _).
    cbn [locals_of fst snd]. rewrite Hm. reflexivity.
  - rewrite iteration_cases, D.
    rewrite (handlers_cases cfg _ (Exc KeyError (VStr "Такого статуса не существует"))
               _ eq_refl). cbv zeta.
    match goal with
    | |- context [if ?c then _ else _] => destruct c
    end.
    + cbn [events_of fst snd]. apply in_or_app. right. now left.
    + destruct (snd (send_message _ _ _)); cbn [events_of fst snd];
        apply in_or_app; right; now left.
  - rewrite iteration_cursor, D. reflexivity.
Qed.

End EndToEnd.

(** ** An API that stays down, and a bot that breaks at start-up *)

Section Outage.

Variable cfg : config.

(** With a cursor that is not false, the clock has no part in what
    [get_api_answer] returns or raises. *)
Lemma get_api_answer_clock (now1 now2 : Z) (get : answer http_response) (cursor : value) :
  truthy cursor = true ->
  snd (get_api_answer cfg now1 get cursor) = snd (get_api_answer cfg now2 get cursor).
Proof.
  intros T. rewrite !get_api_answer_result. unfold failed_text, from_date.
  now rewrite T.
Qed.

(** The iteration when lines 182-190 raised [e]. *)
Lemma iteration_on_failure (w : world) (st : locals) (evd : list event) (std : locals)
    (e : exc) :
  derive cfg w st = (evd, std, Raise e) ->
  message (locals_of (iteration cfg w st)) = Some (failure_text e)
  /\ In (Log root_logger ERROR (failure_text e)) (events_of (iteration cfg w st))
  /\ (failure_text e = prev_msg st ->
      sent (events_of (iteration cfg w st)) = []
      /\ result_of (iteration cfg w st) = Return tt
      /\ prev_msg (locals_of (iteration cfg w st)) = prev_msg st).
Proof.
  intros D. destruct (derive_facts _ _ _ _ _ _ D) as (Sd & Pd & N).
  rewrite iteration_cases, D. rewrite (handlers_cases cfg w e std N). cbv zeta.
  rewrite Pd.
  destruct (String.eqb_spec (failure_text e) (prev_msg st)) as [E|NE].
  - cbn [locals_of events_of result_of fst snd].
    split; [reflexivity|]. split; [apply in_or_app; right; now left|].
    intros _. rewrite !sent_app, Sd. now repeat split.
  - destruct (snd (send_message cfg (bot w) (failure_text e)));
      cbn [locals_of events_of result_of fst snd];
      (split; [reflexivity|]); (split; [apply in_or_app; right; now left|]);
      intros E; contradiction.
Qed.

(** X22.  An API that fails twice in a row in the same way is reported
    once.  When the cursor is not false and the API call of an iteration
    raises, the iteration leaves the cursor where it was; if it returns and
    the next iteration meets the same answer of [requests.get], that one
    ends with the same failure text, writes it to the log at ERROR level,
    hands nothing to the bot and returns, whatever the two clocks show. *)
Theorem repeated_outage_notified_once (w1 w2 : world) (st : locals) (e : exc) :
  truthy (timestamp st) = true ->
  http w2 = http w1 ->
  snd (get_api_answer cfg (api_clock w1) (http w1) (timestamp st)) = Raise e ->
  result_of (iteration cfg w1 st) = Return tt ->
  timestamp (locals_of (iteration cfg w1 st)) = timestamp st
  /\ message (locals_of (iteration cfg w1 st)) = Some (failure_text e)
  /\ message (locals_of (iteration cfg w2 (locals_of (iteration cfg w1 st))))
     = Some (failure_text e)
  /\ In (Log root_logger ERROR (failure_text e))
        (events_of (iteration cfg w2 (locals_of (iteration cfg w1 st))))
  /\ sent (events_of (iteration cfg w2 (locals_of (iteration cfg w1 st)))) = []
  /\ result_of (iteration cfg w2 (locals_of (iteration cfg w1 st))) = Return tt.
Proof.
  intros T H A R.
  assert (D1 : derive cfg w1 st
               = (fst (get_api_answer cfg (api_clock w1) (http w1) (timestamp st)), st,
                  Raise e)).
  { rewrite derive_cases. cbv zeta. now rewrite A. }
  assert (C1 : timestamp (locals_of (iteration cfg w1 st)) = timestamp st).
  { rewrite iteration_cursor, D1. reflexivity. }
  destruct (iteration_on_failure _ _ _ _ _ D1) as (M1 & _ & _).
  destruct (iteration cfg w1 st) as [[ev1 st1] r1] eqn:I1.
  cbn [locals_of result_of fst snd] in *. subst r1.
  destruct (iteration_returns_recorded _ _ _ _ _ _ _ I1 M1) as [P1 _].
  assert (D2 : derive cfg w2 st1
               = (fst (get_api_answer cfg (api_clock w2) (http w2) (timestamp st1)), st1,
                  Raise e)).
  { rewrite derive_cases. cbv zeta. rewrite H, C1.
    rewrite (get_api_answer_clock (api_clock w2) (api_clock w1) _ _ T), A. reflexivity. }
  destruct (iteration_on_failure _ _ _ _ _ D2) as (M2 & L2 & Same).
  destruct (Same (eq_sym P1)) as (S2 & R2 & _).
  now repeat split.
Qed.

(** X23.  When the tokens are there, the constructor of line 173 returns
    the client and the client raises something that is no [TelegramError]
    on the start message, [main] ends with that exception, uncaught: the
    start message was handed to the bot, and no request was made. *)
Theorem start_failure_ends_main (telegram_Bot : BotClass) (start_clock : Z)
    (start_bot : Bot) (ws : list world) (f : foreign) :
  snd (check_tokens cfg) = Return true ->
  telegram_Bot (TELEGRAM_TOKEN cfg) = Returns start_bot ->
  start_bot (TELEGRAM_CHAT_ID cfg) "Бот начал работу" = Raises f ->
  telegram f = false ->
  main cfg telegram_Bot start_clock ws
  = ([Log root_logger INFO "Проверка наличия всех токенов";
      BotSend (TELEGRAM_CHAT_ID cfg) "Бот начал работу"],
     Uncaught (Foreign f)).
Proof.
  intros T C B N. unfold main. rewrite C.
  rewrite (send_message_lets_through cfg start_bot _ f B N).
  unfold check_tokens in *. cbn [FM.bind log FM.emit FM.ret fst snd app] in *.
  destruct (forallb truthy _); [reflexivity | discriminate T].
Qed.

End Outage.

(** ** From one request to the next *)

Section Cursor.

Variable cfg : config.

(** X24.  The next request starts where the last answer ended: after an
    iteration in which the API returned a mapping with a [current_date],
    valid otherwise or not, the request of the following iteration carries
    that [current_date] as [from_date], or its own clock when that
    [current_date] is false. *)
Theorem next_request_from_current_date (w w' : world) (st : locals)
    (d : list (string * value)) (cd : value) :
  lookup "current_date" d = Some cd ->
  requests (events_of (iteration cfg w' (locals_of (iteration cfg (with_answer w (VDict d)) st))))
  = [VDict [("from_date", if truthy cd then cd else VInt (api_clock w'))]].
Proof.
  intros Hc.
  assert (C : timestamp (locals_of (iteration cfg (with_answer w (VDict d)) st)) = cd).
  { rewrite iteration_cursor, derive_cursor. cbn [with_answer api_clock http clock].
    rewrite get_api_answer_result. cbn. unfold get_item. now rewrite Hc. }
  destruct (iteration_events cfg w' (locals_of (iteration cfg (with_answer w (VDict d)) st)))
    as (mid & E & Rm & _).
  destruct (derive_requests cfg w' (locals_of (iteration cfg (with_answer w (VDict d)) st)))
    as [Rd _].
  rewrite E, !requests_app, Rd, Rm, C. reflexivity.
Qed.

End Cursor.

(** The answer has no [homeworks]: validation fails, and the next request
    asks from its [current_date] on. *)
Lemma next_request_from_current_date_witness :
  requests (events_of (iteration Sample.cfg (Sample.offline Sample.delivering)
                         (locals_of (iteration Sample.cfg
                                       (with_answer (Sample.offline Sample.delivering)
                                          Sample.no_homeworks)
                                       Sample.start))))
  = [VDict [("from_date", VInt 100)]].
Proof.
  apply (next_request_from_current_date Sample.cfg (Sample.offline Sample.delivering)
           (Sample.offline Sample.delivering) Sample.start
           [("current_date", VInt 100)] (VInt 100)).
  reflexivity.
Defined.

(** ** The theorems above at sample data *)

Lemma message_sent_once_iff_new_witness :
  times_sent Sample.hw1_reviewing
    (events_of (iteration Sample.cfg
                  (Sample.answering Sample.failing Sample.reviewing) Sample.start))
  = 1%nat.
Proof.
  apply (message_sent_once_iff_new Sample.cfg
           (Sample.answering Sample.failing Sample.reviewing) Sample.start
           Sample.hw1_reviewing).
  vm_compute. reflexivity.
Defined.

(** The network is down and the bot breaks while the failure is sent. *)
Lemma iteration_raises_only_from_bot_witness :
  exists f m,
    Foreign Sample.broken_pipe = Foreign f /\ telegram f = false
    /\ bot (Sample.offline Sample.crashing) (TELEGRAM_CHAT_ID Sample.cfg) m = Raises f
    /\ message (locals_of (iteration Sample.cfg (Sample.offline Sample.crashing) Sample.start))
       = Some m
    /\ m <> prev_msg Sample.start
    /\ prev_msg (locals_of (iteration Sample.cfg (Sample.offline Sample.crashing) Sample.start))
       = prev_msg Sample.start.
Proof.
  apply (iteration_raises_only_from_bot Sample.cfg (Sample.offline Sample.crashing)
           Sample.start (Foreign Sample.broken_pipe)).
  vm_compute. reflexivity.
Defined.

(** The API is down, then answers, and the bot never delivers: the loop
    goes on. *)
Lemma loop_keeps_polling_witness :
  let ws := [Sample.offline Sample.failing;
             Sample.answering Sample.failing Sample.reviewing;
             Sample.answering Sample.delivering Sample.lost] in
  List.length (iterations Sample.cfg ws Sample.start) = 3%nat
  /\ Forall (fun run => result_of run = Return tt) (iterations Sample.cfg ws Sample.start)
  /\ result_of (loop Sample.cfg ws Sample.start) = Return tt
  /\ exists st',
       snd (main Sample.cfg (Sample.building Sample.failing) 1699999000 ws) = Polling st'.
Proof.
  cbv zeta.
  destruct (loop_keeps_polling Sample.cfg
              [Sample.offline Sample.failing;
               Sample.answering Sample.failing Sample.reviewing;
               Sample.answering Sample.delivering Sample.lost] Sample.start)
    as (L & A & R & M).
  - repeat constructor; intros chat_id message; reflexivity.
  - split; [exact L|]. split; [exact A|]. split; [exact R|].
    apply (M (Sample.building Sample.failing) 1699999000 Sample.failing).
    + reflexivity.
    + reflexivity.
    + intros chat_id message. reflexivity.
Defined.

Lemma one_message_one_notification_witness :
  let w := Sample.answering Sample.delivering Sample.reviewing in
  (times_sent Sample.hw1_reviewing
     (concat (map events_of (iterations Sample.cfg [w; w; w] Sample.start))) <= 1)%nat.
Proof.
  cbv zeta.
  apply (one_message_one_notification Sample.cfg
           [Sample.answering Sample.delivering Sample.reviewing;
            Sample.answering Sample.delivering Sample.reviewing;
            Sample.answering Sample.delivering Sample.reviewing]
           Sample.start Sample.hw1_reviewing).
  vm_compute. repeat constructor.
Defined.

Lemma not_for_send_never_raised_witness :
  is_NotForSend (Exc2 WrongResponseCode
                   (failed_text Sample.cfg 1700000000 (VInt 1699999000))
                   (Foreign Sample.connection_error)) = false
  /\ iteration Sample.cfg (Sample.offline Sample.delivering)
     = MM.try_finally
         (MM.try_except Exception (try_block Sample.cfg (Sample.offline Sample.delivering))
            (handlers Sample.cfg (Sample.offline Sample.delivering)))
         (MM.call (FM.emit (Sleep RETRY_PERIOD))).
Proof.
  apply (not_for_send_never_raised Sample.cfg (Sample.offline Sample.delivering)
           Sample.start).
  vm_compute. reflexivity.
Defined.

(** A second homework in the list, and another key in the mapping, change
    nothing. *)
Lemma only_first_homework_counts_witness :
  let hw1 := VDict [("homework_name", VStr "hw1"); ("status", VStr "reviewing")] in
  let hw0 := VDict [("homework_name", VStr "hw0"); ("status", VStr "approved")] in
  iteration Sample.cfg
    (with_answer (Sample.offline Sample.delivering)
       (VDict [("homeworks", VList [hw1]); ("current_date", VInt 100)]))
    Sample.start
  = iteration Sample.cfg
      (with_answer (Sample.offline Sample.delivering)
         (VDict [("current_date", VInt 100); ("homeworks", VList [hw1; hw0]);
                 ("page", VInt 1)]))
      Sample.start.
Proof.
  cbv zeta.
  apply (only_first_homework_counts Sample.cfg (Sample.offline Sample.delivering)
           Sample.start _ _
           (VDict [("homework_name", VStr "hw1"); ("status", VStr "reviewing")])
           [] [VDict [("homework_name", VStr "hw0"); ("status", VStr "approved")]]
           (VInt 100));
    reflexivity.
Defined.

Lemma nothing_new_iteration_witness :
  let st := {| timestamp := VInt 50; prev_msg := "Нет новых статусов";
               message := Some "Нет новых статусов" |} in
  let run := iteration Sample.cfg
               (with_answer (Sample.offline Sample.delivering) (Sample.nothing_new (VInt 100)))
               st in
  timestamp (locals_of run) = VInt 100
  /\ sent (events_of run) = []
  /\ In (Log root_logger INFO "Нет новых статусов") (events_of run)
  /\ result_of run = Return tt
  /\ prev_msg (locals_of run) = "Нет новых статусов".
Proof.
  cbv zeta.
  destruct (nothing_new_iteration Sample.cfg (Sample.offline Sample.delivering)
              {| timestamp := VInt 50; prev_msg := "Нет новых статусов";
                 message := Some "Нет новых статусов" |}
              [("homeworks", VList []); ("current_date", VInt 100)] (VInt 100))
    as (T & Same & _).
  - reflexivity.
  - reflexivity.
  - split; [exact T|]. apply Same. reflexivity.
Defined.

Lemma unknown_status_iteration_witness :
  let run := iteration Sample.cfg
               (with_answer (Sample.offline Sample.delivering) Sample.lost) Sample.start in
  message (locals_of run) = Some "Сбой в работе программы: 'Такого статуса не существует'"
  /\ In (Log root_logger ERROR "Сбой в работе программы: 'Такого статуса не существует'")
        (events_of run)
  /\ timestamp (locals_of run) = VInt 100.
Proof.
  cbv zeta.
  apply (unknown_status_iteration Sample.cfg (Sample.offline Sample.delivering) Sample.start
           [("homeworks", VList [VDict [("homework_name", VStr "hw1");
                                        ("status", VStr "lost")]]);
            ("current_date", VInt 100)]
           [("homework_name", VStr "hw1"); ("status", VStr "lost")]
           [] "lost" (VInt 100)).
  - reflexivity.
  - reflexivity.
  - reflexivity.
  - simpl. intros [H|[H|[H|[]]]]; discriminate H.
Defined.

Lemma repeated_outage_notified_once_witness :
  let w1 := Sample.offline Sample.delivering in
  let w2 := with_outage (Sample.answering Sample.crashing VNone) Sample.connection_error in
  let first := iteration Sample.cfg w1 Sample.start in
  let second := iteration Sample.cfg w2 (locals_of first) in
  timestamp (locals_of first) = timestamp Sample.start
  /\ sent (events_of first) <> []
  /\ sent (events_of second) = []
  /\ result_of second = Return tt.
Proof.
  cbv zeta.
  destruct (repeated_outage_notified_once Sample.cfg
              (Sample.offline Sample.delivering)
              (with_outage (Sample.answering Sample.crashing VNone) Sample.connection_error)
              Sample.start
              (Exc2 WrongResponseCode (failed_text Sample.cfg 1700000000 (VInt 1699999000))
                 (Foreign Sample.connection_error)))
    as (C & _ & _ & _ & S & R).
  - reflexivity.
  - reflexivity.
  - vm_compute. reflexivity.
  - vm_compute. reflexivity.
  - split; [exact C|]. split; [vm_compute; discriminate|]. split; [exact S | exact R].
Defined.

Lemma start_failure_ends_main_witness :
  main Sample.cfg (Sample.building Sample.crashing) 1699999000
    [Sample.answering Sample.delivering Sample.reviewing]
  = ([Log root_logger INFO "Проверка наличия всех токенов";
      BotSend (Some "1001") "Бот начал работу"],
     Uncaught (Foreign Sample.broken_pipe)).
Proof.
  apply (start_failure_ends_main Sample.cfg (Sample.building Sample.crashing) 1699999000
           Sample.crashing [Sample.answering Sample.delivering Sample.reviewing]
           Sample.broken_pipe).
  - reflexivity.
  - reflexivity.
  - reflexivity.
  - reflexivity.
Defined.
